(** * Metadata2File: the type classifier and the organizing pipeline

    A shallow embedding of [FileProcessor] (src/main.py, and its twin in
    src/Metadata2File.py) and of the two entry points of
    [FileOrganizerGUI] that drive it.

    Conventions of the embedding:
    - Python [str] values are [string] (byte strings, a non-ASCII
      character being its UTF-8 bytes); file contents and headers are
      [list byte]. [str.lower] is the method of the class [Py.Unicode].
    - The file system is an explicit finite map from paths to nodes, with
      a set of paths that cannot be opened for reading. Functions that
      only read take the file system as an argument; functions that write
      are state transformers.
    - A Python exception is the outcome [Raise msg], [msg] being [str(e)].
    - The logger is a side channel and is left out, except for the
      "File processed" lines of main.py, which are kept as the run's log.
    - The external decoders (PIL, cv2, mutagen, PyPDF2, python-docx,
      python-pptx) are the methods of the class [Decoders]. *)

From Stdlib Require Import ZArith Strings.Ascii Strings.Byte.
From stdpp Require Import base option list strings gmap pretty.

#[local] Set Warnings "-clear-no-such-hyp".
Local Open Scope string_scope.

(** ** Python strings *)

Module Py.

(** [c.lower()] on the ASCII letters. *)
Definition lower_ascii (c : ascii) : ascii :=
  let n := nat_of_ascii c in
  if (65 <=? n)%nat && (n <=? 90)%nat then ascii_of_nat (n + 32) else c.

(** [s.lower()] for a string of ASCII characters: the letters A-Z become
    a-z and nothing else changes. *)
Fixpoint ascii_lower (s : string) : string :=
  match s with
  | EmptyString => EmptyString
  | String c s' => String (lower_ascii c) (ascii_lower s')
  end.

(** [s.isascii()]: every character is below 128. *)
Fixpoint isascii (s : string) : bool :=
  match s with
  | EmptyString => true
  | String c s' => (nat_of_ascii c <? 128)%nat && isascii s'
  end.

(** [s.lower()]. Python lower-cases by the case mapping of Unicode (the
    Kelvin sign U+212A becomes k, a final sigma depends on what is around
    it), and a string here is the byte string of its UTF-8 encoding. The
    mapping is a parameter of the embedding, of which only its action on
    ASCII text is fixed; what is proved holds for [str.lower] whatever it
    does to the other characters. *)
Class Unicode : Type := {
  lower : string -> string;
  lower_isascii : forall s, isascii s = true -> lower s = ascii_lower s
}.

(** [s.rfind(c)]: the index of the last occurrence of [c], or [-1]. *)
Fixpoint rfind (c : ascii) (s : string) : Z :=
  match s with
  | EmptyString => (-1)%Z
  | String a s' =>
      let r := rfind c s' in
      if (0 <=? r)%Z then (r + 1)%Z
      else if Ascii.eqb a c then 0%Z else (-1)%Z
  end.

(** [s[:n]] and [s[n:]] for [0 <= n]. *)
Fixpoint take (n : nat) (s : string) : string :=
  match n, s with
  | S n', String c s' => String c (take n' s')
  | _, _ => EmptyString
  end.

Fixpoint drop (n : nat) (s : string) : string :=
  match n, s with
  | S n', String _ s' => drop n' s'
  | _, _ => s
  end.

(** [s.startswith(c)] and [s.endswith(c)] for a one-character [c]. *)
Definition starts_with_char (c : ascii) (s : string) : bool :=
  match s with
  | String a _ => Ascii.eqb a c
  | EmptyString => false
  end.

Fixpoint ends_with_char (c : ascii) (s : string) : bool :=
  match s with
  | EmptyString => false
  | String a EmptyString => Ascii.eqb a c
  | String _ s' => ends_with_char c s'
  end.

(** [s.split(c)]. *)
Fixpoint split (c : ascii) (s : string) : list string :=
  match s with
  | EmptyString => [EmptyString]
  | String a s' =>
      if Ascii.eqb a c then EmptyString :: split c s'
      else match split c s' with
           | w :: ws => String a w :: ws
           | [] => [String a EmptyString]
           end
  end.

(** [header.startswith(sig)] on bytes. *)
Fixpoint startswith (header sig : list byte) {struct sig} : bool :=
  match sig, header with
  | [], _ => true
  | s :: sig', h :: header' => Byte.eqb h s && startswith header' sig'
  | _ :: _, [] => false
  end.

(** A bytes literal made of printable characters. *)
Definition b (s : string) : list byte := String.list_byte_of_string s.

(** The truth value of a string: [bool(s)]. *)
Definition truthy (s : string) : bool :=
  match s with EmptyString => false | _ => true end.

(** [s.rstrip(c)] for a one-character [c]. *)
Fixpoint rstrip (c : ascii) (s : string) : string :=
  match s with
  | EmptyString => EmptyString
  | String a s' =>
      match rstrip c s' with
      | EmptyString => if Ascii.eqb a c then EmptyString
                       else String a EmptyString
      | r => String a r
      end
  end.

(** [c in s] for a one-character [c]. *)
Fixpoint contains (c : ascii) (s : string) : bool :=
  match s with
  | EmptyString => false
  | String a s' => Ascii.eqb a c || contains c s'
  end.

(** [s == c * len(s)]: [s] is made of the character [c] only. *)
Fixpoint all_char (c : ascii) (s : string) : bool :=
  match s with
  | EmptyString => true
  | String a s' => Ascii.eqb a c && all_char c s'
  end.

End Py.

(** ** [os.path] and [pathlib] on POSIX paths *)

Module OsPath.

Definition sep : ascii := "/"%char.
Definition extsep : ascii := "."%char.

(** [os.path.join(a, b)]. *)
Definition join (a b : string) : string :=
  if Py.starts_with_char sep b then b
  else if negb (Py.truthy a) || Py.ends_with_char sep a then a +:+ b
  else a +:+ String sep b.

(** [os.path.basename(p)]. *)
Definition basename (p : string) : string :=
  Py.drop (Z.to_nat (Py.rfind sep p + 1)) p.

(** [os.path.dirname(p)]. *)
Definition dirname (p : string) : string :=
  let i := (Py.rfind sep p + 1)%Z in
  let head := Py.take (Z.to_nat i) p in
  if Py.truthy head && negb (Py.all_char sep head) then Py.rstrip sep head
  else head.

(** [Path(p).name]: the last component that is neither empty nor ".". *)
Definition Path_name (p : string) : string :=
  List.last (List.filter (fun x => Py.truthy x && negb (String.eqb x "."))
                         (Py.split sep p)) "".

(** The test [0 < i < len(name) - 1] shared by [suffix] and [stem]. *)
Definition has_suffix (name : string) : bool :=
  let i := Py.rfind extsep name in
  (0 <? i)%Z && (i <? Z.of_nat (String.length name) - 1)%Z.

(** [Path(p).suffix]. *)
Definition Path_suffix (p : string) : string :=
  let name := Path_name p in
  if has_suffix name then Py.drop (Z.to_nat (Py.rfind extsep name)) name
  else "".

(** [Path(p).stem]. *)
Definition Path_stem (p : string) : string :=
  let name := Path_name p in
  if has_suffix name then Py.take (Z.to_nat (Py.rfind extsep name)) name
  else name.

(** The loop of [genericpath._splitext] that skips leading dots: is there
    a character other than the dot in [p[from:upto]]? *)
Fixpoint has_non_dot (p : string) (from upto : nat) : bool :=
  match p with
  | EmptyString => false
  | String c p' =>
      match upto with
      | O => false
      | S upto' =>
          match from with
          | O => negb (Ascii.eqb c extsep) || has_non_dot p' O upto'
          | S from' => has_non_dot p' from' upto'
          end
      end
  end.

(** [os.path.splitext(p)]. *)
Definition splitext (p : string) : string * string :=
  let sepIndex := Py.rfind sep p in
  let dotIndex := Py.rfind extsep p in
  if (sepIndex <? dotIndex)%Z
     && has_non_dot p (Z.to_nat (sepIndex + 1)) (Z.to_nat dotIndex)
  then (Py.take (Z.to_nat dotIndex) p, Py.drop (Z.to_nat dotIndex) p)
  else (p, "").

End OsPath.

(** ** Outcomes of Python calls *)

Inductive outcome (A : Type) : Type :=
  | Return (a : A)
  | Raise (msg : string).
Arguments Return {A} a.
Arguments Raise {A} msg.

Definition obind {A B : Type} (m : outcome A) (k : A -> outcome B) : outcome B :=
  match m with
  | Return a => k a
  | Raise e => Raise e
  end.

(** [try: body except Exception as e: handler(str(e))]. *)
Definition try_except {A : Type} (body : outcome A) (handler : string -> A) : A :=
  match body with
  | Return a => a
  | Raise e => handler e
  end.

(** ** The file system

    A finite map from paths to nodes, and the set of the paths that
    cannot be opened for reading or listed. Directories are nodes of their
    own and are not required to exist for the files below them. Symbolic
    links, write permissions and free space are left out: a copy fails
    only when its source cannot be read or a directory is in its way, and
    [os.makedirs] only when a regular file is in its way, at the path
    itself or at one of the paths above it. Paths are compared as
    strings. *)

Inductive node : Type :=
  | File (content : list byte)
  | Dir.

Definition is_file (n : node) : bool :=
  match n with File _ => true | Dir => false end.

Record filesystem : Type := mkFS {
  nodes : gmap string node;
  denied : gset string
}.

Module FS.

Definition quoted (p : string) : string := "'" +:+ p +:+ "'".
Definition ENOENT (p : string) : string :=
  "[Errno 2] No such file or directory: " +:+ quoted p.
Definition EACCES (p : string) : string :=
  "[Errno 13] Permission denied: " +:+ quoted p.
Definition EEXIST (p : string) : string :=
  "[Errno 17] File exists: " +:+ quoted p.
Definition ENOTDIR (p : string) : string :=
  "[Errno 20] Not a directory: " +:+ quoted p.
Definition EISDIR (p : string) : string :=
  "[Errno 21] Is a directory: " +:+ quoted p.

(** [os.path.exists(p)]. *)
Definition exists_ (fs : filesystem) (p : string) : bool :=
  bool_decide (is_Some (nodes fs !! p)).

(** [os.path.isdir(p)]. *)
Definition isdir (fs : filesystem) (p : string) : bool :=
  match nodes fs !! p with Some Dir => true | _ => false end.

(** [os.path.getsize(p)]: a [stat], which needs no read permission. *)
Definition getsize (fs : filesystem) (p : string) : outcome nat :=
  match nodes fs !! p with
  | None => Raise (ENOENT p)
  | Some (File c) => Return (length c)
  | Some Dir => Return 0
  end.

(** [open(p, 'rb').read()]. *)
Definition read_all (fs : filesystem) (p : string) : outcome (list byte) :=
  match nodes fs !! p with
  | None => Raise (ENOENT p)
  | Some Dir => Raise (EISDIR p)
  | Some (File c) =>
      if bool_decide (p ∈ denied fs) then Raise (EACCES p) else Return c
  end.

(** [open(p, 'rb').read(n)]: a short read is not an error. *)
Definition read_header (fs : filesystem) (p : string) (n : nat)
  : outcome (list byte) :=
  obind (read_all fs p) (fun c => Return (List.firstn n c)).

(** The first lines of [os.makedirs]:
    [head, tail = path.split(name)
     if not tail: head, tail = path.split(head)],
    and the test [head and tail] that lets it go on with [head]: the
    path above [name], if there is one. *)
Definition above (name : string) : option string :=
  let head := OsPath.dirname name in
  let tail := OsPath.basename name in
  let '(head, tail) := if Py.truthy tail then (head, tail)
                       else (OsPath.dirname head, OsPath.basename head) in
  if Py.truthy head && Py.truthy tail then Some head else None.

(** The paths above [name], nearest first; each is shorter than the one
    before, so that the length of [name] is fuel enough. *)
Fixpoint ancestors_upto (fuel : nat) (name : string) : list string :=
  match fuel with
  | O => []
  | S fuel' =>
      match above name with
      | Some head => head :: ancestors_upto fuel' head
      | None => []
      end
  end.

Definition ancestors (name : string) : list string :=
  ancestors_upto (String.length name) name.

(** [os.mkdir] below a regular file: the path [child] cannot be made when
    one of the paths [heads] above it is a regular file; the error names
    the path just below the topmost of these, which is where
    [os.makedirs] makes its first directory. *)
Fixpoint not_a_directory (fs : filesystem) (child : string)
    (heads : list string) : option string :=
  match heads with
  | [] => None
  | head :: heads' =>
      match not_a_directory fs head heads' with
      | Some e => Some e
      | None =>
          match nodes fs !! head with
          | Some (File _) => Some (ENOTDIR child)
          | _ => None
          end
      end
  end.

(** What [os.makedirs(p, exist_ok=True)] raises, if it raises:
    [NotADirectoryError] when a path above [p] is a regular file,
    [FileExistsError] when [p] itself is one. *)
Definition makedirs_error (fs : filesystem) (p : string) : option string :=
  match not_a_directory fs p (ancestors p) with
  | Some e => Some e
  | None =>
      match nodes fs !! p with
      | Some (File _) => Some (EEXIST p)
      | _ => None
      end
  end.

(** [os.makedirs(p, exist_ok=True)]: when nothing is in the way, [p] and
    the paths above it that are not there yet become directories. *)
Definition makedirs (p : string) (fs : filesystem)
  : outcome unit * filesystem :=
  match makedirs_error fs p with
  | Some e => (Raise e, fs)
  | None =>
      (Return tt,
       mkFS (nodes fs ∪ gset_to_gmap Dir (list_to_set (p :: ancestors p)))
            (denied fs))
  end.

(** [shutil.copy2(src, dst)]: a directory as destination receives the
    file under the source's base name; copying a file onto itself is
    refused; the source is opened before the destination; an existing
    regular file is overwritten. *)
Definition copy2 (src dst : string) (fs : filesystem)
  : outcome unit * filesystem :=
  let dst := if isdir fs dst then OsPath.join dst (OsPath.basename src)
             else dst in
  if bool_decide (src = dst) && exists_ fs src then
    (Raise (quoted src +:+ " and " +:+ quoted dst +:+ " are the same file"),
     fs)
  else
    match read_all fs src with
    | Raise e => (Raise e, fs)
    | Return c =>
        if isdir fs dst then (Raise (EISDIR dst), fs)
        else (Return tt, mkFS (<[dst := File c]> (nodes fs)) (denied fs))
    end.

(** The paths [os.walk(top)] hands to the caller, joined as
    [os.path.join(root, filename)]: every regular file below [top]. An
    error while listing is ignored by [os.walk] ([onerror=None]), so a
    missing or unreadable [top], or one that is no directory, gives
    nothing. [os.walk] lists a directory before its subdirectories, and
    the entries of a directory in the order the system gives them; the
    order here is that of the keys of the map, and what is proved of a
    run holds for the list whatever its order. *)
Definition walk (fs : filesystem) (top : string) : list string :=
  if isdir fs top && negb (bool_decide (top ∈ denied fs)) then
    List.filter
      (fun p => String.prefix (OsPath.join top "") p
                && from_option is_file false (nodes fs !! p))
      (elements (dom (nodes fs)))
  else [].

End FS.

(** ** State and exceptions together

    A computation threads the file system and either returns, raises, or
    (the [None] of the option) exhausts the fuel of a [while] loop. A raise
    keeps the changes made to the file system before it. *)

Definition io (A : Type) : Type :=
  filesystem -> option (outcome A * filesystem).

Definition io_ret {A : Type} (a : A) : io A :=
  fun fs => Some (Return a, fs).

Definition io_bind {A B : Type} (m : io A) (k : A -> io B) : io B :=
  fun fs =>
    match m fs with
    | None => None
    | Some (Return a, fs') => k a fs'
    | Some (Raise e, fs') => Some (Raise e, fs')
    end.

(** A call that only reads. *)
Definition io_read {A : Type} (f : filesystem -> outcome A) : io A :=
  fun fs => Some (f fs, fs).

(** A call that writes and cannot loop. *)
Definition io_call {A : Type} (f : filesystem -> outcome A * filesystem) : io A :=
  fun fs => Some (f fs).

Declare Scope io_scope.
Delimit Scope io_scope with io.
Notation "'do' x <- m ; k" := (io_bind m (fun x => k))
  (at level 10, x name, m at level 100, k at level 200) : io_scope.
Notation "'do' ' pat <- m ; k" :=
  (io_bind m (fun x => match x with pat => k end))
  (at level 10, pat pattern, m at level 100, k at level 200) : io_scope.

(** ** The external decoders *)

Class Decoders : Type := {
  (** PIL [Image.open]: [img.size] and [img.format]. *)
  image_open : list byte -> outcome (Z * Z * string);
  (** [cv2.VideoCapture]: [None] when [cap.isOpened()] is false, else
      the frame width, the frame height and the frame rate as [int]s. *)
  video_capture : list byte -> outcome (option (Z * Z * Z));
  (** [mutagen.File]: [None] when the result is falsy or has no [info],
      else [int(info.length)] and the bit rate. *)
  mutagen_file : list byte -> outcome (option (Z * Z));
  (** [len(PyPDF2.PdfReader(f).pages)]. *)
  pdf_pages : list byte -> outcome nat;
  (** [len(docx.Document(path).paragraphs)]. *)
  docx_paragraphs : list byte -> outcome nat;
  (** [len(Presentation(path).slides)]. *)
  pptx_slides : list byte -> outcome nat;
  (** [len(f.readlines())] of the text decoded with [errors='ignore']. *)
  text_lines : list byte -> nat
}.

(** ** FileProcessor *)

Definition SUPPORTED_FORMATS : list (string * list string) :=
  [ ("Images", [".jpg"; ".jpeg"; ".png"; ".bmp"; ".tiff"; ".gif"; ".webp"; ".heic"]);
    ("Documents", [".pdf"; ".docx"; ".doc"; ".txt"; ".pptx"; ".ppt"]);
    ("Videos", [".mp4"; ".avi"; ".mkv"; ".mov"; ".wmv"; ".flv"; ".webm"]);
    ("Audio", [".mp3"; ".flac"; ".wav"; ".ogg"; ".m4a"; ".aac"]);
    ("Archives", [".zip"; ".rar"; ".7z"; ".tar"; ".gz"]);
    ("Executables", [".exe"; ".msi"; ".dmg"; ".deb"; ".rpm"]) ].

(** The [signatures] dict of [detect_file_type], in insertion order. *)
Definition signatures : list (list byte * (string * string)) :=
  [ ([xff; xd8; xff], ("Images", "jpeg"));
    (([x89] ++ Py.b "PNG" ++ [x0d; x0a; x1a; x0a])%list, ("Images", "png"));
    (Py.b "GIF87a", ("Images", "gif"));
    (Py.b "GIF89a", ("Images", "gif"));
    (Py.b "BM", ("Images", "bmp"));
    (Py.b "ftypheic", ("Images", "heic"));
    (Py.b "ftypheix", ("Images", "heic"));
    (Py.b "ftypmif1", ("Images", "heic"));
    (Py.b "ftypmsf1", ("Images", "heic"));
    (Py.b "RIFF", ("Videos", "webp"));
    (([x00; x00; x00; x18] ++ Py.b "ftypmp4")%list, ("Videos", "mp4"));
    (([x00; x00; x00; x20] ++ Py.b "ftypM4V")%list, ("Videos", "mp4"));
    (Py.b "%PDF", ("Documents", "pdf"));
    ((Py.b "PK" ++ [x03; x04])%list, ("Documents", "office"));
    (Py.b "ID3", ("Audio", "mp3"));
    ([xff; xfb], ("Audio", "mp3"));
    ([xff; xf3], ("Audio", "mp3"));
    (Py.b "fLaC", ("Audio", "flac"));
    (Py.b "OggS", ("Audio", "ogg"));
    (Py.b "PK", ("Archives", "zip"));
    (Py.b "Rar!", ("Archives", "rar"));
    ((Py.b "7z" ++ [xbc; xaf] ++ Py.b "'27" ++ [x1c])%list, ("Archives", "7z"));
    (Py.b "MZ", ("Executables", "exe")) ].

(** [for sig, (category, format_type) in signatures.items():
       if header.startswith(sig): return ...] *)
Definition match_signature (header : list byte) : option (string * string) :=
  snd <$> List.find (fun entry => Py.startswith header (fst entry)) signatures.

(** [for category, extensions in SUPPORTED_FORMATS.items():
       if ext in extensions: return ...] *)
Definition match_extension (ext : string) : option string :=
  fst <$> List.find (fun entry => List.existsb (String.eqb ext) (snd entry))
                    SUPPORTED_FORMATS.

(** The [try] block of [detect_file_type]. *)
Definition detect_file_type_body {U : Py.Unicode} (fs : filesystem)
    (file_path : string) : outcome (string * string * string) :=
  obind (FS.getsize fs file_path) (fun file_size =>
  obind (FS.read_header fs file_path 32) (fun header =>
  match match_signature header with
  | Some (category, format_type) =>
      Return (category, format_type, "magic_bytes")
  | None =>
      let ext := Py.lower (OsPath.Path_suffix file_path) in
      match match_extension ext with
      | Some category => Return (category, Py.drop 1 ext, "file_extension")
      | None => Return ("Other", "unknown", "unknown")
      end
  end)).

(** [detect_file_type]: the [except Exception as e] clause returns. *)
Definition detect_file_type {U : Py.Unicode} (fs : filesystem)
    (file_path : string) : outcome (string * string * string) :=
  Return (try_except (detect_file_type_body fs file_path)
                     (fun e => ("Error", e, "error"))).

Section Processor.
Context {U : Py.Unicode} `{Decoders}.

(** A decoder applied to the file at [file_path]. *)
Definition decode {A : Type} (dec : list byte -> outcome A)
    (fs : filesystem) (file_path : string) : outcome A :=
  obind (FS.read_all fs file_path) dec.

(** The [try] blocks of the four probes. *)
Definition get_image_info_body (fs : filesystem) (file_path : string)
  : outcome string :=
  obind (decode image_open fs file_path) (fun '(w, h, fmt) =>
    Return (pretty w +:+ "x" +:+ pretty h +:+ "_" +:+ fmt)).

Definition get_video_info_body (fs : filesystem) (file_path : string)
  : outcome string :=
  obind (decode video_capture fs file_path) (fun cap =>
    match cap with
    | Some (width, height, fps) =>
        Return (pretty width +:+ "x" +:+ pretty height +:+ "_"
                +:+ pretty fps +:+ "fps")
    | None => Return "unknown"
    end).

Definition get_audio_info_body (fs : filesystem) (file_path : string)
  : outcome string :=
  obind (decode mutagen_file fs file_path) (fun audio_file =>
    match audio_file with
    | Some (duration, bitrate) =>
        Return (pretty duration +:+ "s_" +:+ pretty bitrate +:+ "kbps")
    | None => Return "unknown"
    end).

Definition get_document_info_body (fs : filesystem) (file_path : string)
  : outcome string :=
  let ext := Py.lower (OsPath.Path_suffix file_path) in
  if String.eqb ext ".pdf" then
    obind (decode pdf_pages fs file_path) (fun n =>
      Return (pretty n +:+ "pages"))
  else if List.existsb (String.eqb ext) [".docx"; ".doc"] then
    obind (decode docx_paragraphs fs file_path) (fun n =>
      Return (pretty n +:+ "paragraphs"))
  else if List.existsb (String.eqb ext) [".pptx"; ".ppt"] then
    obind (decode pptx_slides fs file_path) (fun n =>
      Return (pretty n +:+ "slides"))
  else if String.eqb ext ".txt" then
    obind (FS.read_all fs file_path) (fun c =>
      Return (pretty (text_lines c) +:+ "lines"))
  else Return "document".

(** The probes: each [except Exception] clause returns a string. *)
Definition get_image_info (fs : filesystem) (file_path : string) : string :=
  try_except (get_image_info_body fs file_path) (fun _ => "unknown").

Definition get_video_info (fs : filesystem) (file_path : string) : string :=
  try_except (get_video_info_body fs file_path) (fun _ => "unknown").

Definition get_audio_info (fs : filesystem) (file_path : string) : string :=
  try_except (get_audio_info_body fs file_path) (fun _ => "unknown").

Definition get_document_info (fs : filesystem) (file_path : string) : string :=
  try_except (get_document_info_body fs file_path) (fun _ => "document").

(** The extension given to a file that has none. *)
Definition extension_from_format (format_type : string) : string :=
  if Py.truthy format_type && negb (String.eqb format_type "unknown")
  then "." +:+ format_type
  else ".unknown".

(** "Ensure extension exists" in [create_organized_filename]. *)
Definition ensure_extension (fs : filesystem) (file_path : string)
  : outcome string :=
  let extension := OsPath.Path_suffix file_path in
  if Py.truthy extension then Return extension
  else obind (detect_file_type fs file_path) (fun '(_, format_type, _) =>
         Return (extension_from_format format_type)).

(** "Get file info based on category". *)
Definition file_info (fs : filesystem) (file_path category : string) : string :=
  if String.eqb category "Images" then get_image_info fs file_path
  else if String.eqb category "Videos" then get_video_info fs file_path
  else if String.eqb category "Audio" then get_audio_info fs file_path
  else if String.eqb category "Documents" then get_document_info fs file_path
  else "".

Definition create_organized_filename (fs : filesystem)
    (file_path category : string) : outcome string :=
  let original_name := OsPath.Path_stem file_path in
  obind (ensure_extension fs file_path) (fun extension =>
  let info := file_info fs file_path category in
  if Py.truthy info && negb (String.eqb info "unknown")
  then Return (original_name +:+ "_" +:+ info +:+ extension)
  else Return (original_name +:+ extension)).

(** The candidate name with the counter before the extension. *)
Definition numbered (dest_folder base_name ext : string) (counter : nat) : string :=
  OsPath.join dest_folder (base_name +:+ "_" +:+ pretty counter +:+ ext).

(** [while os.path.exists(dest_path): ...; counter += 1]. *)
Fixpoint while_exists (fuel : nat) (fs : filesystem)
    (dest_folder base_name ext dest_path : string) (counter : nat)
  : option string :=
  match fuel with
  | O => None
  | S fuel' =>
      if FS.exists_ fs dest_path then
        while_exists fuel' fs dest_folder base_name ext
                     (numbered dest_folder base_name ext counter) (S counter)
      else Some dest_path
  end.

(** "Handle duplicate filenames": the path the file is copied to. *)
Definition free_path (dest_folder new_filename : string) : io string :=
  fun fs =>
    let dest_path := OsPath.join dest_folder new_filename in
    let counter := 1 in
    let '(base_name, ext) := OsPath.splitext new_filename in
    match while_exists (S (size (nodes fs))) fs dest_folder base_name ext
                       dest_path counter with
    | Some dest_path => Some (Return dest_path, fs)
    | None => None
    end.

(** The name under which the file is filed, before the collision loop. *)
Definition candidate_name (fs : filesystem) (add_metadata_to_filename : bool)
    (file_path category format_type : string) : string :=
  if add_metadata_to_filename then
    try_except (create_organized_filename fs file_path category) (fun _ => "")
  else
    OsPath.Path_stem file_path
    +:+ (if Py.truthy (OsPath.Path_suffix file_path)
         then OsPath.Path_suffix file_path
         else extension_from_format format_type).

(** The body of the [for] loop up to the copy: the category and the
    destination path of one file. *)
Definition destination (output_folder : string)
    (organize_by_type add_metadata_to_filename : bool) (file_path : string)
  : io (string * string) :=
  (do '(category, format_type, detection_method)
      <- io_read (fun fs => detect_file_type fs file_path);
   let dest_folder :=
     if organize_by_type then OsPath.join output_folder category
     else output_folder in
   do _ <- io_call (FS.makedirs dest_folder);
   let original_name := OsPath.Path_stem file_path in
   let original_extension := OsPath.Path_suffix file_path in
   let original_extension :=
     if Py.truthy original_extension then original_extension
     else extension_from_format format_type in
   do new_filename
      <- (if add_metadata_to_filename
          then io_read (fun fs => create_organized_filename fs file_path category)
          else io_ret (original_name +:+ original_extension));
   do dest_path <- free_path dest_folder new_filename;
   io_ret (category, dest_path))%io.

(** The whole [try] block of the loop: build the path, then copy. *)
Definition organize_file (output_folder : string)
    (organize_by_type add_metadata_to_filename : bool) (file_path : string)
  : io (string * string) :=
  (do '(category, dest_path)
      <- destination output_folder organize_by_type add_metadata_to_filename
                     file_path;
   do _ <- io_call (FS.copy2 file_path dest_path);
   io_ret (category, dest_path))%io.

(** [results]; the time stamp of an error entry is left out. *)
Record error_info : Type := mkError {
  error_file_path : string;
  error_message : string
}.

Record results : Type := mkResults {
  total_files : nat;
  processed_files : nat;
  errors : list error_info;
  categories : gmap string nat
}.

(** The statistics and the "File processed: name -> dest_path" lines. *)
Record run : Type := mkRun {
  stats : results;
  processed_log : list (string * string)
}.

(** "Update statistics". *)
Definition count_processed (category : string) (r : results) : results :=
  let cats := categories r in
  let cats := match cats !! category with
              | None => <[category := 0]> cats
              | Some _ => cats
              end in
  let cats := <[category := default 0 (cats !! category) + 1]> cats in
  mkResults (total_files r) (processed_files r + 1) (errors r) cats.

(** The [except Exception as e] clause of the loop. *)
Definition record_error (file_path e : string) (r : results) : results :=
  mkResults (total_files r) (processed_files r)
            (errors r ++ [mkError file_path e]) (categories r).

(** One iteration of [for i, file_path in enumerate(files)]. *)
Definition process_file (output_folder : string)
    (organize_by_type add_metadata_to_filename : bool) (file_path : string)
    (st : run) : filesystem -> option (run * filesystem) :=
  fun fs =>
    match organize_file output_folder organize_by_type
                        add_metadata_to_filename file_path fs with
    | None => None
    | Some (Return (category, dest_path), fs') =>
        Some (mkRun (count_processed category (stats st))
                    (processed_log st
                     ++ [(OsPath.basename file_path, dest_path)]), fs')
    | Some (Raise e, fs') =>
        Some (mkRun (record_error file_path e (stats st)) (processed_log st),
              fs')
    end.

Fixpoint for_files (output_folder : string)
    (organize_by_type add_metadata_to_filename : bool) (files : list string)
    (st : run) (fs : filesystem) : option (run * filesystem) :=
  match files with
  | [] => Some (st, fs)
  | file_path :: files' =>
      match process_file output_folder organize_by_type
                         add_metadata_to_filename file_path st fs with
      | None => None
      | Some (st', fs') =>
          for_files output_folder organize_by_type add_metadata_to_filename
                    files' st' fs'
      end
  end.

Definition process_and_organize_files (input_folder output_folder : string)
    (organize_by_type add_metadata_to_filename : bool) (fs : filesystem)
  : option (run * filesystem) :=
  let results := mkResults 0 0 [] ∅ in
  let files := FS.walk fs input_folder in
  let results := mkResults (length files) (processed_files results)
                           (errors results) (categories results) in
  for_files output_folder organize_by_type add_metadata_to_filename files
            (mkRun results []) fs.

(** ** FileOrganizerGUI *)

Record gui : Type := mkGui {
  input_folder : string;
  output_folder : string;
  organize_by_type : bool;
  add_metadata_to_filename : bool;
  processing : bool
}.

Definition set_processing (flag : bool) (g : gui) : gui :=
  mkGui (input_folder g) (output_folder g) (organize_by_type g)
        (add_metadata_to_filename g) flag.

(** What [start_processing] ends with: an error dialog, or the worker
    thread started. *)
Inductive started : Type :=
  | ErrorDialog (msg : string)
  | WorkerStarted.

Definition start_processing (g : gui) (fs : filesystem)
  : outcome started * gui * filesystem :=
  if negb (Py.truthy (input_folder g)) then
    (Return (ErrorDialog "Please select an input folder"), g, fs)
  else if negb (Py.truthy (output_folder g)) then
    (Return (ErrorDialog "Please select an output folder"), g, fs)
  else if negb (FS.exists_ fs (input_folder g)) then
    (Return (ErrorDialog "Input folder does not exist"), g, fs)
  else
    match FS.makedirs (output_folder g) fs with
    | (Raise e, fs') => (Raise e, g, fs')
    | (Return _, fs') => (Return WorkerStarted, set_processing true g, fs')
    end.

(** [stop_processing]: the flag is cleared (and the fact logged). *)
Definition stop_processing (g : gui) : gui := set_processing false g.

(** [process_files], the worker thread: the run, then the [finally]. *)
Definition process_files (g : gui) (fs : filesystem)
  : option (run * gui * filesystem) :=
  match process_and_organize_files (input_folder g) (output_folder g)
          (organize_by_type g) (add_metadata_to_filename g) fs with
  | None => None
  | Some (r, fs') => Some (r, set_processing false g, fs')
  end.

(** The worker's loop with the GUI thread interleaved: [stops] tells, file
    by file, whether the stop button is pressed just before the worker
    takes that file up. *)
Fixpoint for_files_with_stops (stops : list bool) (files : list string)
    (st : run) (g : gui) (fs : filesystem) : option (run * gui * filesystem) :=
  match files with
  | [] => Some (st, g, fs)
  | file_path :: files' =>
      let g := if List.hd false stops then stop_processing g else g in
      match process_file (output_folder g) (organize_by_type g)
                         (add_metadata_to_filename g) file_path st fs with
      | None => None
      | Some (st', fs') =>
          for_files_with_stops (List.tl stops) files' st' g fs'
      end
  end.

(** A run request: [start_processing], then the worker when it started. *)
Definition run_request (g : gui) (fs : filesystem)
  : option (outcome started * option run * gui * filesystem) :=
  match start_processing g fs with
  | (Return WorkerStarted, g', fs') =>
      match process_files g' fs' with
      | None => None
      | Some (r, g'', fs'') => Some (Return WorkerStarted, Some r, g'', fs'')
      end
  | (o, g', fs') => Some (o, None, g', fs')
  end.

End Processor.

(** The number of files counted under all categories. *)
Definition category_total (r : results) : nat :=
  map_fold (fun _ n acc => n + acc) 0 (categories r).

(** The regular files of a file system. *)
Definition regular_files (fs : filesystem) : gset string :=
  dom (filter (fun kv => is_file kv.2 = true) (nodes fs)).

(** The [i]-th path the loop tests, when it starts at [dest_path] with
    the counter at [counter]. *)
Definition tested (dest_folder base_name ext dest_path : string)
    (counter i : nat) : string :=
  match i with
  | O => dest_path
  | S j => numbered dest_folder base_name ext (counter + j)
  end.

(** [fs'] extends [fs]: every node of [fs] is still there, unchanged,
    and the same paths are unreadable. *)
Definition extends (fs fs' : filesystem) : Prop :=
  nodes fs ⊆ nodes fs' /\ denied fs' = denied fs.

(** The folder a file of the given category is copied to. *)
Definition dest_folder_of (output_folder : string) (organize_by_type : bool)
    (category : string) : string :=
  if organize_by_type then OsPath.join output_folder category
  else output_folder.

(** The file at [file_path] can be copied: the folder it goes to can
    be made and the file itself can be read. *)
Definition copies {U : Py.Unicode} (output_folder : string)
    (organize_by_type : bool)
    (fs : filesystem) (file_path : string) : Prop :=
  exists category format_type method c,
    detect_file_type fs file_path = Return (category, format_type, method)
    /\ FS.makedirs_error fs (dest_folder_of output_folder organize_by_type
                                            category) = None
    /\ FS.read_all fs file_path = Return c.

(** The destination paths the loop computes, file by file, whether or
    not the copy that follows succeeds. *)
Fixpoint computed_paths {U : Py.Unicode} `{Decoders} (output_folder : string)
    (organize_by_type add_metadata_to_filename : bool) (files : list string)
    (fs : filesystem) : list string :=
  match files with
  | [] => []
  | file_path :: files' =>
      let here :=
        match destination output_folder organize_by_type
                          add_metadata_to_filename file_path fs with
        | Some (Return (_, dest_path), _) => [dest_path]
        | _ => []
        end in
      match organize_file output_folder organize_by_type
                          add_metadata_to_filename file_path fs with
      | Some (_, fs') =>
          (here ++ computed_paths output_folder organize_by_type
                                  add_metadata_to_filename files' fs')%list
      | None => here
      end
  end.

(** ** The twin of the pipeline in src/Metadata2File.py

    [FileProcessor] is the same there up to the messages it sends to
    [log_callback]; its [process_and_organize_files] also counts the
    folders the files were found in, and the window logs the progress of
    one file in ten. *)

Module M2F.

(** [get_all_files_from_folder]. *)
Definition get_all_files_from_folder (fs : filesystem) (input_folder : string)
  : list string :=
  FS.walk fs input_folder.

(** "Count unique subfolders scanned". *)
Definition subfolders (files : list string) : gset string :=
  list_to_set (OsPath.dirname <$> files).

Record results : Type := mkScanned {
  run_stats : run;
  subfolders_scanned : nat
}.

Definition process_and_organize_files {U : Py.Unicode} `{Decoders}
    (input_folder output_folder : string)
    (organize_by_type add_metadata_to_filename : bool) (fs : filesystem)
  : option (results * filesystem) :=
  let files := get_all_files_from_folder fs input_folder in
  let subfolders := subfolders files in
  match for_files output_folder organize_by_type add_metadata_to_filename
                  files
                  (mkRun (mkResults (length files) 0 [] ∅) []) fs with
  | None => None
  | Some (r, fs') => Some (mkScanned r (size subfolders), fs')
  end.

(** [update_progress]: does the call write a line to the log? *)
Definition update_progress_logs (current total : nat) : bool :=
  (current mod 10 =? 0)%nat || (current =? total)%nat.

(** The calls [progress_callback(i + 1, len(files), ...)] of a run over
    [total] files that write a line. *)
Definition progress_lines (total : nat) : list nat :=
  List.filter (fun current => update_progress_logs current total)
              (seq 1 total).

End M2F.

(** ** Concrete inputs used by the examples *)

Module Examples.

(** [str.lower] on the names of the examples, which are ASCII. *)
Definition unicode : Py.Unicode := {|
  Py.lower := Py.ascii_lower;
  Py.lower_isascii := fun s _ => eq_refl
|}.

(** Decoders that recognise JPEG-like images and nothing else. *)
Definition decoders : Decoders := {|
  image_open := fun _ => Return (100%Z, 50%Z, "JPEG");
  video_capture := fun _ => Return None;
  mutagen_file := fun _ => Raise "can't sync to MPEG frame";
  pdf_pages := fun _ => Raise "EOF marker not found";
  docx_paragraphs := fun _ => Raise "File is not a zip file";
  pptx_slides := fun _ => Raise "File is not a zip file";
  text_lines := fun c => length (List.filter (Byte.eqb x0a) c)
|}.

Definition png : list byte :=
  ([x89] ++ Py.b "PNG" ++ [x0d; x0a; x1a; x0a] ++ Py.b "IHDR")%list.
Definition wav : list byte := Py.b "RIFF$WAVEfmt ".
Definition docx : list byte := (Py.b "PK" ++ [x03; x04; x14; x00])%list.
Definition broken_pdf : list byte := Py.b "%PDF-1.7 truncated".

(** A source tree with two files of the same name, one of them
    unreadable, an empty text file, and a few typed files. *)
Definition tree : filesystem :=
  mkFS (list_to_map
          [ ("/s", Dir);
            ("/s/a/x.png", File png);
            ("/s/b/x.png", File png);
            ("/s/empty.txt", File []);
            ("/s/notes.TXT", File (Py.b "plain text"));
            ("/s/report.pdf", File broken_pdf);
            ("/s/song.wav", File wav);
            ("/s/letter.bin", File docx) ])
       {[ "/s/a/x.png" ]}.

(** Two readable files of the same name. *)
Definition twins : filesystem :=
  mkFS (list_to_map
          [ ("/s", Dir);
            ("/s/a/x.png", File png);
            ("/s/b/x.png", File png) ])
       ∅.

(** The twins again, the first of them unreadable. *)
Definition half : filesystem :=
  mkFS (nodes twins) {[ "/s/a/x.png" ]}.


Definition running : gui := mkGui "/s" "/o" true false true.

(** A request whose destination is inside its source. *)
Definition nested : gui := mkGui "/s" "/s/out" false false false.

End Examples.

(** * Properties *)

(** ** Strings and paths *)

Section StringFacts.
Context {U : Py.Unicode}.

Lemma str_app_cons (c : ascii) (s t : string) :
  String c s +:+ t = String c (s +:+ t).
Proof. reflexivity. Qed.

Lemma str_length_app (s t : string) :
  String.length (s +:+ t) = String.length s + String.length t.
Proof.
  induction s as [|c s IH]; [done |]. rewrite str_app_cons. simpl. by rewrite IH.
Qed.

Lemma str_app_nil_r (s : string) : s +:+ "" = s.
Proof. induction s as [|c s IH]; [done |]. by rewrite str_app_cons, IH. Qed.

Lemma str_app_assoc (s t u : string) : (s +:+ t) +:+ u = s +:+ (t +:+ u).
Proof. induction s as [|c s IH]; [done |]. by rewrite !str_app_cons, IH. Qed.

Lemma str_app_inv_head (s t u : string) : s +:+ t = s +:+ u -> t = u.
Proof.
  induction s as [|c s IH]; [done |]. rewrite !str_app_cons. intros [= E]. auto.
Qed.

Lemma str_app_inv_tail (s t u : string) : s +:+ u = t +:+ u -> s = t.
Proof.
  revert t. induction s as [|c s IH]; intros [|d t] E.
  - done.
  - apply (f_equal String.length) in E.
    rewrite str_app_cons in E. change ("" +:+ u) with u in E.
    simpl in E. rewrite str_length_app in E. lia.
  - apply (f_equal String.length) in E.
    rewrite str_app_cons in E. change ("" +:+ u) with u in E.
    simpl in E. rewrite str_length_app in E. lia.
  - rewrite !str_app_cons in E. injection E as -> E. f_equal. by apply IH.
Qed.

Lemma take_drop (n : nat) (s : string) : Py.take n s +:+ Py.drop n s = s.
Proof.
  revert s. induction n as [|n IH]; intros [|c s]; simpl; try done.
  by rewrite str_app_cons, IH.
Qed.

Lemma splitext_app (p base ext : string) :
  OsPath.splitext p = (base, ext) -> base +:+ ext = p.
Proof.
  unfold OsPath.splitext. case_match; intros [= <- <-].
  - apply take_drop.
  - apply str_app_nil_r.
Qed.

End StringFacts.

(** ** The classifier *)

Section ClassifierFacts.
Context {U : Py.Unicode}.

Lemma startswith_firstn (n : nat) (sig content : list byte) :
  length sig <= n ->
  Py.startswith (List.firstn n content) sig = Py.startswith content sig.
Proof.
  revert n content. induction sig as [|s sig IH]; intros n content Hn.
  - by destruct (List.firstn n content), content.
  - destruct n as [|n]; simpl in Hn; [lia |].
    destruct content as [|h content]; simpl; [done |].
    rewrite IH; [done | lia].
Qed.

Lemma find_ext {A : Type} (f g : A -> bool) (l : list A) :
  Forall (fun x => f x = g x) l -> List.find f l = List.find g l.
Proof.
  induction 1 as [|x l E _ IH]; simpl; [done |]. by rewrite E, IH.
Qed.

Lemma find_first {A : Type} (f : A -> bool) (l : list A) (i : nat) (x : A) :
  l !! i = Some x -> f x = true ->
  (forall j y, j < i -> l !! j = Some y -> f y = false) ->
  List.find f l = Some x.
Proof.
  revert i. induction l as [|a l IH]; intros i Hi Hx Hlt; [done |].
  destruct i as [|i]; simpl in *.
  - injection Hi as ->. by rewrite Hx.
  - rewrite (Hlt 0 a); [| lia | done].
    apply (IH i); [done.. |].
    intros j y Hj Hy. apply (Hlt (S j)); [lia | done].
Qed.

Lemma find_some_exists {A : Type} (f : A -> bool) (l : list A) (x : A) :
  x ∈ l -> f x = true -> exists y, List.find f l = Some y /\ y ∈ l /\ f y = true.
Proof.
  induction 1 as [x l | x a l _ IH]; intros Hx; simpl.
  - rewrite Hx. exists x. split_and!; [done | left | done].
  - destruct (f a) eqn:Ha.
    + exists a. split_and!; [done | left | done].
    + destruct (IH Hx) as (y & ? & ? & ?). exists y.
      split_and!; [done | by right | done].
Qed.

Lemma signatures_short :
  Forall (fun entry => length entry.1 <= 32) signatures.
Proof. repeat constructor; simpl; lia. Qed.

(** Every signature fits in the 32 bytes that are read. *)
Lemma match_signature_header (content : list byte) :
  match_signature (List.firstn 32 content) = match_signature content.
Proof.
  unfold match_signature. f_equal. apply find_ext.
  eapply Forall_impl; [apply signatures_short |].
  intros entry Hlen. by apply startswith_firstn.
Qed.

Lemma read_all_Return (fs : filesystem) (p : string) (c : list byte) :
  FS.read_all fs p = Return c <-> nodes fs !! p = Some (File c) /\ p ∉ denied fs.
Proof.
  unfold FS.read_all. destruct (nodes fs !! p) as [[c'|]|].
  - case_bool_decide; split; try done; try by intros [[= ->] ?].
    by intros [= ->].
  - by split; [| intros [? ?]].
  - by split; [| intros [? ?]].
Qed.

(** What [detect_file_type] computes on a file that can be read. *)
Lemma detect_file_type_readable (fs : filesystem) (p : string) (c : list byte) :
  FS.read_all fs p = Return c ->
  detect_file_type fs p =
  Return match match_signature c with
         | Some (category, format_type) =>
             (category, format_type, "magic_bytes")
         | None =>
             let ext := Py.lower (OsPath.Path_suffix p) in
             match match_extension ext with
             | Some category => (category, Py.drop 1 ext, "file_extension")
             | None => ("Other", "unknown", "unknown")
             end
         end.
Proof.
  intros Hread. unfold detect_file_type, detect_file_type_body, FS.read_header.
  rewrite Hread. apply read_all_Return in Hread as [Hnode _].
  unfold FS.getsize. rewrite Hnode. simpl. rewrite match_signature_header.
  destruct (match_signature c) as [[category format_type]|]; [done |].
  by destruct (match_extension _).
Qed.

Lemma startswith_cons_inv (h : byte) (sig content : list byte) :
  Py.startswith content (h :: sig) = true ->
  exists rest, content = h :: rest /\ Py.startswith rest sig = true.
Proof.
  destruct content as [|h' rest]; simpl; [done |].
  intros [E ?]%andb_prop. apply byte_dec_bl in E as ->. eauto.
Qed.

End ClassifierFacts.

(** C1. On a readable file whose first bytes start with a supported
    signature, the signatures are tried in the order of the table and the
    first one that matches decides the category and the format, whatever
    the name of the file; the method is then "magic_bytes". A header that
    starts with PK\x03\x04 gives (Documents, office) although the later
    entry PK matches too, and a header that starts with RIFF gives
    (Videos, webp). *)
Theorem detect_file_type_first_signature_wins {U : Py.Unicode}
    (fs : filesystem) (file_path : string) (content : list byte) :
  FS.read_all fs file_path = Return content ->
  (forall i sig category format_type,
     signatures !! i = Some (sig, (category, format_type)) ->
     Py.startswith content sig = true ->
     (forall j entry, j < i -> signatures !! j = Some entry ->
                      Py.startswith content entry.1 = false) ->
     detect_file_type fs file_path
     = Return (category, format_type, "magic_bytes"))
  /\ ((exists entry, entry ∈ signatures
                     /\ Py.startswith content entry.1 = true) ->
      exists sig category format_type,
        (sig, (category, format_type)) ∈ signatures
        /\ Py.startswith content sig = true
        /\ detect_file_type fs file_path
           = Return (category, format_type, "magic_bytes"))
  /\ (Py.startswith content (Py.b "PK" ++ [x03; x04])%list = true ->
      Py.startswith content (Py.b "PK") = true
      /\ detect_file_type fs file_path
         = Return ("Documents", "office", "magic_bytes"))
  /\ (Py.startswith content (Py.b "RIFF") = true ->
      detect_file_type fs file_path
      = Return ("Videos", "webp", "magic_bytes")).
Proof.
  intros Hread. rewrite (detect_file_type_readable _ _ _ Hread).
  split_and!.
  - intros i sig category format_type Hi Hsig Hfirst.
    unfold match_signature.
    rewrite (find_first _ _ i (sig, (category, format_type))); done.
  - intros (entry & Hin & Hsig).
    destruct (find_some_exists (fun e => Py.startswith content e.1)
                _ entry Hin Hsig) as ([sig [category format_type]] & Hf & ? & ?).
    exists sig, category, format_type. unfold match_signature.
    by rewrite Hf.
  - intros Hpk.
    apply startswith_cons_inv in Hpk as (r1 & -> & Hpk).
    apply startswith_cons_inv in Hpk as (r2 & -> & Hpk).
    apply startswith_cons_inv in Hpk as (r3 & -> & Hpk).
    apply startswith_cons_inv in Hpk as (r4 & -> & _).
    split; [reflexivity | by vm_compute].
  - intros Hriff.
    apply startswith_cons_inv in Hriff as (r1 & -> & Hriff).
    apply startswith_cons_inv in Hriff as (r2 & -> & Hriff).
    apply startswith_cons_inv in Hriff as (r3 & -> & Hriff).
    apply startswith_cons_inv in Hriff as (r4 & -> & _).
    by vm_compute.
Qed.

(** A RIFF audio file with the extension .wav is filed under Videos. *)
Lemma detect_file_type_first_signature_wins_witness :
  FS.read_all Examples.tree "/s/song.wav" = Return Examples.wav
  /\ detect_file_type (U := Examples.unicode) Examples.tree "/s/song.wav"
     = Return ("Videos", "webp", "magic_bytes").
Proof.
  split; [reflexivity |].
  exact (proj2 (proj2 (proj2
    (detect_file_type_first_signature_wins (U := Examples.unicode)
        Examples.tree "/s/song.wav"
       Examples.wav eq_refl))) eq_refl).
Defined.

Section ExtensionFacts.
Context {U : Py.Unicode}.

Lemma find_none {A : Type} (f : A -> bool) (l : list A) :
  (forall x, x ∈ l -> f x = false) -> List.find f l = None.
Proof.
  induction l as [|a l IH]; intros Hall; simpl; [done |].
  rewrite (Hall a); [| by left]. apply IH. intros x Hx. apply Hall. by right.
Qed.

(** No extension is listed under two categories. *)
Lemma SUPPORTED_FORMATS_functional :
  Forall (fun entry =>
            Forall (fun ext => match_extension ext = Some entry.1) entry.2)
         SUPPORTED_FORMATS.
Proof. repeat constructor. Qed.

Lemma match_extension_listed (category ext : string) (extensions : list string) :
  (category, extensions) ∈ SUPPORTED_FORMATS -> ext ∈ extensions ->
  match_extension ext = Some category.
Proof.
  intros Hentry Hext.
  pose proof SUPPORTED_FORMATS_functional as Hall.
  rewrite Forall_forall in Hall. specialize (Hall _ Hentry). simpl in Hall.
  rewrite Forall_forall in Hall. by apply Hall.
Qed.

Lemma match_signature_empty : match_signature [] = None.
Proof. reflexivity. Qed.

End ExtensionFacts.

(** C7. When the header of a readable file matches no signature and the
    lower-cased extension of its name is listed for a category in
    SUPPORTED_FORMATS, the result is that category, the lower-cased
    extension without its dot, and the method "file_extension". The
    extension is lower-cased as [str.lower] does it; for an extension of
    ASCII characters that is: with a-z for A-Z. *)
Theorem detect_file_type_extension_fallback {U : Py.Unicode}
    (fs : filesystem) (file_path : string) (content : list byte)
    (category : string) (extensions : list string) :
  FS.read_all fs file_path = Return content ->
  (forall entry, entry ∈ signatures ->
                 Py.startswith content entry.1 = false) ->
  (category, extensions) ∈ SUPPORTED_FORMATS ->
  (Py.lower (OsPath.Path_suffix file_path) ∈ extensions ->
   detect_file_type fs file_path
   = Return (category, Py.drop 1 (Py.lower (OsPath.Path_suffix file_path)),
             "file_extension"))
  /\ (Py.isascii (OsPath.Path_suffix file_path) = true ->
      Py.ascii_lower (OsPath.Path_suffix file_path) ∈ extensions ->
      detect_file_type fs file_path
      = Return (category,
                Py.drop 1 (Py.ascii_lower (OsPath.Path_suffix file_path)),
                "file_extension")).
Proof.
  intros Hread Hnosig Hentry.
  assert (Py.lower (OsPath.Path_suffix file_path) ∈ extensions ->
          detect_file_type fs file_path
          = Return (category,
                    Py.drop 1 (Py.lower (OsPath.Path_suffix file_path)),
                    "file_extension")) as Hlower.
  { intros Hext. rewrite (detect_file_type_readable _ _ _ Hread).
    unfold match_signature. rewrite find_none; [| done]. simpl.
    by rewrite (match_extension_listed _ _ _ Hentry Hext). }
  split; [exact Hlower |]. intros Hascii.
  rewrite <- (Py.lower_isascii _ Hascii). exact Hlower.
Qed.

(** A plain text file named with an upper-case extension. *)
Lemma detect_file_type_extension_fallback_witness :
  detect_file_type (U := Examples.unicode) Examples.tree "/s/notes.TXT"
  = Return ("Documents", "txt", "file_extension").
Proof.
  apply (detect_file_type_extension_fallback (U := Examples.unicode)
           Examples.tree "/s/notes.TXT" (Py.b "plain text") "Documents"
           [".pdf"; ".docx"; ".doc"; ".txt"; ".pptx"; ".ppt"]).
  - reflexivity.
  - intros entry Hin. unfold signatures in Hin.
    repeat (apply elem_of_cons in Hin as [-> | Hin]; [reflexivity |]).
    by apply elem_of_nil in Hin.
  - unfold SUPPORTED_FORMATS. apply elem_of_cons. right.
    apply elem_of_cons. by left.
  - reflexivity.
  - vm_compute. do 3 (apply elem_of_cons; right). apply elem_of_cons. by left.
Defined.

(** C8, as the code has it. A zero-byte file never makes the classifier
    raise and never matches a signature; it is classified by its
    extension when that is listed (method "file_extension"), is (Other,
    unknown, unknown) when it is not, and is (Error, text, error) when
    the file cannot be opened. *)
Theorem detect_file_type_zero_byte {U : Py.Unicode}
    (fs : filesystem) (file_path : string) :
  nodes fs !! file_path = Some (File []) ->
  exists category format_type method,
    detect_file_type fs file_path = Return (category, format_type, method)
    /\ method <> "magic_bytes"
    /\ ((file_path ∈ denied fs /\ category = "Error" /\ method = "error"
         /\ format_type = FS.EACCES file_path)
        \/ ((file_path ∉ denied fs)
            /\ match_extension (Py.lower (OsPath.Path_suffix file_path)) = None
            /\ category = "Other" /\ format_type = "unknown"
            /\ method = "unknown")
        \/ ((file_path ∉ denied fs)
            /\ match_extension (Py.lower (OsPath.Path_suffix file_path))
               = Some category
            /\ format_type = Py.drop 1 (Py.lower (OsPath.Path_suffix file_path))
            /\ method = "file_extension")).
Proof.
  intros Hnode. destruct (decide (file_path ∈ denied fs)) as [Hden | Hden].
  - exists "Error", (FS.EACCES file_path), "error".
    split_and!; [| done | by left].
    unfold detect_file_type, detect_file_type_body, FS.getsize, FS.read_header,
      FS.read_all.
    rewrite Hnode. simpl. by rewrite bool_decide_eq_true_2.
  - assert (FS.read_all fs file_path = Return []) as Hread
      by by apply read_all_Return.
    rewrite (detect_file_type_readable _ _ _ Hread), match_signature_empty.
    simpl.
    destruct (match_extension _) as [category|] eqn:Hext.
    + eexists _, _, _. split_and!; [done | done |]. right. right. done.
    + eexists _, _, _. split_and!; [done | done |]. right. left. done.
Qed.

Lemma detect_file_type_zero_byte_witness :
  exists category format_type method,
    detect_file_type (U := Examples.unicode) Examples.tree "/s/empty.txt"
    = Return (category, format_type, method)
    /\ method <> "magic_bytes".
Proof.
  destruct (detect_file_type_zero_byte (U := Examples.unicode)
      Examples.tree "/s/empty.txt" eq_refl)
    as (category & format_type & method & Hd & Hm & _).
  by exists category, format_type, method.
Defined.

(** An empty file named empty.txt is a Document found by its extension:
    neither Other nor Error, and neither "unknown" nor "error". *)
Lemma detect_file_type_zero_byte_counterexample :
  nodes Examples.tree !! "/s/empty.txt" = Some (File [])
  /\ ~ (exists category format_type method,
          detect_file_type (U := Examples.unicode) Examples.tree "/s/empty.txt"
          = Return (category, format_type, method)
          /\ (category = "Other" \/ category = "Error")
          /\ (method = "unknown" \/ method = "error")).
Proof.
  split; [reflexivity |].
  intros (category & format_type & method & Hd & Hc & _).
  vm_compute in Hd. injection Hd as <- _ _. by destruct Hc.
Qed.

(** ** Candidate paths are pairwise distinct *)

Section PathFacts.
Context {U : Py.Unicode}.

Lemma join_alt (a b : string) :
  OsPath.join a b
  = if Py.starts_with_char OsPath.sep b then b else OsPath.join a "" +:+ b.
Proof.
  unfold OsPath.join. destruct (Py.starts_with_char OsPath.sep b); [done |].
  simpl. destruct (negb (Py.truthy a) || Py.ends_with_char OsPath.sep a).
  - by rewrite str_app_nil_r.
  - by rewrite str_app_assoc.
Qed.

Lemma starts_with_char_app (c : ascii) (s t : string) :
  s <> "" -> Py.starts_with_char c (s +:+ t) = Py.starts_with_char c s.
Proof. by destruct s. Qed.

Lemma join_length_lt (a s t : string) :
  String.length s < String.length t ->
  Py.starts_with_char OsPath.sep s = Py.starts_with_char OsPath.sep t
  \/ Py.starts_with_char OsPath.sep t = false ->
  String.length (OsPath.join a s) < String.length (OsPath.join a t).
Proof.
  intros Hlen Hsep. rewrite (join_alt a s), (join_alt a t).
  destruct Hsep as [-> | ->].
  - destruct (Py.starts_with_char OsPath.sep t); [done |].
    rewrite !str_length_app. lia.
  - destruct (Py.starts_with_char OsPath.sep s); rewrite ?str_length_app; lia.
Qed.

Lemma join_inj (a s t : string) :
  Py.starts_with_char OsPath.sep s = Py.starts_with_char OsPath.sep t ->
  OsPath.join a s = OsPath.join a t -> s = t.
Proof.
  intros Hsep. rewrite (join_alt a s), (join_alt a t), Hsep.
  destruct (Py.starts_with_char OsPath.sep t); [done |]. apply str_app_inv_head.
Qed.

Lemma starts_with_sep_numbered (base_name ext1 ext2 : string) :
  Py.starts_with_char OsPath.sep (base_name +:+ "_" +:+ ext1)
  = Py.starts_with_char OsPath.sep (base_name +:+ "_" +:+ ext2).
Proof. by destruct base_name. Qed.

Lemma numbered_inj (dest_folder base_name ext : string) (n m : nat) :
  numbered dest_folder base_name ext n = numbered dest_folder base_name ext m ->
  n = m.
Proof.
  unfold numbered. intros E.
  apply join_inj in E; [| apply starts_with_sep_numbered].
  apply str_app_inv_head, str_app_inv_head, str_app_inv_tail in E.
  by apply (inj pretty).
Qed.

Lemma numbered_longer (dest_folder base_name ext : string) (n : nat) :
  String.length (OsPath.join dest_folder (base_name +:+ ext))
  < String.length (numbered dest_folder base_name ext n).
Proof.
  unfold numbered. apply join_length_lt.
  - rewrite !str_length_app. simpl. lia.
  - destruct base_name as [|c base_name]; [by right | by left].
Qed.

Lemma while_exists_None (fuel : nat) (fs : filesystem)
    (dest_folder base_name ext dest_path : string) (counter : nat) :
  while_exists fuel fs dest_folder base_name ext dest_path counter = None ->
  forall i, i < fuel ->
    FS.exists_ fs (tested dest_folder base_name ext dest_path counter i) = true.
Proof.
  revert dest_path counter.
  induction fuel as [|fuel IH]; intros dest_path counter Hnone i Hi; [lia |].
  simpl in Hnone. destruct (FS.exists_ fs dest_path) eqn:Hex; [| done].
  destruct i as [|i]; [done |].
  specialize (IH _ _ Hnone i ltac:(lia)).
  destruct i as [|i]; simpl in *.
  - by rewrite Nat.add_0_r.
  - by replace (counter + S i) with (S (counter + i)) by lia.
Qed.

(** What the loop returns is free, and it is the first free path among
    those tested. *)
Lemma while_exists_Some (fuel : nat) (fs : filesystem)
    (dest_folder base_name ext dest_path found : string) (counter : nat) :
  while_exists fuel fs dest_folder base_name ext dest_path counter
  = Some found ->
  exists i,
    found = tested dest_folder base_name ext dest_path counter i
    /\ FS.exists_ fs found = false
    /\ forall j, j < i ->
         FS.exists_ fs (tested dest_folder base_name ext dest_path counter j)
         = true.
Proof.
  revert dest_path counter.
  induction fuel as [|fuel IH]; intros dest_path counter Hsome; [done |].
  simpl in Hsome. destruct (FS.exists_ fs dest_path) eqn:Hex.
  - destruct (IH _ _ Hsome) as (i & -> & Hfree & Hbefore).
    exists (S i). split_and!.
    + destruct i as [|i]; simpl; [by rewrite Nat.add_0_r |].
      by replace (counter + S i) with (S (counter + i)) by lia.
    + done.
    + intros [|j] Hj; [done |].
      specialize (Hbefore j ltac:(lia)).
      destruct j as [|j]; simpl in *; [by rewrite Nat.add_0_r |].
      by replace (counter + S j) with (S (counter + j)) by lia.
  - injection Hsome as <-. exists 0. split_and!; [done | done |].
    intros j Hj. lia.
Qed.

Lemma tested_inj (dest_folder base_name ext : string) (counter i j : nat) :
  tested dest_folder base_name ext
         (OsPath.join dest_folder (base_name +:+ ext)) counter i
  = tested dest_folder base_name ext
           (OsPath.join dest_folder (base_name +:+ ext)) counter j ->
  i = j.
Proof.
  destruct i as [|i], j as [|j]; simpl; intros E.
  - done.
  - pose proof (numbered_longer dest_folder base_name ext (counter + j)).
    rewrite <- E in *. lia.
  - pose proof (numbered_longer dest_folder base_name ext (counter + i)).
    rewrite E in *. lia.
  - apply numbered_inj in E. lia.
Qed.

(** More distinct paths than the file system has entries cannot all
    exist. *)
Lemma exists_pigeonhole (fs : filesystem) (f : nat -> string) (n : nat) :
  (forall i j, f i = f j -> i = j) ->
  (forall i, i < n -> FS.exists_ fs (f i) = true) ->
  n <= size (nodes fs).
Proof.
  intros Hinj Hex.
  assert (NoDup (f <$> seq 0 n)) as Hnodup.
  { apply NoDup_fmap_2_strong; [| apply NoDup_seq]. intros; by apply Hinj. }
  assert (f <$> seq 0 n ⊆+ elements (dom (nodes fs))) as Hsub.
  { apply NoDup_submseteq; [done |]. intros x Hx.
    apply list_elem_of_fmap in Hx as (i & -> & Hi).
    apply elem_of_seq in Hi. apply elem_of_elements, elem_of_dom.
    specialize (Hex i ltac:(lia)). unfold FS.exists_ in Hex.
    by apply bool_decide_eq_true in Hex. }
  apply submseteq_length in Hsub.
  rewrite length_fmap, length_seq in Hsub.
  by rewrite <- size_dom.
Qed.

(** The collision loop always finds a free path. *)
Lemma free_path_total (dest_folder new_filename : string) (fs : filesystem) :
  exists dest_path,
    free_path dest_folder new_filename fs = Some (Return dest_path, fs)
    /\ FS.exists_ fs dest_path = false.
Proof.
  unfold free_path.
  destruct (OsPath.splitext new_filename) as [base_name ext] eqn:Hsplit.
  apply splitext_app in Hsplit as <-.
  destruct (while_exists _ _ _ _ _ _ _) as [found|] eqn:Hloop.
  - exists found. split; [done |].
    by destruct (while_exists_Some _ _ _ _ _ _ _ _ Hloop) as (i & _ & ? & _).
  - pose proof (while_exists_None _ _ _ _ _ _ _ Hloop) as Hall.
    apply exists_pigeonhole in Hall; [lia |].
    intros i j. apply tested_inj.
Qed.

End PathFacts.

(** ** One file: what a step does to the file system *)

Section StepFacts.
Context {U : Py.Unicode} `{Decoders}.

#[global] Instance extends_preorder : PreOrder extends.
Proof.
  split.
  - intros fs. by split.
  - intros fs1 fs2 fs3 [Hn1 Hd1] [Hn2 Hd2]. split.
    + by transitivity (nodes fs2).
    + by rewrite Hd2.
Qed.

Lemma extends_lookup (fs fs' : filesystem) (p : string) (n : node) :
  extends fs fs' -> nodes fs !! p = Some n -> nodes fs' !! p = Some n.
Proof. intros [Hsub _] Hn. by eapply lookup_weaken. Qed.

Lemma elem_of_regular_files (fs : filesystem) (p : string) :
  p ∈ regular_files fs <-> exists c, nodes fs !! p = Some (File c).
Proof.
  unfold regular_files. rewrite elem_of_dom. split.
  - intros [n [Hn Hfile]%map_lookup_filter_Some]. simpl in Hfile.
    destruct n; [eauto | done].
  - intros [c Hc]. exists (File c). by apply map_lookup_filter_Some.
Qed.

Lemma exists_false (fs : filesystem) (p : string) :
  FS.exists_ fs p = false <-> nodes fs !! p = None.
Proof.
  unfold FS.exists_. rewrite bool_decide_eq_false, <- eq_None_not_Some. done.
Qed.

(** The path above a path is shorter. *)
Lemma take_length_le (n : nat) (s : string) :
  String.length (Py.take n s) <= n.
Proof.
  revert s. induction n as [|n IH]; intros [|c s]; simpl; try lia.
  specialize (IH s). lia.
Qed.







Lemma not_a_directory_None (fs : filesystem) (child : string)
    (heads : list string) :
  FS.not_a_directory fs child heads = None
  <-> forall q c, q ∈ heads -> nodes fs !! q <> Some (File c).
Proof.
  revert child. induction heads as [|head heads IH]; intros child; simpl.
  { split; [| done]. intros _ q c Hq. by apply elem_of_nil in Hq. }
  destruct (FS.not_a_directory fs head heads) as [e|] eqn:Hup.
  - split; [done |]. intros Hno.
    assert (FS.not_a_directory fs head heads = None) as Hnone.
    { apply IH. intros q c Hq. apply Hno. by right. }
    congruence.
  - pose proof (proj1 (IH head) Hup) as Hno.
    destruct (nodes fs !! head) as [[c|]|] eqn:Hhead.
    + split; [done |]. intros Hall. destruct (Hall head c); [by left | done].
    + split; [| done]. intros _ q c [-> | Hq]%elem_of_cons; [congruence |].
      by apply Hno.
    + split; [| done]. intros _ q c [-> | Hq]%elem_of_cons; [congruence |].
      by apply Hno.
Qed.

(** [os.makedirs] raises exactly when a regular file stands at the path
    or at a path above it. *)
Lemma makedirs_error_None (fs : filesystem) (p : string) :
  FS.makedirs_error fs p = None
  <-> forall q c, q ∈ p :: FS.ancestors p -> nodes fs !! q <> Some (File c).
Proof.
  unfold FS.makedirs_error.
  destruct (FS.not_a_directory fs p (FS.ancestors p)) as [e|] eqn:Hup.
  - split; [done |]. intros Hno.
    assert (FS.not_a_directory fs p (FS.ancestors p) = None) as Hnone.
    { apply not_a_directory_None. intros q c Hq. apply Hno. by right. }
    congruence.
  - pose proof (proj1 (not_a_directory_None _ _ _) Hup) as Hno.
    destruct (nodes fs !! p) as [[c|]|] eqn:Hp.
    + split; [done |]. intros Hall. destruct (Hall p c); [by left | done].
    + split; [| done]. intros _ q c [-> | Hq]%elem_of_cons; [congruence |].
      by apply Hno.
    + split; [| done]. intros _ q c [-> | Hq]%elem_of_cons; [congruence |].
      by apply Hno.
Qed.

(** The errors of [os.makedirs]: [FileExistsError] for the path itself,
    [NotADirectoryError] for the path or a path above it, below a
    regular file. *)
Lemma not_a_directory_Some (fs : filesystem) (child : string)
    (heads : list string) (e : string) :
  FS.not_a_directory fs child heads = Some e ->
  (exists h c, h ∈ heads /\ nodes fs !! h = Some (File c))
  /\ exists q, q ∈ child :: heads /\ e = FS.ENOTDIR q.
Proof.
  revert child. induction heads as [|head heads IH]; intros child; simpl;
    [done |].
  destruct (FS.not_a_directory fs head heads) as [e'|] eqn:Hup.
  - intros [= <-]. destruct (IH head Hup) as ((h & c & Hh & Hc) & q & Hq & ->).
    split.
    + exists h, c. split; [by right | done].
    + exists q. split; [by right | done].
  - destruct (nodes fs !! head) as [[c|]|] eqn:Hhead; [| done..].
    intros [= <-]. split.
    + exists head, c. split; [by left | done].
    + exists child. split; [by left | done].
Qed.

Lemma makedirs_error_Some (fs : filesystem) (p e : string) :
  FS.makedirs_error fs p = Some e ->
  (exists q c, q ∈ p :: FS.ancestors p /\ nodes fs !! q = Some (File c))
  /\ (e = FS.EEXIST p
      \/ exists q, q ∈ p :: FS.ancestors p /\ e = FS.ENOTDIR q).
Proof.
  unfold FS.makedirs_error.
  destruct (FS.not_a_directory fs p (FS.ancestors p)) as [e'|] eqn:Hup.
  - intros [= <-].
    destruct (not_a_directory_Some _ _ _ _ Hup) as ((h & c & Hh & Hc) & Hq).
    split; [| by right]. exists h, c. split; [by right | done].
  - destruct (nodes fs !! p) as [[c|]|] eqn:Hp; [| done..].
    intros [= <-]. split; [| by left]. exists p, c. split; [by left | done].
Qed.

Lemma makedirs_spec (p : string) (fs : filesystem) :
  (exists e, FS.makedirs_error fs p = Some e
             /\ FS.makedirs p fs = (Raise e, fs))
  \/ FS.makedirs_error fs p = None
     /\ exists fs', FS.makedirs p fs = (Return tt, fs')
                    /\ extends fs fs'
                    /\ nodes fs' !! p = Some Dir
                    /\ regular_files fs' = regular_files fs
                    /\ forall fs2, extends fs' fs2 ->
                                   FS.makedirs_error fs2 p = None.
Proof.
  unfold FS.makedirs.
  destruct (FS.makedirs_error fs p) as [e|] eqn:Herr; [left; eauto |].
  right. split; [done |]. eexists. split; [done |].
  pose proof (proj1 (makedirs_error_None _ _) Herr) as Hno.
  assert (forall q, q ∈ p :: FS.ancestors p ->
            (nodes fs ∪ gset_to_gmap Dir (list_to_set (p :: FS.ancestors p)))
            !! q = Some Dir) as Hdirs.
  { intros q Hq. apply lookup_union_Some_raw.
    destruct (nodes fs !! q) as [[c|]|] eqn:Hn.
    - by destruct (Hno q c).
    - by left.
    - right. split; [done |]. apply lookup_gset_to_gmap_Some.
      split; [| done]. by apply elem_of_list_to_set. }
  split_and!.
  - split; [| done]. simpl. apply map_union_subseteq_l.
  - simpl. apply Hdirs. by left.
  - apply set_eq. intros q. rewrite !elem_of_regular_files. simpl.
    split; intros [c Hc].
    + apply lookup_union_Some_raw in Hc as [Hc | [_ Hc]]; [eauto |].
      by apply lookup_gset_to_gmap_Some in Hc as [_ ?].
    + exists c. apply lookup_union_Some_raw. by left.
  - intros fs2 Hext. apply makedirs_error_None. intros q c Hq Hc.
    pose proof (extends_lookup _ _ _ _ Hext (Hdirs q Hq)) as Hd.
    simpl in Hd. congruence.
Qed.

(** Once made, a folder can be made again in every later state. *)
Lemma makedirs_again (p : string) (fs fs' fs2 : filesystem) :
  FS.makedirs p fs = (Return tt, fs') -> extends fs' fs2 ->
  FS.makedirs_error fs2 p = None.
Proof.
  intros Hmk Hext.
  destruct (makedirs_spec p fs)
    as [(e & _ & He) | (_ & fs0 & Hmk0 & _ & _ & _ & Hlater)];
    [congruence |].
  rewrite Hmk in Hmk0. injection Hmk0 as ->. by apply Hlater.
Qed.

(** A regular file in the way stays in the way. *)
Lemma makedirs_error_extends (fs fs' : filesystem) (p e : string) :
  extends fs fs' -> FS.makedirs_error fs p = Some e ->
  is_Some (FS.makedirs_error fs' p).
Proof.
  intros Hext [(q & c & Hq & Hc) _]%makedirs_error_Some.
  destruct (FS.makedirs_error fs' p) as [e'|] eqn:Herr; [eauto |].
  pose proof (proj1 (makedirs_error_None _ _) Herr q c Hq) as Hno.
  by apply (extends_lookup _ _ _ _ Hext) in Hc.
Qed.

Lemma detect_file_type_Return (fs : filesystem) (p : string) :
  exists category format_type method,
    detect_file_type fs p = Return (category, format_type, method).
Proof.
  unfold detect_file_type.
  destruct (try_except _ _) as [[category format_type] method]. eauto.
Qed.

Lemma ensure_extension_Return (fs : filesystem) (p : string) :
  exists extension, ensure_extension fs p = Return extension.
Proof.
  unfold ensure_extension. destruct (Py.truthy (OsPath.Path_suffix p)); [eauto |].
  destruct (detect_file_type_Return fs p) as (c & f & m & ->). simpl. eauto.
Qed.

Lemma create_organized_filename_Return (fs : filesystem) (p category : string) :
  exists new_filename,
    create_organized_filename fs p category = Return new_filename.
Proof.
  unfold create_organized_filename.
  destruct (ensure_extension_Return fs p) as (extension & ->). simpl.
  destruct (_ && _); eauto.
Qed.

(** [destination] either stops at [os.makedirs], or returns a path that
    does not exist. *)
Lemma destination_spec (output_folder : string)
    (organize_by_type add_metadata_to_filename : bool) (file_path : string)
    (fs : filesystem) :
  exists category format_type method,
    detect_file_type fs file_path = Return (category, format_type, method)
    /\ let dest_folder :=
         dest_folder_of output_folder organize_by_type category in
       ((exists e,
           FS.makedirs_error fs dest_folder = Some e
           /\ destination output_folder organize_by_type
                          add_metadata_to_filename file_path fs
              = Some (Raise e, fs))
       \/ (FS.makedirs_error fs dest_folder = None
           /\ exists fs' dest_path,
               destination output_folder organize_by_type
                           add_metadata_to_filename file_path fs
               = Some (Return (category, dest_path), fs')
               /\ FS.makedirs dest_folder fs = (Return tt, fs')
               /\ extends fs fs'
               /\ nodes fs' !! dest_folder = Some Dir
               /\ regular_files fs' = regular_files fs
               /\ nodes fs' !! dest_path = None
               /\ free_path dest_folder
                    (candidate_name fs' add_metadata_to_filename file_path
                                    category format_type) fs'
                  = Some (Return dest_path, fs'))).
Proof.
  destruct (detect_file_type_Return fs file_path)
    as (category & format_type & method & Hdetect).
  exists category, format_type, method. split; [done |]. simpl.
  unfold destination, io_bind, io_read, io_call, io_ret. rewrite Hdetect.
  fold (dest_folder_of output_folder organize_by_type category).
  destruct (makedirs_spec (dest_folder_of output_folder organize_by_type category) fs)
    as [(e & He & ->) | (Hnofile & fs' & -> & Hext & Hdir & Hreg & _)].
  - left. eauto.
  - right. split; [done |].
    set (new_filename := candidate_name fs' add_metadata_to_filename
                           file_path category format_type).
    destruct (free_path_total
                (dest_folder_of output_folder organize_by_type category)
                new_filename fs') as (dest_path & Hfree & Hex).
    exists fs', dest_path. apply exists_false in Hex.
    split_and!; try done.
    unfold new_filename, candidate_name in Hfree.
    destruct add_metadata_to_filename.
    + destruct (create_organized_filename_Return fs' file_path category)
        as (name & Hname).
      rewrite Hname in *. simpl in *. by rewrite Hfree.
    + by rewrite Hfree.
Qed.

End StepFacts.

Section LoopFacts.
Context {U : Py.Unicode} `{Decoders}.

Lemma isdir_absent (fs : filesystem) (p : string) :
  nodes fs !! p = None -> FS.isdir fs p = false.
Proof. unfold FS.isdir. by intros ->. Qed.

(** [copy2] to a path that does not exist: it fails exactly when the
    source cannot be read, and otherwise creates the destination. *)
Lemma copy2_fresh (src dst : string) (fs : filesystem) :
  nodes fs !! dst = None ->
  FS.copy2 src dst fs
  = match FS.read_all fs src with
    | Raise e => (Raise e, fs)
    | Return c => (Return tt, mkFS (<[dst := File c]> (nodes fs)) (denied fs))
    end.
Proof.
  intros Hdst. unfold FS.copy2. rewrite (isdir_absent _ _ Hdst).
  assert (bool_decide (src = dst) && FS.exists_ fs src = false) as ->.
  { case_bool_decide as Hsame; [| done]. subst src. simpl.
    by apply exists_false. }
  destruct (FS.read_all fs src); [| done]. by rewrite (isdir_absent _ _ Hdst).
Qed.

Lemma process_file_unfold (output_folder : string)
    (organize_by_type add_metadata_to_filename : bool) (file_path : string)
    (st : run) (fs : filesystem) :
  process_file output_folder organize_by_type add_metadata_to_filename
               file_path st fs
  = match destination output_folder organize_by_type
                      add_metadata_to_filename file_path fs with
    | None => None
    | Some (Raise e, fs') =>
        Some (mkRun (record_error file_path e (stats st)) (processed_log st),
              fs')
    | Some (Return (category, dest_path), fs') =>
        match FS.copy2 file_path dest_path fs' with
        | (Raise e, fs'') =>
            Some (mkRun (record_error file_path e (stats st))
                        (processed_log st), fs'')
        | (Return _, fs'') =>
            Some (mkRun (count_processed category (stats st))
                        (processed_log st
                         ++ [(OsPath.basename file_path, dest_path)]), fs'')
        end
    end.
Proof.
  unfold process_file, organize_file, io_bind, io_call, io_ret.
  destruct (destination _ _ _ _ _) as [[[[category dest_path] | e] fs'] |];
    [| done..].
  by destruct (FS.copy2 file_path dest_path fs') as [[[] | e] fs''].
Qed.

(** The three ways one iteration of the loop can go: [os.makedirs]
    raises, the copy raises, or the file is copied to a fresh path. *)
Lemma process_file_cases (output_folder : string)
    (organize_by_type add_metadata_to_filename : bool) (file_path : string)
    (st : run) (fs : filesystem) :
  exists category format_type method,
    detect_file_type fs file_path = Return (category, format_type, method)
    /\ let dest_folder :=
         dest_folder_of output_folder organize_by_type category in
       ((exists e,
           FS.makedirs_error fs dest_folder = Some e
           /\ process_file output_folder organize_by_type
                           add_metadata_to_filename file_path st fs
              = Some (mkRun (record_error file_path e (stats st))
                            (processed_log st), fs))
       \/ (FS.makedirs_error fs dest_folder = None
           /\ exists fs_mid,
               FS.makedirs dest_folder fs = (Return tt, fs_mid)
               /\ extends fs fs_mid
               /\ nodes fs_mid !! dest_folder = Some Dir
               /\ regular_files fs_mid = regular_files fs
               /\ ((exists e,
                      FS.read_all fs_mid file_path = Raise e
                      /\ process_file output_folder organize_by_type
                                      add_metadata_to_filename file_path st fs
                         = Some (mkRun (record_error file_path e (stats st))
                                       (processed_log st), fs_mid))
                   \/ (exists c dest_path,
                         FS.read_all fs_mid file_path = Return c
                         /\ nodes fs_mid !! dest_path = None
                         /\ free_path dest_folder
                              (candidate_name fs_mid add_metadata_to_filename
                                 file_path category format_type) fs_mid
                            = Some (Return dest_path, fs_mid)
                         /\ process_file output_folder organize_by_type
                                         add_metadata_to_filename file_path
                                         st fs
                            = Some (mkRun
                                      (count_processed category (stats st))
                                      (processed_log st
                                       ++ [(OsPath.basename file_path,
                                            dest_path)]),
                                    mkFS (<[dest_path := File c]>
                                            (nodes fs_mid))
                                         (denied fs_mid)))))).
Proof.
  destruct (destination_spec output_folder organize_by_type
              add_metadata_to_filename file_path fs)
    as (category & format_type & method & Hdetect & Hdest).
  exists category, format_type, method. split; [done |].
  simpl in *. rewrite process_file_unfold.
  destruct Hdest as [(e & He & ->) | [Hnofile Hdest]]; [left; eauto |].
  destruct Hdest as (fs_mid & dest_path & -> & Hmk & Hext & Hdir & Hreg
                     & Hfresh & Hfree).
  rewrite (copy2_fresh _ _ _ Hfresh).
  right. split; [done |]. exists fs_mid. split_and!; try done.
  destruct (FS.read_all fs_mid file_path) as [c | e]; [right | left].
  - exists c, dest_path. by split_and!.
  - by exists e.
Qed.

Lemma read_all_extends (fs fs' : filesystem) (p : string) :
  extends fs fs' -> is_Some (nodes fs !! p) ->
  FS.read_all fs' p = FS.read_all fs p.
Proof.
  intros Hext [n Hn]. unfold FS.read_all.
  rewrite (extends_lookup _ _ _ _ Hext Hn), Hn. by destruct Hext as [_ ->].
Qed.

Lemma detect_file_type_extends (fs fs' : filesystem) (p : string) :
  extends fs fs' -> is_Some (nodes fs !! p) ->
  detect_file_type fs' p = detect_file_type fs p.
Proof.
  intros Hext Hp. unfold detect_file_type, detect_file_type_body, FS.read_header.
  rewrite (read_all_extends _ _ _ Hext Hp). destruct Hp as [n Hn].
  unfold FS.getsize. by rewrite (extends_lookup _ _ _ _ Hext Hn), Hn.
Qed.

Lemma regular_files_insert_file (fs : filesystem) (p : string) (c : list byte) :
  regular_files (mkFS (<[p := File c]> (nodes fs)) (denied fs))
  = {[p]} ∪ regular_files fs.
Proof.
  apply set_eq. intros q.
  rewrite elem_of_union, elem_of_singleton, !elem_of_regular_files. simpl.
  destruct (decide (p = q)) as [<- | Hne].
  - rewrite lookup_insert_eq. split; eauto.
  - rewrite lookup_insert_ne by done. split; [eauto |].
    by intros [-> | ?].
Qed.

(** One iteration, summed up: the file is copied to a new path and
    counted, or exactly one error is recorded and no file appears. *)
Lemma process_file_step (output_folder : string)
    (organize_by_type add_metadata_to_filename : bool) (file_path : string)
    (st : run) (fs : filesystem) :
  exists st' fs',
    process_file output_folder organize_by_type add_metadata_to_filename
                 file_path st fs = Some (st', fs')
    /\ extends fs fs'
    /\ ((exists e,
           stats st' = record_error file_path e (stats st)
           /\ processed_log st' = processed_log st
           /\ regular_files fs' = regular_files fs)
        \/ (exists category dest_path c,
              stats st' = count_processed category (stats st)
              /\ processed_log st'
                 = (processed_log st
                    ++ [(OsPath.basename file_path, dest_path)])%list
              /\ nodes fs !! dest_path = None
              /\ nodes fs' !! dest_path = Some (File c)
              /\ FS.read_all fs file_path = Return c
              /\ regular_files fs' = {[dest_path]} ∪ regular_files fs)).
Proof.
  destruct (process_file_cases output_folder organize_by_type
              add_metadata_to_filename file_path st fs)
    as (category & format_type & method & _ & Hcases). simpl in Hcases.
  destruct Hcases as [(e & _ & ->)
                     | (_ & fs_mid & _ & Hext & _ & Hreg & Hcopy)].
  { eexists _, _. split; [done |]. split; [done |]. left. eexists. by simpl. }
  destruct Hcopy as [(e & _ & ->) | (c & dest_path & Hread & Hfresh & _ & ->)].
  { eexists _, _. split; [done |]. split; [done |]. left. exists e. by simpl. }
  eexists _, _. split; [done |]. split.
  { etransitivity; [exact Hext |]. split; [| done]. simpl.
    by apply insert_subseteq. }
  right. exists category, dest_path, c. simpl. split_and!; try done.
  - destruct Hext as [Hsub _].
    eapply lookup_weaken_None; [exact Hfresh | exact Hsub].
  - by rewrite lookup_insert_eq.
  - apply read_all_Return in Hread as [Hnode Hden].
    assert (file_path ∈ regular_files fs) as [c' Hc']%elem_of_regular_files.
    { rewrite <- Hreg. apply elem_of_regular_files. eauto. }
    pose proof (extends_lookup _ _ _ _ Hext Hc') as Hc''.
    rewrite Hnode in Hc''. injection Hc'' as <-.
    apply read_all_Return. split; [done |].
    destruct Hext as [_ Hd]. by rewrite <- Hd.
  - by rewrite regular_files_insert_file, Hreg.
Qed.

End LoopFacts.

(** ** The whole loop *)

Section RunFacts.
Context {U : Py.Unicode} `{Decoders}.

Lemma category_sum_comm (z1 z2 y : nat) :
  z1 + (z2 + y) = z2 + (z1 + y).
Proof. lia. Qed.

Lemma category_total_count_processed (category : string) (r : results) :
  category_total (count_processed category r) = category_total r + 1.
Proof.
  unfold category_total, count_processed. simpl.
  destruct (categories r !! category) as [n|] eqn:Hc.
  - rewrite Hc. simpl.
    rewrite <- (insert_delete_eq (categories r)).
    rewrite map_fold_insert_L;
      [| intros; apply category_sum_comm | apply lookup_delete_eq].
    rewrite (map_fold_delete_L _ _ category n (categories r));
      [lia | intros; apply category_sum_comm | done].
  - rewrite lookup_insert_eq, insert_insert_eq. simpl.
    rewrite map_fold_insert_L; [lia | intros; apply category_sum_comm | done].
Qed.

(** What a run of the loop over [files] does: it always ends; the file
    system only grows; the files it copies go to pairwise distinct paths,
    none of which existed; and every file is counted once, as processed
    or as an error. *)
Lemma for_files_spec (output_folder : string)
    (organize_by_type add_metadata_to_filename : bool) (files : list string)
    (st : run) (fs : filesystem) :
  exists st' fs' new,
    for_files output_folder organize_by_type add_metadata_to_filename
              files st fs = Some (st', fs')
    /\ extends fs fs'
    /\ processed_log st' = (processed_log st ++ new)%list
    /\ NoDup new.*2
    /\ (forall d, d ∈ new.*2 -> nodes fs !! d = None /\ d ∈ regular_files fs')
    /\ regular_files fs' = list_to_set new.*2 ∪ regular_files fs
    /\ total_files (stats st') = total_files (stats st)
    /\ processed_files (stats st') = processed_files (stats st) + length new
    /\ category_total (stats st') = category_total (stats st) + length new
    /\ length (errors (stats st')) + length new
       = length (errors (stats st)) + length files.
Proof.
  revert st fs. induction files as [|file_path files IH]; intros st fs.
  { exists st, fs, []. simpl.
    split_and!; try done; try lia.
    - by rewrite app_nil_r.
    - constructor.
    - intros d Hd. by apply elem_of_nil in Hd.
    - set_solver. }
  destruct (process_file_step output_folder organize_by_type
              add_metadata_to_filename file_path st fs)
    as (st1 & fs1 & Hstep & Hext1 & Hkind).
  destruct (IH st1 fs1)
    as (st' & fs' & new & Hrun & Hext & Hlog & Hnodup & Hnew & Hreg & Htot
        & Hproc & Hcat & Herr).
  simpl. rewrite Hstep, Hrun.
  destruct Hkind as [(e & Hstats & Hlog1 & Hreg1)
                    | (category & dest_path & c & Hstats & Hlog1 & Hfresh
                       & Hdest & _ & Hreg1)].
  - exists st', fs', new. rewrite Hstats in *. simpl in *.
    split_and!; try done.
    + by transitivity fs1.
    + by rewrite Hlog, Hlog1.
    + intros d Hd. destruct (Hnew d Hd) as [Hnone Hin]. split; [| done].
      destruct Hext1 as [Hsub _]. by eapply lookup_weaken_None.
    + by rewrite Hreg, Hreg1.
    + rewrite length_app in Herr. simpl in Herr. lia.
  - exists st', fs', ((OsPath.basename file_path, dest_path) :: new).
    rewrite Hstats in *. simpl in *.
    rewrite category_total_count_processed in Hcat.
    split_and!; try done; try lia.
    + by transitivity fs1.
    + by rewrite Hlog, Hlog1, <- List.app_assoc.
    + constructor; [| done]. intros Hin.
      destruct (Hnew _ Hin) as [Hnone _]. congruence.
    + intros d [-> | Hd]%elem_of_cons.
      * split; [done |]. rewrite Hreg, Hreg1. set_solver.
      * destruct (Hnew d Hd) as [Hnone Hin]. split; [| done].
        destruct Hext1 as [Hsub _]. by eapply lookup_weaken_None.
    + rewrite Hreg, Hreg1. set_solver.
Qed.

(** The whole run: [for_files_spec] from the fresh statistics. *)
Lemma process_and_organize_files_spec (input_folder output_folder : string)
    (organize_by_type add_metadata_to_filename : bool) (fs : filesystem) :
  exists r fs',
    process_and_organize_files input_folder output_folder organize_by_type
                               add_metadata_to_filename fs = Some (r, fs')
    /\ extends fs fs'
    /\ NoDup (processed_log r).*2
    /\ (forall d, d ∈ (processed_log r).*2 ->
                  nodes fs !! d = None /\ d ∈ regular_files fs')
    /\ regular_files fs' = list_to_set (processed_log r).*2 ∪ regular_files fs
    /\ total_files (stats r) = length (FS.walk fs input_folder)
    /\ processed_files (stats r) = length (processed_log r)
    /\ category_total (stats r) = length (processed_log r)
    /\ length (errors (stats r)) + length (processed_log r)
       = length (FS.walk fs input_folder).
Proof.
  unfold process_and_organize_files. simpl.
  destruct (for_files_spec output_folder organize_by_type
              add_metadata_to_filename (FS.walk fs input_folder)
              (mkRun (mkResults (length (FS.walk fs input_folder)) 0 [] ∅) [])
              fs)
    as (r & fs' & new & Hrun & Hext & Hlog & Hnodup & Hnew & Hreg & Htot
        & Hproc & Hcat & Herr).
  exists r, fs'. simpl in *. subst new.
  unfold category_total in Hcat at 2. simpl in Hcat.
  rewrite map_fold_empty in Hcat. by split_and!.
Qed.

End RunFacts.

(** C10. Every run of [process_and_organize_files] returns, and its
    statistics add up: the processed files are the sum of the category
    counts, processed files plus recorded errors are all the files found,
    and each iteration of the loop either counts its file under one
    category or records one error for it. *)
Theorem process_and_organize_files_accounting {U : Py.Unicode} `{Decoders}
    (input_folder output_folder : string)
    (organize_by_type add_metadata_to_filename : bool) (fs : filesystem) :
  (exists r fs',
     process_and_organize_files input_folder output_folder organize_by_type
                                add_metadata_to_filename fs = Some (r, fs')
     /\ processed_files (stats r) = category_total (stats r)
     /\ processed_files (stats r) + length (errors (stats r))
        = total_files (stats r)
     /\ total_files (stats r) = length (FS.walk fs input_folder))
  /\ (forall file_path st fs0,
        exists st' fs1,
          process_file output_folder organize_by_type add_metadata_to_filename
                       file_path st fs0 = Some (st', fs1)
          /\ ((exists e, stats st' = record_error file_path e (stats st))
              \/ (exists category,
                    stats st' = count_processed category (stats st))))
  /\ (forall file_path e r,
        processed_files (record_error file_path e r) = processed_files r
        /\ categories (record_error file_path e r) = categories r
        /\ length (errors (record_error file_path e r))
           = length (errors r) + 1)
  /\ (forall category r,
        processed_files (count_processed category r) = processed_files r + 1
        /\ errors (count_processed category r) = errors r
        /\ categories (count_processed category r) !! category
           = Some (default 0 (categories r !! category) + 1)
        /\ forall other, other <> category ->
             categories (count_processed category r) !! other
             = categories r !! other).
Proof.
  split_and!.
  - destruct (process_and_organize_files_spec input_folder output_folder
                organize_by_type add_metadata_to_filename fs)
      as (r & fs' & Hrun & _ & _ & _ & _ & Htot & Hproc & Hcat & Herr).
    exists r, fs'. split; [done |]. split_and!; lia.
  - intros file_path st fs0.
    destruct (process_file_step output_folder organize_by_type
                add_metadata_to_filename file_path st fs0)
      as (st' & fs1 & Hstep & _ & [(e & He & _) | (c & d & b & Hc & _)]);
      exists st', fs1; eauto.
  - intros file_path e r. simpl. split_and!; [done | done |].
    by rewrite length_app.
  - intros category r. unfold count_processed. simpl. split_and!; try done.
    + rewrite lookup_insert_eq. do 2 f_equal.
      destruct (categories r !! category) eqn:Hc; [by rewrite Hc |].
      by rewrite lookup_insert_eq.
    + intros other Hne. rewrite lookup_insert_ne by done.
      destruct (categories r !! category); [done |].
      by rewrite lookup_insert_ne.
Qed.

(** C3. [detect_file_type] always returns a triple: when
    [os.path.getsize] or the read of the header raises, the triple is
    (Error, the text of the exception, error). The loop goes on with that
    triple: whatever the files, it visits all of them. *)
Theorem detect_file_type_never_raises {U : Py.Unicode} `{Decoders}
    (fs : filesystem) (file_path : string) :
  (exists category format_type method,
     detect_file_type fs file_path = Return (category, format_type, method))
  /\ (forall e,
        FS.getsize fs file_path = Raise e
        \/ ((exists size, FS.getsize fs file_path = Return size)
            /\ FS.read_header fs file_path 32 = Raise e) ->
        detect_file_type fs file_path = Return ("Error", e, "error"))
  /\ (forall output_folder organize_by_type add_metadata_to_filename
             files st fs0,
        exists st' fs1,
          for_files output_folder organize_by_type add_metadata_to_filename
                    files st fs0 = Some (st', fs1)
          /\ processed_files (stats st') + length (errors (stats st'))
             = processed_files (stats st) + length (errors (stats st))
               + length files).
Proof.
  split_and!.
  - apply detect_file_type_Return.
  - intros e [Hsize | [[size Hsize] Hread]];
      unfold detect_file_type, detect_file_type_body.
    + by rewrite Hsize.
    + by rewrite Hsize, Hread.
  - intros output_folder organize_by_type add_metadata_to_filename
           files st fs0.
    destruct (for_files_spec output_folder organize_by_type
                add_metadata_to_filename files st fs0)
      as (st' & fs1 & new & Hrun & _ & _ & _ & _ & _ & _ & Hproc & _ & Herr).
    exists st', fs1. split; [done | lia].
Qed.

(** The unreadable picture of the example tree. *)
Lemma detect_file_type_never_raises_witness :
  FS.read_header Examples.tree "/s/a/x.png" 32
  = Raise "[Errno 13] Permission denied: '/s/a/x.png'"
  /\ detect_file_type (U := Examples.unicode) Examples.tree "/s/a/x.png"
     = Return ("Error", "[Errno 13] Permission denied: '/s/a/x.png'", "error").
Proof.
  split; [reflexivity |].
  apply (proj1 (proj2 (@detect_file_type_never_raises Examples.unicode Examples.decoders
                         Examples.tree "/s/a/x.png"))).
  right. split; [by exists 12 | reflexivity].
Defined.

(** ** The worker and the window *)

Section GuiFacts.
Context {U : Py.Unicode} `{Decoders}.

(** The loop never reads the flag that [stop_processing] clears: with the
    stop button pressed at any moments whatever, it does what it does
    with the button left alone. *)
Lemma for_files_with_stops_ignores_flag (stops : list bool)
    (files : list string) (st : run) (g : gui) (fs : filesystem) :
  (fun '(st', _, fs') => (st', fs'))
    <$> for_files_with_stops stops files st g fs
  = for_files (output_folder g) (organize_by_type g)
              (add_metadata_to_filename g) files st fs.
Proof.
  revert stops st g fs.
  induction files as [|file_path files IH]; intros stops st g fs; [done |].
  simpl.
  assert (forall g0 : gui,
            output_folder (if List.hd false stops then stop_processing g0 else g0)
            = output_folder g0
            /\ organize_by_type
                 (if List.hd false stops then stop_processing g0 else g0)
               = organize_by_type g0
            /\ add_metadata_to_filename
                 (if List.hd false stops then stop_processing g0 else g0)
               = add_metadata_to_filename g0) as Hsame.
  { intros g0. by destruct (List.hd false stops). }
  destruct (Hsame g) as (-> & -> & ->).
  destruct (process_file _ _ _ _ _ _) as [[st' fs'] |]; [| done].
  rewrite IH. by destruct (Hsame g) as (-> & -> & ->).
Qed.


End GuiFacts.

(** C4, on the code. The stop button is pressed after the first of two
    files: the worker still copies the second one and counts both, with
    the flag cleared all the while. *)
Theorem stop_processing_does_not_stop_the_loop :
  exists r g fs',
    @for_files_with_stops Examples.unicode Examples.decoders [false; true]
      (FS.walk Examples.twins "/s")
      (mkRun (mkResults 2 0 [] ∅) []) Examples.running Examples.twins
    = Some (r, g, fs')
    /\ processing g = false
    /\ processed_files (stats r) = 2
    /\ processed_log r = [ ("x.png", "/o/Images/x.png");
                           ("x.png", "/o/Images/x_1.png") ]
    /\ nodes fs' !! "/o/Images/x_1.png" = Some (File Examples.png).
Proof.
  eexists _, _, _. split; [vm_compute; reflexivity |].
  split_and!; reflexivity.
Qed.



(** A destination below a regular file: [os.makedirs] raises
    [NotADirectoryError] and no run takes place. *)
Lemma start_processing_below_a_file :
  @run_request Examples.unicode Examples.decoders
    (mkGui "/s" "/s/a/x.png/out" true false false) Examples.twins
  = Some (Raise "[Errno 20] Not a directory: '/s/a/x.png/out'", None,
          mkGui "/s" "/s/a/x.png/out" true false false, Examples.twins).
Proof. vm_compute. reflexivity. Qed.


(** ** Metadata tokens and file names *)

Section NameFacts.
Context {U : Py.Unicode} `{Decoders}.

Lemma create_organized_filename_plain (fs : filesystem)
    (file_path category extension : string) :
  ensure_extension fs file_path = Return extension ->
  file_info fs file_path category = "unknown"
  \/ file_info fs file_path category = "" ->
  create_organized_filename fs file_path category
  = Return (OsPath.Path_stem file_path +:+ extension).
Proof.
  intros Hext Hinfo. unfold create_organized_filename. rewrite Hext. simpl.
  by destruct Hinfo as [-> | ->].
Qed.

Lemma create_organized_filename_token (fs : filesystem)
    (file_path category extension : string) :
  ensure_extension fs file_path = Return extension ->
  Py.truthy (file_info fs file_path category) = true ->
  file_info fs file_path category <> "unknown" ->
  create_organized_filename fs file_path category
  = Return (OsPath.Path_stem file_path +:+ "_"
            +:+ file_info fs file_path category +:+ extension).
Proof.
  intros Hext Htruthy Hne. unfold create_organized_filename.
  rewrite Hext. simpl. rewrite Htruthy.
  by apply String.eqb_neq in Hne as ->.
Qed.

End NameFacts.

(** What the probes answer when their decoder raises: "unknown" for
    images, videos and audio, with nothing appended to the name, and
    "document" for documents, with "_document" appended. *)
Lemma probe_failure_tokens {U : Py.Unicode} `{Decoders}
    (fs : filesystem) (file_path extension : string) :
  ensure_extension fs file_path = Return extension ->
  (forall e, get_image_info_body fs file_path = Raise e ->
     get_image_info fs file_path = "unknown"
     /\ create_organized_filename fs file_path "Images"
        = Return (OsPath.Path_stem file_path +:+ extension))
  /\ (forall e, get_video_info_body fs file_path = Raise e ->
        get_video_info fs file_path = "unknown"
        /\ create_organized_filename fs file_path "Videos"
           = Return (OsPath.Path_stem file_path +:+ extension))
  /\ (forall e, get_audio_info_body fs file_path = Raise e ->
        get_audio_info fs file_path = "unknown"
        /\ create_organized_filename fs file_path "Audio"
           = Return (OsPath.Path_stem file_path +:+ extension))
  /\ (forall e, get_document_info_body fs file_path = Raise e ->
        get_document_info fs file_path = "document"
        /\ create_organized_filename fs file_path "Documents"
           = Return (OsPath.Path_stem file_path +:+ "_document"
                     +:+ extension)).
Proof.
  intros Hext. split_and!; intros e Hraise.
  - assert (get_image_info fs file_path = "unknown") as Hinfo
      by (unfold get_image_info; by rewrite Hraise).
    split; [done |]. apply create_organized_filename_plain; [done |].
    left. unfold file_info. by simpl.
  - assert (get_video_info fs file_path = "unknown") as Hinfo
      by (unfold get_video_info; by rewrite Hraise).
    split; [done |]. apply create_organized_filename_plain; [done |].
    left. unfold file_info. by simpl.
  - assert (get_audio_info fs file_path = "unknown") as Hinfo
      by (unfold get_audio_info; by rewrite Hraise).
    split; [done |]. apply create_organized_filename_plain; [done |].
    left. unfold file_info. by simpl.
  - assert (get_document_info fs file_path = "document") as Hinfo
      by (unfold get_document_info; by rewrite Hraise).
    split; [done |].
    assert (file_info fs file_path "Documents" = "document") as Hfile
      by (unfold file_info; by simpl).
    rewrite (create_organized_filename_token _ _ _ _ Hext);
      rewrite Hfile; done.
Qed.

(** C5, on the code. PyPDF2 rejects the truncated /s/report.pdf. Where
    the audio probe answers such a failure with "unknown", and the name
    of /s/song.wav stays as it is, [get_document_info] answers with
    "document", which [create_organized_filename] does not filter: the
    file is copied as report_document.pdf. *)
Theorem failed_document_probe_token :
  @get_document_info_body Examples.unicode Examples.decoders Examples.tree
    "/s/report.pdf"
  = Raise "EOF marker not found"
  /\ @get_document_info Examples.unicode Examples.decoders Examples.tree
       "/s/report.pdf"
     = "document"
  /\ @create_organized_filename Examples.unicode Examples.decoders
       Examples.tree "/s/report.pdf" "Documents"
     = Return "report_document.pdf"
  /\ @get_audio_info_body Examples.decoders Examples.tree "/s/song.wav"
     = Raise "can't sync to MPEG frame"
  /\ @get_audio_info Examples.decoders Examples.tree "/s/song.wav"
     = "unknown"
  /\ @create_organized_filename Examples.unicode Examples.decoders
       Examples.tree "/s/song.wav" "Audio"
     = Return "song.wav"
  /\ exists r fs',
       @process_and_organize_files Examples.unicode Examples.decoders
         "/s" "/o" true true Examples.tree = Some (r, fs')
       /\ ("report.pdf", "/o/Documents/report_document.pdf")
          ∈ processed_log r.
Proof.
  split_and!; [reflexivity.. |].
  eexists _, _. split; [vm_compute; reflexivity |].
  do 3 (apply elem_of_cons; right). apply elem_of_cons. by left.
Qed.

Section CollisionFacts.
Context {U : Py.Unicode}.

(** The path [free_path] returns is the first free one among the
    candidate and its numbered variants. *)
Lemma free_path_shape (dest_folder new_filename : string)
    (fs fs' : filesystem) (o : outcome string) :
  free_path dest_folder new_filename fs = Some (o, fs') ->
  fs' = fs
  /\ exists i,
       let path :=
         tested dest_folder (OsPath.splitext new_filename).1
                (OsPath.splitext new_filename).2
                (OsPath.join dest_folder new_filename) 1 in
       o = Return (path i)
       /\ FS.exists_ fs (path i) = false
       /\ forall j, j < i -> FS.exists_ fs (path j) = true.
Proof.
  unfold free_path.
  destruct (OsPath.splitext new_filename) as [base_name ext].
  destruct (while_exists _ _ _ _ _ _ _) as [found|] eqn:Hloop; [| done].
  intros [= <- <-]. split; [done |].
  destruct (while_exists_Some _ _ _ _ _ _ _ _ Hloop)
    as (i & -> & Hfree & Hbefore).
  by exists i.
Qed.

End CollisionFacts.

(** C6, as the code has it. Without metadata the name of the copy is the
    original stem followed by the extension (the original one, or the one
    derived from the detected format when there is none), whatever the
    decoders would have said; when a file of that name is already in the
    destination folder, the counter _n is put before the extension, and
    nothing else is ever added. *)
Theorem destination_without_metadata {U : Py.Unicode} (D : Decoders)
    (output_folder : string) (organize_by_type : bool) (file_path : string)
    (fs : filesystem) :
  exists category format_type method,
    detect_file_type fs file_path = Return (category, format_type, method)
    /\ let name :=
         OsPath.Path_stem file_path
         +:+ (if Py.truthy (OsPath.Path_suffix file_path)
              then OsPath.Path_suffix file_path
              else extension_from_format format_type) in
       let dest_folder :=
         dest_folder_of output_folder organize_by_type category in
       (forall D' : Decoders,
          @destination U D' output_folder organize_by_type false file_path fs
          = @destination U D output_folder organize_by_type false file_path fs)
       /\ forall category' dest_path fs',
            @destination U D output_folder organize_by_type false file_path fs
            = Some (Return (category', dest_path), fs') ->
            category' = category
            /\ (FS.exists_ fs' (OsPath.join dest_folder name) = false ->
                dest_path = OsPath.join dest_folder name)
            /\ (dest_path = OsPath.join dest_folder name
                \/ exists n,
                     1 <= n
                     /\ FS.exists_ fs' (OsPath.join dest_folder name) = true
                     /\ dest_path
                        = OsPath.join dest_folder
                            ((OsPath.splitext name).1 +:+ "_" +:+ pretty n
                             +:+ (OsPath.splitext name).2)).
Proof.
  destruct (@destination_spec U D output_folder organize_by_type false
              file_path fs)
    as (category & format_type & method & Hdetect & Hdest).
  exists category, format_type, method. split; [done |]. simpl.
  split; [done |]. intros category' dest_path fs' Hrun.
  simpl in Hdest.
  destruct Hdest as [(e & _ & Hraise)
                    | (_ & fs1 & dest1 & Hret & _ & _ & _ & _ & _ & Hfree)];
    [congruence |].
  rewrite Hret in Hrun. injection Hrun as <- <- <-. split; [done |].
  apply free_path_shape in Hfree as (_ & i & Hi & Hfreei & Hbefore).
  simpl in Hi, Hfreei, Hbefore. injection Hi as ->.
  unfold candidate_name in *.
  destruct i as [|i]; simpl in *.
  - split; [done | by left].
  - split.
    + intros Hex. specialize (Hbefore 0 ltac:(lia)). simpl in Hbefore.
      congruence.
    + right. exists (S i). split_and!; [lia | | done].
      exact (Hbefore 0 ltac:(lia)).
Qed.

(** The first of the twins keeps its name. *)
Lemma destination_without_metadata_witness :
  @destination Examples.unicode Examples.decoders
      "/o" true false "/s/a/x.png" Examples.twins
  = Some (Return ("Images", "/o/Images/x.png"),
          (FS.makedirs "/o/Images" Examples.twins).2)
  /\ "/o/Images/x.png"
     = OsPath.join "/o/Images"
         (OsPath.Path_stem "/s/a/x.png" +:+ OsPath.Path_suffix "/s/a/x.png").
Proof.
  assert (@destination Examples.unicode Examples.decoders
      "/o" true false "/s/a/x.png"
            Examples.twins
          = Some (Return ("Images", "/o/Images/x.png"),
                  (FS.makedirs "/o/Images" Examples.twins).2)) as Hrun
    by (vm_compute; reflexivity).
  split; [exact Hrun |].
  destruct (destination_without_metadata
      (U := Examples.unicode) Examples.decoders
      "/o" true
              "/s/a/x.png" Examples.twins)
    as (category & format_type & method & Hdetect & _ & Hshape).
  vm_compute in Hdetect. injection Hdetect as <- <- <-.
  exact (proj1 (proj2 (Hshape _ _ _ Hrun)) eq_refl).
Defined.

(** The second of the twins does not: its copy is named x_1.png, which
    is not the stem followed by the extension. *)
Lemma destination_without_metadata_counterexample :
  exists r fs',
    @process_and_organize_files Examples.unicode Examples.decoders
        "/s" "/o" true false
      Examples.twins = Some (r, fs')
    /\ processed_log r = [ ("x.png", "/o/Images/x.png");
                           ("x.png", "/o/Images/x_1.png") ]
    /\ OsPath.Path_stem "/s/b/x.png" +:+ OsPath.Path_suffix "/s/b/x.png"
       = "x.png"
    /\ OsPath.basename "/o/Images/x_1.png"
       <> OsPath.Path_stem "/s/b/x.png" +:+ OsPath.Path_suffix "/s/b/x.png".
Proof.
  eexists _, _. split; [vm_compute; reflexivity |].
  split_and!; [reflexivity | reflexivity | by vm_compute].
Qed.

(** ** Running the pipeline again *)

Section RerunFacts.
Context {U : Py.Unicode} `{Decoders}.

(** An iteration counts its file exactly when the file can be copied,
    and leaves the destination folder behind as a directory unless a
    regular file was in the way. *)
Lemma process_file_copies (output_folder : string)
    (organize_by_type add_metadata_to_filename : bool) (file_path : string)
    (st : run) (fs : filesystem) :
  exists st' fs',
    process_file output_folder organize_by_type add_metadata_to_filename
                 file_path st fs = Some (st', fs')
    /\ extends fs fs'
    /\ ((copies output_folder organize_by_type fs file_path
         /\ exists category, stats st' = count_processed category (stats st))
        \/ (~ copies output_folder organize_by_type fs file_path
            /\ exists e, stats st' = record_error file_path e (stats st)))
    /\ (forall category format_type method,
          detect_file_type fs file_path
          = Return (category, format_type, method) ->
          FS.makedirs_error fs (dest_folder_of output_folder organize_by_type
                                               category) = None ->
          nodes fs' !! dest_folder_of output_folder organize_by_type category
          = Some Dir
          /\ forall fs2,
               extends fs' fs2 ->
               FS.makedirs_error fs2 (dest_folder_of output_folder
                                        organize_by_type category) = None).
Proof.
  destruct (process_file_step output_folder organize_by_type
              add_metadata_to_filename file_path st fs)
    as (st' & fs' & Hstep & Hext & _).
  exists st', fs'. split; [done |]. split; [done |].
  destruct (process_file_cases output_folder organize_by_type
              add_metadata_to_filename file_path st fs)
    as (category & format_type & method & Hdetect & Hcases).
  simpl in Hcases. rewrite Hstep in Hcases.
  destruct Hcases as [(e & He & [= -> ->])
                     | (Hnofile & fs_mid & Hmk & Hmid & Hdir & Hreg & Hcopy)].
  { split.
    - right. split; [| eexists; by simpl].
      intros (category' & f' & m' & c' & Hdetect' & Hnofile & _).
      rewrite Hdetect in Hdetect'. injection Hdetect' as <- <- <-.
      congruence.
    - intros category' f' m' Hdetect' Hnofile.
      rewrite Hdetect in Hdetect'. injection Hdetect' as <- <- <-.
      congruence. }
  assert (extends fs_mid fs') as Hmid'.
  { destruct Hcopy as [(e & _ & [= _ ->])
                      | (c & dest_path & _ & Hfresh & _ & [= _ ->])];
      [done |].
    split; [| done]. simpl. by apply insert_subseteq. }
  split.
  - destruct Hcopy as [(e & Hread & [= -> _])
                      | (c & dest_path & Hread & _ & _ & [= -> _])].
    + right. split; [| eexists; by simpl].
      intros (category' & f' & m' & c' & _ & _ & Hread').
      apply read_all_Return in Hread' as [Hnode Hden].
      assert (FS.read_all fs_mid file_path = Return c') as Hread''.
      { apply read_all_Return. split.
        - by apply (extends_lookup fs).
        - destruct Hmid as [_ ->]. done. }
      congruence.
    + left. split; [| eexists; by simpl].
      exists category, format_type, method, c. split_and!; [done.. |].
      apply read_all_Return in Hread as [Hnode Hden].
      assert (file_path ∈ regular_files fs) as [c' Hc']%elem_of_regular_files.
      { rewrite <- Hreg. apply elem_of_regular_files. eauto. }
      pose proof (extends_lookup _ _ _ _ Hmid Hc') as Hc''.
      rewrite Hnode in Hc''. injection Hc'' as <-.
      apply read_all_Return. split; [done |].
      destruct Hmid as [_ Hd]. by rewrite <- Hd.
  - intros category' f' m' Hdetect' _.
    rewrite Hdetect in Hdetect'. injection Hdetect' as <- <- <-.
    split; [by apply (extends_lookup fs_mid) |].
    intros fs2 Hext2. apply (makedirs_again _ _ _ _ Hmk).
    by transitivity fs'.
Qed.

(** Whether a file can be copied is the same in a later state, provided
    the file was there and the iteration on it has taken place. *)
Lemma copies_rerun (output_folder : string)
    (organize_by_type add_metadata_to_filename : bool) (file_path : string)
    (st st' : run) (fs fs' fs2 : filesystem) :
  is_Some (nodes fs !! file_path) ->
  process_file output_folder organize_by_type add_metadata_to_filename
               file_path st fs = Some (st', fs') ->
  extends fs' fs2 ->
  copies output_folder organize_by_type fs file_path
  <-> copies output_folder organize_by_type fs2 file_path.
Proof.
  intros Hthere Hstep Hext2.
  destruct (process_file_copies output_folder organize_by_type
              add_metadata_to_filename file_path st fs)
    as (st1 & fs1 & Hstep1 & Hext & _ & Hdir).
  rewrite Hstep in Hstep1. injection Hstep1 as <- <-.
  assert (extends fs fs2) as Hext02 by by transitivity fs'.
  pose proof (detect_file_type_extends _ _ _ Hext02 Hthere) as Hdetect.
  pose proof (read_all_extends _ _ _ Hext02 Hthere) as Hread.
  split; intros (category & format_type & method & c & Hd & Hnofile & Hr).
  - exists category, format_type, method, c. split_and!; [congruence | | congruence].
    destruct (Hdir _ _ _ Hd Hnofile) as [_ Hlater]. by apply Hlater.
  - exists category, format_type, method, c. split_and!; [congruence | | congruence].
    destruct (FS.makedirs_error fs _) as [e|] eqn:Herr; [| done].
    destruct (makedirs_error_extends _ _ _ _ Hext02 Herr) as [e' He'].
    congruence.
Qed.

(** A second run over the same files, from any state that extends the
    end of the first run, counts as many files and records as many
    errors as the first. *)
Lemma for_files_rerun (output_folder : string)
    (organize_by_type add_metadata_to_filename : bool) (files : list string)
    (st_a st_a' st_b : run) (fs_a fs_end fs_b : filesystem) :
  (forall p, p ∈ files -> is_Some (nodes fs_a !! p)) ->
  for_files output_folder organize_by_type add_metadata_to_filename
            files st_a fs_a = Some (st_a', fs_end) ->
  extends fs_end fs_b ->
  exists st_b' fs_b',
    for_files output_folder organize_by_type add_metadata_to_filename
              files st_b fs_b = Some (st_b', fs_b')
    /\ processed_files (stats st_b') + processed_files (stats st_a)
       = processed_files (stats st_a') + processed_files (stats st_b)
    /\ length (errors (stats st_b')) + length (errors (stats st_a))
       = length (errors (stats st_a')) + length (errors (stats st_b)).
Proof.
  revert st_a st_b fs_a fs_b.
  induction files as [|file_path files IH];
    intros st_a st_b fs_a fs_b Hthere Hrun Hend.
  { injection Hrun as <- <-. exists st_b, fs_b. simpl. split_and!; [done | lia..]. }
  simpl in Hrun.
  destruct (process_file_copies output_folder organize_by_type
              add_metadata_to_filename file_path st_a fs_a)
    as (st_a1 & fs_a1 & Hstep_a & Hext_a & Hkind_a & _).
  rewrite Hstep_a in Hrun.
  destruct (for_files_spec output_folder organize_by_type
              add_metadata_to_filename files st_a1 fs_a1)
    as (st_x & fs_x & new & Hrun' & Hext_rest & _).
  rewrite Hrun in Hrun'. injection Hrun' as <- <-.
  destruct (process_file_copies output_folder organize_by_type
              add_metadata_to_filename file_path st_b fs_b)
    as (st_b1 & fs_b1 & Hstep_b & Hext_b & Hkind_b & _).
  assert (copies output_folder organize_by_type fs_a file_path
          <-> copies output_folder organize_by_type fs_b file_path) as Hsame.
  { eapply copies_rerun; [| exact Hstep_a |].
    - apply Hthere. by left.
    - by transitivity fs_end. }
  destruct (IH st_a1 st_b1 fs_a1 fs_b1) as (st_b' & fs_b' & Hrun_b & Hp & He).
  { intros p Hp. destruct (Hthere p) as [n Hn]; [by right |].
    exists n. by apply (extends_lookup fs_a). }
  { done. }
  { by transitivity fs_b. }
  exists st_b', fs_b'. simpl. rewrite Hstep_b. split; [done |].
  destruct Hkind_a as [[Hc_a [cat_a Hst_a]] | [Hc_a [e_a Hst_a]]];
    destruct Hkind_b as [[Hc_b [cat_b Hst_b]] | [Hc_b [e_b Hst_b]]];
    try (by destruct Hc_b; apply Hsame);
    try (by destruct Hc_a; apply Hsame);
    rewrite Hst_a, Hst_b in *; simpl in *;
    rewrite ?length_app in *; simpl in *; lia.
Qed.

Lemma walk_files (fs : filesystem) (top p : string) :
  p ∈ FS.walk fs top -> exists c, nodes fs !! p = Some (File c).
Proof.
  unfold FS.walk. destruct (_ && _); [| by intros ?%elem_of_nil].
  intros [_ Hp]%list_elem_of_In%filter_In.
  apply andb_prop in Hp as [_ Hfile].
  destruct (nodes fs !! p) as [[c|]|]; simpl in Hfile; [eauto | done..].
Qed.

End RerunFacts.

(** C2, as the code has it. Within a run the files that are copied go to
    pairwise distinct paths, none of which existed when it was chosen, so
    that no file is overwritten and everything that was there is still
    there unchanged. The path is the candidate itself when it is free,
    and otherwise the candidate with _n before the extension, for the
    least n from 1 on that gives a free path; the loop that looks for it
    always ends. Running the pipeline again over the same listing copies
    as many files as the first run did, next to the first copies. *)
Theorem collision_free_destinations {U : Py.Unicode} `{Decoders}
    (input_folder output_folder : string)
    (organize_by_type add_metadata_to_filename : bool) (fs : filesystem) :
  exists r fs',
    process_and_organize_files input_folder output_folder organize_by_type
                               add_metadata_to_filename fs = Some (r, fs')
    /\ NoDup (processed_log r).*2
    /\ (forall d, d ∈ (processed_log r).*2 ->
          nodes fs !! d = None /\ exists c, nodes fs' !! d = Some (File c))
    /\ (forall p n, nodes fs !! p = Some n -> nodes fs' !! p = Some n)
    /\ size (regular_files fs')
       = size (regular_files fs) + processed_files (stats r)
    /\ (forall dest_folder new_filename fs0,
          exists dest_path,
            free_path dest_folder new_filename fs0
            = Some (Return dest_path, fs0)
            /\ nodes fs0 !! dest_path = None
            /\ let base_name := (OsPath.splitext new_filename).1 in
               let ext := (OsPath.splitext new_filename).2 in
               base_name +:+ ext = new_filename
               /\ (dest_path = OsPath.join dest_folder new_filename
                   \/ exists n,
                        1 <= n
                        /\ dest_path
                           = OsPath.join dest_folder
                               (base_name +:+ "_" +:+ pretty n +:+ ext)
                        /\ FS.exists_ fs0
                             (OsPath.join dest_folder new_filename) = true
                        /\ forall m, 1 <= m < n ->
                             FS.exists_ fs0
                               (OsPath.join dest_folder
                                  (base_name +:+ "_" +:+ pretty m +:+ ext))
                             = true))
    /\ (forall file_path st fs0 st' fs1,
          process_file output_folder organize_by_type add_metadata_to_filename
                       file_path st fs0 = Some (st', fs1) ->
          processed_log st' = processed_log st
          \/ exists category format_type fs_mid dest_path,
               processed_log st'
               = (processed_log st
                  ++ [(OsPath.basename file_path, dest_path)])%list
               /\ extends fs0 fs_mid
               /\ free_path
                    (dest_folder_of output_folder organize_by_type category)
                    (candidate_name fs_mid add_metadata_to_filename file_path
                                    category format_type) fs_mid
                  = Some (Return dest_path, fs_mid))
    /\ (FS.walk fs' input_folder = FS.walk fs input_folder ->
        exists r2 fs2,
          process_and_organize_files input_folder output_folder
            organize_by_type add_metadata_to_filename fs' = Some (r2, fs2)
          /\ processed_files (stats r2) = processed_files (stats r)
          /\ length (errors (stats r2)) = length (errors (stats r))
          /\ size (regular_files fs2)
             = size (regular_files fs') + processed_files (stats r)
          /\ forall p n, nodes fs' !! p = Some n -> nodes fs2 !! p = Some n).
Proof.
  assert (forall fs0 r0 fs0',
            NoDup (processed_log r0).*2 ->
            (forall d, d ∈ (processed_log r0).*2 ->
                       nodes fs0 !! d = None /\ d ∈ regular_files fs0') ->
            regular_files fs0'
            = list_to_set (processed_log r0).*2 ∪ regular_files fs0 ->
            processed_files (stats r0) = length (processed_log r0) ->
            size (regular_files fs0')
            = size (regular_files fs0) + processed_files (stats r0))
    as Hsize.
  { intros fs0 r0 fs0' Hnodup Hnew Hreg Hproc.
    rewrite Hreg, size_union.
    - rewrite size_list_to_set by done. rewrite length_fmap. lia.
    - intros d Hd [c Hc]%elem_of_regular_files.
      apply elem_of_list_to_set in Hd. destruct (Hnew d Hd) as [Hnone _].
      congruence. }
  destruct (process_and_organize_files_spec input_folder output_folder
              organize_by_type add_metadata_to_filename fs)
    as (r & fs' & Hrun & Hext & Hnodup & Hnew & Hreg & Htot & Hproc & _ & Herr).
  exists r, fs'. split_and!; try done.
  - intros d Hd. destruct (Hnew d Hd) as [Hnone Hin].
    by apply elem_of_regular_files in Hin.
  - intros p n. by apply extends_lookup.
  - by apply Hsize.
  - intros dest_folder new_filename fs0.
    destruct (free_path_total dest_folder new_filename fs0)
      as (dest_path & Hfree & Hnone).
    exists dest_path. split; [done |]. split; [by apply exists_false |].
    simpl. split.
    { apply splitext_app. by destruct (OsPath.splitext new_filename). }
    apply free_path_shape in Hfree as (_ & i & Hi & _ & Hbefore).
    simpl in Hi, Hbefore. injection Hi as ->.
    destruct i as [|i]; [by left |]. right. exists (S i).
    split_and!; [lia | done | exact (Hbefore 0 ltac:(lia)) |].
    intros m Hm. specialize (Hbefore m ltac:(lia)).
    destruct m as [|m]; [lia |]. exact Hbefore.
  - intros file_path st fs0 st' fs1 Hstep.
    destruct (process_file_cases output_folder organize_by_type
                add_metadata_to_filename file_path st fs0)
      as (category & format_type & method & _ & Hcases).
    simpl in Hcases. rewrite Hstep in Hcases.
    destruct Hcases as [(? & _ & [= -> _])
                       | (_ & fs_mid & _ & Hmid & _ & _
                          & [(e & _ & [= -> _])
                            | (c & dest_path & _ & _ & Hfree & [= -> _])])];
      [by left | by left |].
    right. by exists category, format_type, fs_mid, dest_path.
  - intros Hwalk.
    destruct (process_and_organize_files_spec input_folder output_folder
                organize_by_type add_metadata_to_filename fs')
      as (r2 & fs2 & Hrun2 & Hext2 & Hnodup2 & Hnew2 & Hreg2 & _ & Hproc2 & _).
    exists r2, fs2. split; [done |].
    unfold process_and_organize_files in Hrun, Hrun2. simpl in Hrun, Hrun2.
    rewrite Hwalk in Hrun2.
    destruct (for_files_rerun output_folder organize_by_type
                add_metadata_to_filename (FS.walk fs input_folder) _ _
                (mkRun (mkResults (length (FS.walk fs input_folder)) 0 [] ∅) [])
                fs fs' fs'
                ltac:(intros p [c Hc]%walk_files; eauto) Hrun ltac:(done))
      as (r2' & fs2' & Hrun2' & Hp & He).
    rewrite Hrun2 in Hrun2'. injection Hrun2' as <- <-. simpl in Hp, He.
    assert (processed_files (stats r2) = processed_files (stats r)) as Heq
      by lia.
    split_and!; [done | lia | | by intros p n; apply extends_lookup].
    rewrite <- Heq. by apply Hsize.
Qed.

(** The twins, organized twice into a destination outside the source. *)
Lemma collision_free_destinations_witness :
  exists r fs' r2 fs2,
    @process_and_organize_files Examples.unicode Examples.decoders
        "/s" "/o" true false
      Examples.twins = Some (r, fs')
    /\ @process_and_organize_files Examples.unicode Examples.decoders
        "/s" "/o" true false fs'
       = Some (r2, fs2)
    /\ processed_files (stats r2) = processed_files (stats r)
    /\ size (regular_files fs2)
       = size (regular_files fs') + processed_files (stats r).
Proof.
  destruct (@collision_free_destinations Examples.unicode Examples.decoders
      "/s" "/o" true
              false Examples.twins)
    as (r & fs' & Hrun & _ & _ & _ & _ & _ & _ & Htwice).
  assert (FS.walk fs' "/s" = FS.walk Examples.twins "/s") as Hwalk.
  { vm_compute in Hrun. injection Hrun as _ <-. vm_compute. reflexivity. }
  destruct (Htwice Hwalk) as (r2 & fs2 & Hrun2 & Hp & _ & Hs & _).
  exists r, fs', r2, fs2. exact (conj Hrun (conj Hrun2 (conj Hp Hs))).
Defined.

(** The first of the twins cannot be read, and everything goes to one
    folder: the path /o/x.png is computed for the first, whose copy
    fails, and again for the second. *)
Lemma collision_free_destinations_counterexample :
  @computed_paths Examples.unicode Examples.decoders "/o" false false
    (FS.walk Examples.half "/s") Examples.half
  = ["/o/x.png"; "/o/x.png"]
  /\ ~ NoDup (@computed_paths Examples.unicode Examples.decoders
      "/o" false false
                (FS.walk Examples.half "/s") Examples.half)
  /\ exists r fs',
       @process_and_organize_files Examples.unicode Examples.decoders
           "/s" "/o" false false
         Examples.half = Some (r, fs')
       /\ processed_log r = [("x.png", "/o/x.png")]
       /\ length (errors (stats r)) = 1.
Proof.
  assert (@computed_paths Examples.unicode Examples.decoders "/o" false false
            (FS.walk Examples.half "/s") Examples.half
          = ["/o/x.png"; "/o/x.png"]) as Hpaths by (vm_compute; reflexivity).
  split_and!.
  - exact Hpaths.
  - rewrite Hpaths. intros Hnodup. apply NoDup_cons in Hnodup as [Hnotin _].
    apply Hnotin. by left.
  - eexists _, _. split; [vm_compute; reflexivity |]. by split.
Qed.

(** * Further properties *)

(** ** The classifier *)

Section ClassifierMore.
Context {U : Py.Unicode}.

Lemma find_Some_first {A : Type} (f : A -> bool) (l : list A) (x : A) :
  List.find f l = Some x ->
  exists i, l !! i = Some x /\ f x = true
            /\ forall j y, j < i -> l !! j = Some y -> f y = false.
Proof.
  induction l as [|a l IH]; simpl; [done |].
  destruct (f a) eqn:Ha.
  - intros [= ->]. exists 0. split_and!; [done | done |]. intros; lia.
  - intros Hfind. destruct (IH Hfind) as (i & Hi & Hx & Hbefore).
    exists (S i). split_and!; [done | done |].
    intros [|j] y Hj Hy; simpl in Hy; [by injection Hy as <- |].
    apply (Hbefore j); [lia | done].
Qed.

Lemma find_None_all {A : Type} (f : A -> bool) (l : list A) :
  List.find f l = None -> forall x, x ∈ l -> f x = false.
Proof.
  induction l as [|a l IH]; simpl; intros Hnone x Hx.
  - by apply elem_of_nil in Hx.
  - destruct (f a) eqn:Ha; [done |].
    apply elem_of_cons in Hx as [-> | Hx]; [done | by apply IH].
Qed.

Lemma match_signature_Some (content : list byte) (category format_type : string) :
  match_signature content = Some (category, format_type) ->
  exists i sig,
    signatures !! i = Some (sig, (category, format_type))
    /\ Py.startswith content sig = true
    /\ forall j entry, j < i -> signatures !! j = Some entry ->
                       Py.startswith content entry.1 = false.
Proof.
  unfold match_signature.
  destruct (List.find _ signatures) as [[sig [c f]]|] eqn:Hfind; [| done].
  intros [= -> ->]. apply find_Some_first in Hfind as (i & Hi & Hsig & Hbefore).
  by exists i, sig.
Qed.

Lemma match_signature_None (content : list byte) :
  match_signature content = None ->
  forall entry, entry ∈ signatures -> Py.startswith content entry.1 = false.
Proof.
  unfold match_signature.
  destruct (List.find _ signatures) eqn:Hfind; [done |]. intros _.
  by apply find_None_all.
Qed.

Lemma match_extension_Some (ext category : string) :
  match_extension ext = Some category ->
  exists extensions,
    (category, extensions) ∈ SUPPORTED_FORMATS /\ ext ∈ extensions.
Proof.
  unfold match_extension.
  destruct (List.find _ SUPPORTED_FORMATS) as [[c extensions]|] eqn:Hfind;
    [| done].
  intros [= ->]. apply find_some in Hfind as [Hin Hex].
  exists extensions. split; [by apply list_elem_of_In |].
  apply existsb_exists in Hex as (x & Hx & ->%String.eqb_eq).
  by apply list_elem_of_In.
Qed.

Lemma match_extension_None (ext : string) :
  match_extension ext = None ->
  forall category extensions,
    (category, extensions) ∈ SUPPORTED_FORMATS -> ext ∉ extensions.
Proof.
  unfold match_extension.
  destruct (List.find _ SUPPORTED_FORMATS) eqn:Hfind; [done |]. intros _.
  intros category extensions Hentry Hext.
  pose proof (find_None_all _ _ Hfind _ Hentry) as Hno. simpl in Hno.
  assert (List.existsb (String.eqb ext) extensions = true) as Hyes.
  { apply existsb_exists. exists ext. split; [by apply list_elem_of_In |].
    apply String.eqb_refl. }
  congruence.
Qed.

(** Every listed extension is a dot followed by something. *)
Lemma SUPPORTED_FORMATS_dotted :
  Forall (fun entry =>
            Forall (fun ext => "." +:+ Py.drop 1 ext = ext
                               /\ Py.truthy (Py.drop 1 ext) = true) entry.2)
         SUPPORTED_FORMATS.
Proof. repeat constructor. Qed.

(** The categories of the two tables. *)
Lemma signatures_categories :
  Forall (fun entry => entry.2.1 ∈ SUPPORTED_FORMATS.*1) signatures.
Proof.
  unfold signatures. repeat (apply Forall_cons; split; [by vm_compute; set_solver |]).
  constructor.
Qed.

End ClassifierMore.

(** X1. The result of [detect_file_type] stays within closed sets: the
    category is a key of SUPPORTED_FORMATS, "Other" or "Error", and the
    method one of four; "Error" goes with the method "error" and with it
    only, "Other" with "unknown" and the format "unknown". *)
Theorem detect_file_type_closed {U : Py.Unicode}
    (fs : filesystem) (file_path : string) :
  exists category format_type method,
    detect_file_type fs file_path = Return (category, format_type, method)
    /\ category ∈ (SUPPORTED_FORMATS.*1 ++ ["Other"; "Error"])%list
    /\ method ∈ ["magic_bytes"; "file_extension"; "unknown"; "error"]
    /\ (method = "error" <-> category = "Error")
    /\ (method = "unknown" <-> category = "Other")
    /\ (category = "Other" -> format_type = "unknown")
    /\ (method = "magic_bytes" \/ method = "file_extension" ->
        category ∈ SUPPORTED_FORMATS.*1).
Proof.
  assert (forall category, category ∈ SUPPORTED_FORMATS.*1 ->
            category <> "Error" /\ category <> "Other") as Hsix.
  { intros category Hin. vm_compute in Hin.
    repeat (apply elem_of_cons in Hin as [-> | Hin]; [by split |]).
    by apply elem_of_nil in Hin. }
  unfold detect_file_type, detect_file_type_body.
  destruct (FS.getsize fs file_path) as [size | e]; simpl.
  2: { eexists _, _, _. split; [done |].
       split_and!; try done; [set_solver | set_solver | by intros [|]]. }
  destruct (FS.read_header fs file_path 32) as [header | e]; simpl.
  2: { eexists _, _, _. split; [done |].
       split_and!; try done; [set_solver | set_solver | by intros [|]]. }
  destruct (match_signature header) as [[category format_type]|] eqn:Hsig.
  - eexists _, _, _. split; [done |].
    apply match_signature_Some in Hsig as (i & sig & Hi & _).
    pose proof signatures_categories as Hall.
    rewrite Forall_forall in Hall.
    assert (category ∈ SUPPORTED_FORMATS.*1) as Hin.
    { apply (Hall (sig, (category, format_type))).
      by eapply list_elem_of_lookup_2. }
    destruct (Hsix _ Hin) as [Hne1 Hne2].
    split_and!; try done; [set_solver | set_solver | ..].
    all: split; intros; congruence.
  - simpl. destruct (match_extension _) as [category|] eqn:Hext.
    + eexists _, _, _. split; [done |].
      apply match_extension_Some in Hext as (extensions & Hentry & _).
      assert (category ∈ SUPPORTED_FORMATS.*1) as Hin.
      { apply list_elem_of_fmap. by exists (category, extensions). }
      destruct (Hsix _ Hin) as [Hne1 Hne2].
      split_and!; try done; [set_solver | set_solver | ..].
      all: split; intros; congruence.
    + eexists _, _, _. split; [done |].
      split_and!; try done; [set_solver | set_solver | by intros [|]].
Qed.

(** X2. What a result says about the file. "magic_bytes": the file is
    readable and the pair comes from the first signature of the table
    that its content starts with. "file_extension": no signature matches,
    the lower-cased extension is listed for the category, and the format
    is that extension without its dot. "unknown": neither a signature nor
    a listed extension. "error": the size or the header could not be
    read, and the format is the text of the exception. *)
Theorem detect_file_type_sound {U : Py.Unicode}
    (fs : filesystem) (file_path category format_type : string) :
  (detect_file_type fs file_path
   = Return (category, format_type, "magic_bytes") ->
   exists content i sig,
     FS.read_all fs file_path = Return content
     /\ signatures !! i = Some (sig, (category, format_type))
     /\ Py.startswith content sig = true
     /\ forall j entry, j < i -> signatures !! j = Some entry ->
                        Py.startswith content entry.1 = false)
  /\ (detect_file_type fs file_path
      = Return (category, format_type, "file_extension") ->
      exists content extensions,
        FS.read_all fs file_path = Return content
        /\ (forall entry, entry ∈ signatures ->
                          Py.startswith content entry.1 = false)
        /\ (category, extensions) ∈ SUPPORTED_FORMATS
        /\ Py.lower (OsPath.Path_suffix file_path) ∈ extensions
        /\ "." +:+ format_type = Py.lower (OsPath.Path_suffix file_path)
        /\ Py.truthy format_type = true)
  /\ (detect_file_type fs file_path
      = Return (category, format_type, "unknown") ->
      category = "Other" /\ format_type = "unknown"
      /\ exists content,
           FS.read_all fs file_path = Return content
           /\ (forall entry, entry ∈ signatures ->
                             Py.startswith content entry.1 = false)
           /\ forall category' extensions,
                (category', extensions) ∈ SUPPORTED_FORMATS ->
                Py.lower (OsPath.Path_suffix file_path) ∉ extensions)
  /\ (detect_file_type fs file_path
      = Return (category, format_type, "error") ->
      category = "Error"
      /\ (FS.getsize fs file_path = Raise format_type
          \/ FS.read_all fs file_path = Raise format_type)).
Proof.
  destruct (FS.read_all fs file_path) as [content | e] eqn:Hread.
  - rewrite (detect_file_type_readable _ _ _ Hread).
    destruct (match_signature content) as [[c f]|] eqn:Hsig;
      [| simpl; destruct (match_extension _) as [c|] eqn:Hext].
    + split_and!; intros [= -> ->].
      apply match_signature_Some in Hsig as (i & sig & Hi & Hs & Hbefore).
      by exists content, i, sig.
    + split_and!; intros [= -> <-].
      apply match_extension_Some in Hext as (extensions & Hentry & Hin).
      pose proof SUPPORTED_FORMATS_dotted as Hdot.
      rewrite Forall_forall in Hdot. specialize (Hdot _ Hentry). simpl in Hdot.
      rewrite Forall_forall in Hdot. destruct (Hdot _ Hin) as [Hd1 Hd2].
      exists content, extensions. split_and!; try done.
      by apply match_signature_None.
    + split_and!; intros [= <- <-]. split_and!; [done | done |].
      exists content. split_and!; [done | by apply match_signature_None |].
      by apply match_extension_None.
  - unfold detect_file_type, detect_file_type_body, FS.read_header.
    rewrite Hread.
    destruct (FS.getsize fs file_path) as [size | e']; simpl;
      split_and!; intros [= <- <-]; split; eauto.
Qed.

(** A file named .TXT in upper case: its format is the lower-cased
    extension. *)
Lemma detect_file_type_sound_witness :
  "." +:+ "txt"
  = Py.lower (Unicode := Examples.unicode) (OsPath.Path_suffix "/s/notes.TXT").
Proof.
  destruct (proj1 (proj2 (detect_file_type_sound (U := Examples.unicode)
      Examples.tree "/s/notes.TXT"
                            "Documents" "txt")) eq_refl)
    as (content & extensions & _ & _ & _ & _ & Hdot & _).
  exact Hdot.
Defined.

(** X3. The classifier looks at nothing but the first 32 bytes of the
    file and the lower-cased extension of its name: two readable files
    that agree on these get the same result. *)
Theorem detect_file_type_header_only {U : Py.Unicode}
    (fs1 fs2 : filesystem) (p1 p2 : string) (c1 c2 : list byte) :
  FS.read_all fs1 p1 = Return c1 ->
  FS.read_all fs2 p2 = Return c2 ->
  List.firstn 32 c1 = List.firstn 32 c2 ->
  Py.lower (OsPath.Path_suffix p1) = Py.lower (OsPath.Path_suffix p2) ->
  detect_file_type fs1 p1 = detect_file_type fs2 p2.
Proof.
  intros Hr1 Hr2 Hhead Hext.
  rewrite (detect_file_type_readable _ _ _ Hr1),
    (detect_file_type_readable _ _ _ Hr2).
  rewrite <- (match_signature_header c1), <- (match_signature_header c2).
  by rewrite Hhead, Hext.
Qed.

Lemma detect_file_type_header_only_witness :
  detect_file_type (U := Examples.unicode) Examples.twins "/s/a/x.png"
  = detect_file_type (U := Examples.unicode) Examples.tree "/s/b/x.png".
Proof.
  exact (detect_file_type_header_only (U := Examples.unicode)
      Examples.twins Examples.tree
           "/s/a/x.png" "/s/b/x.png" Examples.png Examples.png
           eq_refl eq_refl eq_refl eq_refl).
Defined.

(** ** File names *)

Section NameMore.
Context {U : Py.Unicode} `{Decoders}.

Lemma drop_length (n : nat) (s : string) :
  String.length (Py.drop n s) = String.length s - n.
Proof.
  revert s. induction n as [|n IH]; intros [|c s]; simpl; try done; lia.
Qed.

(** At the index [rfind] gives, the character looked for is found. *)
Lemma rfind_drop (c : ascii) (s : string) :
  (0 <= Py.rfind c s)%Z ->
  Py.starts_with_char c (Py.drop (Z.to_nat (Py.rfind c s)) s) = true.
Proof.
  induction s as [|a s IH]; simpl; [lia |].
  destruct (0 <=? Py.rfind c s)%Z eqn:Hr.
  - apply Z.leb_le in Hr. intros _.
    replace (Z.to_nat (Py.rfind c s + 1)) with (S (Z.to_nat (Py.rfind c s)))
      by lia.
    simpl. by apply IH.
  - destruct (Ascii.eqb a c) eqn:Hac; [| lia]. intros _. simpl. done.
Qed.

Lemma Path_stem_suffix (p : string) :
  OsPath.Path_stem p +:+ OsPath.Path_suffix p = OsPath.Path_name p.
Proof.
  unfold OsPath.Path_stem, OsPath.Path_suffix.
  destruct (OsPath.has_suffix _); [apply take_drop | apply str_app_nil_r].
Qed.

(** A suffix, when there is one, is a dot followed by something. *)
Lemma Path_suffix_dotted (p : string) :
  Py.truthy (OsPath.Path_suffix p) = true ->
  Py.starts_with_char "." (OsPath.Path_suffix p) = true
  /\ 2 <= String.length (OsPath.Path_suffix p).
Proof.
  unfold OsPath.Path_suffix.
  destruct (OsPath.has_suffix (OsPath.Path_name p)) eqn:Hs; [| done].
  intros _. unfold OsPath.has_suffix in Hs.
  apply andb_prop in Hs as [Hpos Hlt].
  apply Z.ltb_lt in Hpos, Hlt. split.
  - apply rfind_drop. lia.
  - rewrite drop_length. lia.
Qed.

Lemma extension_from_format_dotted (format_type : string) :
  Py.starts_with_char "." (extension_from_format format_type) = true
  /\ 2 <= String.length (extension_from_format format_type).
Proof.
  unfold extension_from_format.
  destruct format_type as [|c f]; simpl; [split; [done | lia] |].
  destruct (negb _); simpl; split; try done; lia.
Qed.

(** The extension both "Ensure extension exists" blocks mean. *)
Lemma ensure_extension_agree (fs fs' : filesystem)
    (p category format_type method : string) :
  is_Some (nodes fs !! p) -> extends fs fs' ->
  detect_file_type fs p = Return (category, format_type, method) ->
  ensure_extension fs' p
  = Return (if Py.truthy (OsPath.Path_suffix p) then OsPath.Path_suffix p
            else extension_from_format format_type).
Proof.
  intros Hthere Hext Hdetect. unfold ensure_extension.
  destruct (Py.truthy (OsPath.Path_suffix p)); [done |].
  by rewrite (detect_file_type_extends _ _ _ Hext Hthere), Hdetect.
Qed.

Lemma app_truthy (s t : string) :
  Py.truthy t = true -> Py.truthy (s +:+ t) = true.
Proof. by destruct s, t. Qed.

(** None of the tokens of [get_document_info] is "unknown". *)
Lemma counted_ne_unknown (s unit : string) :
  unit ∈ ["pages"; "paragraphs"; "slides"; "lines"] ->
  s +:+ unit <> "unknown".
Proof.
  intros Hunit E.
  repeat (apply elem_of_cons in Hunit as [-> | Hunit];
          [repeat (destruct s as [|? s];
                   [discriminate E
                   | rewrite str_app_cons in E;
                     first [discriminate E | injection E as _ E]]) |]).
  by apply elem_of_nil in Hunit.
Qed.

Lemma get_document_info_token (fs : filesystem) (p : string) :
  get_document_info fs p = "document"
  \/ exists (n : nat) (unit : string),
       unit ∈ ["pages"; "paragraphs"; "slides"; "lines"]
       /\ get_document_info fs p = pretty n +:+ unit.
Proof.
  unfold get_document_info, get_document_info_body.
  destruct (String.eqb _ ".pdf").
  { destruct (decode pdf_pages fs p) as [n | e]; simpl; [| by left].
    right. exists n, "pages". split; [set_solver | done]. }
  destruct (List.existsb _ [".docx"; ".doc"]).
  { destruct (decode docx_paragraphs fs p) as [n | e]; simpl; [| by left].
    right. exists n, "paragraphs". split; [set_solver | done]. }
  destruct (List.existsb _ [".pptx"; ".ppt"]).
  { destruct (decode pptx_slides fs p) as [n | e]; simpl; [| by left].
    right. exists n, "slides". split; [set_solver | done]. }
  destruct (String.eqb _ ".txt"); [| by left].
  destruct (FS.read_all fs p) as [c | e]; simpl; [| by left].
  right. exists (text_lines c), "lines". split; [set_solver | done].
Qed.

End NameMore.

(** X4. For a file that is there, the two places that "ensure the
    extension exists" agree, so that asking for metadata changes a name
    only by the token put between the stem and the extension. The
    extension is the original one, in its original case, when the file
    has one (the name without metadata is then the original name), and
    else a dot followed by the detected format or by "unknown"; it is
    never empty. *)
Theorem metadata_only_inserts_token {U : Py.Unicode} `{Decoders}
    (fs fs' : filesystem) (file_path category format_type method : string) :
  is_Some (nodes fs !! file_path) -> extends fs fs' ->
  detect_file_type fs file_path = Return (category, format_type, method) ->
  let ext :=
    if Py.truthy (OsPath.Path_suffix file_path)
    then OsPath.Path_suffix file_path
    else extension_from_format format_type in
  candidate_name fs' false file_path category format_type
  = OsPath.Path_stem file_path +:+ ext
  /\ (Py.truthy (OsPath.Path_suffix file_path) = true ->
      candidate_name fs' false file_path category format_type
      = OsPath.Path_name file_path)
  /\ Py.starts_with_char "." ext = true
  /\ 2 <= String.length ext
  /\ (candidate_name fs' true file_path category format_type
      = OsPath.Path_stem file_path +:+ ext
      \/ Py.truthy (file_info fs' file_path category) = true
         /\ file_info fs' file_path category <> "unknown"
         /\ candidate_name fs' true file_path category format_type
            = OsPath.Path_stem file_path +:+ "_"
              +:+ file_info fs' file_path category +:+ ext).
Proof.
  intros Hthere Hext Hdetect ext. split_and!.
  - done.
  - intros Hs. unfold candidate_name. rewrite Hs. apply Path_stem_suffix.
  - unfold ext. destruct (Py.truthy (OsPath.Path_suffix file_path)) eqn:Hs.
    + by apply Path_suffix_dotted.
    + apply extension_from_format_dotted.
  - unfold ext. destruct (Py.truthy (OsPath.Path_suffix file_path)) eqn:Hs.
    + by apply Path_suffix_dotted.
    + apply extension_from_format_dotted.
  - unfold candidate_name, create_organized_filename.
    rewrite (ensure_extension_agree _ _ _ _ _ _ Hthere Hext Hdetect).
    fold ext. simpl.
    destruct (Py.truthy (file_info fs' file_path category)) eqn:Ht;
      [| by left].
    destruct (String.eqb (file_info fs' file_path category) "unknown") eqn:Hu;
      simpl; [by left |].
    right. split_and!; [done | by apply String.eqb_neq | done].
Qed.

(** A picture with its extension in the example tree. *)
Lemma metadata_only_inserts_token_witness :
  @candidate_name Examples.unicode Examples.decoders
      Examples.twins true "/s/a/x.png"
    "Images" "png"
  = "x_100x50_JPEG.png"
  /\ @candidate_name Examples.unicode Examples.decoders
      Examples.twins false "/s/a/x.png"
       "Images" "png"
     = OsPath.Path_name "/s/a/x.png".
Proof.
  destruct (@metadata_only_inserts_token Examples.unicode Examples.decoders
      Examples.twins
              Examples.twins "/s/a/x.png" "Images" "png" "magic_bytes"
              (ex_intro _ (File Examples.png) eq_refl)
              (conj (reflexivity _) eq_refl) eq_refl)
    as (_ & Hname & _ & _ & _).
  split; [reflexivity | exact (Hname eq_refl)].
Defined.

(** X5. A file filed under Documents always gets a token when metadata
    is asked for: a count followed by pages, paragraphs, slides or lines,
    or the word "document"; never "unknown" and never nothing. *)
Theorem documents_always_tokened {U : Py.Unicode} `{Decoders}
    (fs : filesystem) (file_path extension : string) :
  ensure_extension fs file_path = Return extension ->
  (get_document_info fs file_path = "document"
   \/ exists (n : nat) (unit : string),
        unit ∈ ["pages"; "paragraphs"; "slides"; "lines"]
        /\ get_document_info fs file_path = pretty n +:+ unit)
  /\ get_document_info fs file_path <> "unknown"
  /\ Py.truthy (get_document_info fs file_path) = true
  /\ create_organized_filename fs file_path "Documents"
     = Return (OsPath.Path_stem file_path +:+ "_"
               +:+ get_document_info fs file_path +:+ extension).
Proof.
  intros Hext.
  pose proof (get_document_info_token fs file_path) as Htoken.
  assert (get_document_info fs file_path <> "unknown") as Hne.
  { destruct Htoken as [-> | (n & unit & Hunit & ->)]; [done |].
    by apply counted_ne_unknown. }
  assert (Py.truthy (get_document_info fs file_path) = true) as Ht.
  { destruct Htoken as [-> | (n & unit & Hunit & ->)]; [done |].
    apply app_truthy.
    repeat (apply elem_of_cons in Hunit as [-> | Hunit]; [done |]).
    by apply elem_of_nil in Hunit. }
  split_and!; try done.
  assert (file_info fs file_path "Documents"
          = get_document_info fs file_path) as Hfi by reflexivity.
  rewrite <- Hfi.
  apply create_organized_filename_token; [done | by rewrite Hfi..].
Qed.

(** The plain text file of the example tree (the decoders of the
    examples count the newline bytes). *)
Lemma documents_always_tokened_witness :
  @create_organized_filename Examples.unicode Examples.decoders
      Examples.tree "/s/notes.TXT"
    "Documents"
  = Return "notes_0lines.TXT".
Proof.
  destruct (@documents_always_tokened Examples.unicode Examples.decoders
      Examples.tree
              "/s/notes.TXT" ".TXT" eq_refl) as (_ & _ & _ & Hname).
  exact Hname.
Defined.

(** X6. For a file that is there and is filed under a category without a
    probe (Archives, Executables, Other, Error), asking for metadata
    changes nothing: the loop computes the same destination. *)
Theorem no_token_outside_media {U : Py.Unicode} `{Decoders}
    (output_folder : string) (organize_by_type : bool)
    (fs : filesystem) (file_path category format_type method : string) :
  is_Some (nodes fs !! file_path) ->
  detect_file_type fs file_path = Return (category, format_type, method) ->
  category ∉ ["Images"; "Videos"; "Audio"; "Documents"] ->
  destination output_folder organize_by_type true file_path fs
  = destination output_folder organize_by_type false file_path fs.
Proof.
  intros Hthere Hdetect Hcat.
  assert (forall fs', file_info fs' file_path category = "") as Hinfo.
  { intros fs'. unfold file_info.
    destruct (String.eqb category "Images") eqn:E1;
      [apply String.eqb_eq in E1; set_solver |].
    destruct (String.eqb category "Videos") eqn:E2;
      [apply String.eqb_eq in E2; set_solver |].
    destruct (String.eqb category "Audio") eqn:E3;
      [apply String.eqb_eq in E3; set_solver |].
    destruct (String.eqb category "Documents") eqn:E4;
      [apply String.eqb_eq in E4; set_solver | done]. }
  unfold destination, io_bind, io_read, io_call, io_ret. rewrite Hdetect.
  fold (dest_folder_of output_folder organize_by_type category).
  destruct (makedirs_spec
              (dest_folder_of output_folder organize_by_type category) fs)
    as [(c & _ & ->) | (_ & fs' & -> & Hext & _)]; [done |].
  rewrite (create_organized_filename_plain fs' file_path category
             (if Py.truthy (OsPath.Path_suffix file_path)
              then OsPath.Path_suffix file_path
              else extension_from_format format_type)).
  - done.
  - by eapply ensure_extension_agree.
  - right. apply Hinfo.
Qed.

(** The unreadable picture, filed under Error. *)
Lemma no_token_outside_media_witness :
  @destination Examples.unicode Examples.decoders
      "/o" true true "/s/a/x.png" Examples.half
  = @destination Examples.unicode Examples.decoders
      "/o" true false "/s/a/x.png" Examples.half.
Proof.
  apply (@no_token_outside_media Examples.unicode Examples.decoders
      "/o" true Examples.half
           "/s/a/x.png" "Error"
           "[Errno 13] Permission denied: '/s/a/x.png'" "error").
  - by exists (File Examples.png).
  - reflexivity.
  - intros Hin. repeat (apply elem_of_cons in Hin as [Hin | Hin];
                        [discriminate Hin |]).
    by apply elem_of_nil in Hin.
Defined.

(** ** The loop, file by file *)

Section LoopMore.
Context {U : Py.Unicode} `{Decoders}.

(** Induction over the iterations of the loop: [P seen st fs] holds of
    the files seen so far, the statistics and the file system. *)
Lemma for_files_ind (P : list string -> run -> filesystem -> Prop)
    (output_folder : string)
    (organize_by_type add_metadata_to_filename : bool) (files : list string)
    (st st' : run) (fs fs' : filesystem) :
  P [] st fs ->
  (forall seen file_path st1 fs1 st2 fs2,
     P seen st1 fs1 -> file_path ∈ files ->
     process_file output_folder organize_by_type add_metadata_to_filename
                  file_path st1 fs1 = Some (st2, fs2) ->
     P (seen ++ [file_path])%list st2 fs2) ->
  for_files output_folder organize_by_type add_metadata_to_filename
            files st fs = Some (st', fs') ->
  P files st' fs'.
Proof.
  intros Hinit Hstep.
  assert (forall rest seen st0 fs0,
            (forall p, p ∈ rest -> p ∈ files) -> P seen st0 fs0 ->
            for_files output_folder organize_by_type
                      add_metadata_to_filename rest st0 fs0
            = Some (st', fs') ->
            P (seen ++ rest)%list st' fs') as Hgen.
  { induction rest as [|p rest IH]; intros seen st0 fs0 Hsub Hseen Hrun.
    - injection Hrun as <- <-. by rewrite List.app_nil_r.
    - simpl in Hrun.
      destruct (process_file _ _ _ p st0 fs0) as [[st1 fs1]|] eqn:Hp;
        [| done].
      replace (seen ++ p :: rest)%list with ((seen ++ [p]) ++ rest)%list
        by by rewrite <- List.app_assoc.
      apply (IH _ st1 fs1); [| | done].
      + intros q Hq. apply Hsub. by right.
      + eapply Hstep; [done | | done]. apply Hsub. by left. }
  apply (Hgen files [] st fs); done.
Qed.

(** A file that can be read is never filed under Error. *)
Lemma detect_file_type_readable_category (fs : filesystem)
    (p category format_type method : string) (c : list byte) :
  FS.read_all fs p = Return c ->
  detect_file_type fs p = Return (category, format_type, method) ->
  category ∈ (SUPPORTED_FORMATS.*1 ++ ["Other"])%list.
Proof.
  intros Hread. rewrite (detect_file_type_readable _ _ _ Hread).
  destruct (match_signature c) as [[cat fmt]|] eqn:Hsig.
  - intros [= <- _ _].
    apply match_signature_Some in Hsig as (i & sig & Hi & _).
    pose proof signatures_categories as Hall.
    rewrite Forall_forall in Hall. apply elem_of_app. left.
    apply (Hall (sig, (cat, fmt))). by eapply list_elem_of_lookup_2.
  - cbv zeta. destruct (match_extension _) as [cat|] eqn:Hext.
    + intros [= <- _ _].
      apply match_extension_Some in Hext as (extensions & Hentry & _).
      apply elem_of_app. left. apply list_elem_of_fmap.
      by exists (cat, extensions).
    + intros [= <- _ _]. set_solver.
Qed.

(** The paths [free_path] can return lie in the folder. *)
Lemma free_path_in_folder (dest_folder new_filename dest_path : string)
    (fs fs' : filesystem) :
  free_path dest_folder new_filename fs = Some (Return dest_path, fs') ->
  exists name, dest_path = OsPath.join dest_folder name.
Proof.
  intros Hfree. apply free_path_shape in Hfree as (_ & i & Hi & _).
  simpl in Hi. injection Hi as ->. destruct i as [|i]; simpl; eauto.
Qed.

End LoopMore.

Section LoopInversion.
Context {U : Py.Unicode} `{Decoders}.

(** What one iteration has done, read off its result. *)
Lemma process_file_inv (output_folder : string)
    (organize_by_type add_metadata_to_filename : bool) (file_path : string)
    (st st' : run) (fs fs' : filesystem) :
  process_file output_folder organize_by_type add_metadata_to_filename
               file_path st fs = Some (st', fs') ->
  extends fs fs'
  /\ ((exists e,
         stats st' = record_error file_path e (stats st)
         /\ processed_log st' = processed_log st
         /\ ~ copies output_folder organize_by_type fs file_path)
      \/ (exists category format_type method dest_path c new_name,
            detect_file_type fs file_path
            = Return (category, format_type, method)
            /\ stats st' = count_processed category (stats st)
            /\ processed_log st'
               = (processed_log st
                  ++ [(OsPath.basename file_path, dest_path)])%list
            /\ FS.read_all fs file_path = Return c
            /\ nodes fs !! dest_path = None
            /\ nodes fs' !! dest_path = Some (File c)
            /\ dest_path
               = OsPath.join
                   (dest_folder_of output_folder organize_by_type category)
                   new_name)).
Proof.
  intros Hstep.
  destruct (process_file_copies output_folder organize_by_type
              add_metadata_to_filename file_path st fs)
    as (st1 & fs1 & Hstep1 & Hext & Hkind & _).
  rewrite Hstep in Hstep1. injection Hstep1 as <- <-.
  split; [done |].
  destruct (process_file_cases output_folder organize_by_type
              add_metadata_to_filename file_path st fs)
    as (category & format_type & method & Hdetect & Hcases).
  simpl in Hcases. rewrite Hstep in Hcases.
  destruct Hcases as [(? & _ & [= -> _])
                     | (_ & fs_mid & _ & Hmid & _ & Hreg
                        & [(e & _ & [= -> _])
                          | (c & dest_path & Hread & Hfresh & Hfree
                             & [= -> ->])])].
  - left. eexists. split_and!; [by simpl | done |].
    destruct Hkind as [[_ [cat Hc]] | [Hno _]]; [| done].
    simpl in Hc. apply (f_equal (fun r => length (errors r))) in Hc.
    simpl in Hc. rewrite length_app in Hc. simpl in Hc. lia.
  - left. eexists. split_and!; [by simpl | done |].
    destruct Hkind as [[_ [cat Hc]] | [Hno _]]; [| done].
    simpl in Hc. apply (f_equal (fun r => length (errors r))) in Hc.
    simpl in Hc. rewrite length_app in Hc. simpl in Hc. lia.
  - right. apply free_path_in_folder in Hfree as [new_name Hname].
    exists category, format_type, method, dest_path, c, new_name.
    simpl. split_and!; try done.
    + destruct Hkind as [[Hyes _] | [_ [e He]]].
      * destruct Hyes as (cat' & f' & m' & c' & _ & _ & Hread').
        apply read_all_Return in Hread as [Hnode Hden].
        apply read_all_Return in Hread' as [Hnode' Hden'].
        pose proof (extends_lookup _ _ _ _ Hmid Hnode') as Hn.
        rewrite Hnode in Hn. injection Hn as ->.
        by apply read_all_Return.
      * simpl in He. apply (f_equal (fun r => length (errors r))) in He.
        simpl in He. rewrite length_app in He. simpl in He. lia.
    + destruct Hmid as [Hsub _]. by eapply lookup_weaken_None.
    + by rewrite lookup_insert_eq.
Qed.

End LoopInversion.

(** X8. The category counts of a run have no empty entry and no entry
    for Error: a category is a key of the statistics only if at least one
    file was copied under it, and it is then a key of SUPPORTED_FORMATS or
    "Other". A file classified as Error is always recorded as an error. *)
Theorem categories_counted {U : Py.Unicode} `{Decoders}
    (input_folder output_folder : string)
    (organize_by_type add_metadata_to_filename : bool)
    (fs fs' : filesystem) (r : run) :
  process_and_organize_files input_folder output_folder organize_by_type
                             add_metadata_to_filename fs = Some (r, fs') ->
  categories (stats r) !! "Error" = None
  /\ forall category count,
       categories (stats r) !! category = Some count ->
       1 <= count <= processed_files (stats r)
       /\ category ∈ (SUPPORTED_FORMATS.*1 ++ ["Other"])%list.
Proof.
  unfold process_and_organize_files. simpl. intros Hrun.
  pose (P := fun (seen : list string) (st : run) (fs1 : filesystem) =>
    forall category count,
      categories (stats st) !! category = Some count ->
      1 <= count <= processed_files (stats st)
      /\ category ∈ (SUPPORTED_FORMATS.*1 ++ ["Other"])%list).
  assert (P (FS.walk fs input_folder) r fs') as Hall.
  { eapply (for_files_ind P); [| | exact Hrun].
    - intros category count Hc. simpl in Hc. by rewrite lookup_empty in Hc.
    - intros seen p st1 fs1 st2 fs2 Hold _ Hstep category count Hc.
      apply process_file_inv in Hstep as [_ Hkind].
      destruct Hkind as [(e & Hstats & _)
                        | (cat & f & m & dest & c & x & Hdetect & Hstats & _
                           & Hread & _)];
        rewrite Hstats in Hc |- *; simpl in Hc |- *; [by apply Hold |].
      destruct (decide (category = cat)) as [-> | Hne].
      + rewrite lookup_insert_eq in Hc. injection Hc as <-. split.
        * destruct (categories (stats st1) !! cat) as [k|] eqn:Hk.
          -- rewrite Hk. simpl. destruct (Hold _ _ Hk) as [? _]. lia.
          -- rewrite lookup_insert_eq. simpl. lia.
        * by eapply detect_file_type_readable_category.
      + rewrite lookup_insert_ne in Hc by done.
        assert (categories (stats st1) !! category = Some count) as Hc'.
        { destruct (categories (stats st1) !! cat); [done |].
          by rewrite lookup_insert_ne in Hc. }
        destruct (Hold _ _ Hc') as [? ?]. split; [lia | done]. }
  split; [| exact Hall].
  destruct (categories (stats r) !! "Error") as [k|] eqn:Hk; [| done].
  destruct (Hall _ _ Hk) as [_ Hin]. vm_compute in Hin.
  repeat (apply elem_of_cons in Hin as [Hin | Hin]; [discriminate Hin |]).
  by apply elem_of_nil in Hin.
Qed.

(** The tree with an unreadable picture: an Error folder is made, and no
    Error count. *)
Lemma categories_counted_witness :
  exists r fs',
    @process_and_organize_files Examples.unicode Examples.decoders
        "/s" "/o" true false
      Examples.half = Some (r, fs')
    /\ nodes fs' !! "/o/Error" = Some Dir
    /\ categories (stats r) !! "Error" = None.
Proof.
  destruct (@process_and_organize_files Examples.unicode Examples.decoders
      "/s" "/o" true
              false Examples.half) as [[r fs']|] eqn:Hrun;
    [| by vm_compute in Hrun].
  exists r, fs'. split; [reflexivity |]. split.
  - pose proof Hrun as Hrun'. vm_compute in Hrun'.
    injection Hrun' as _ <-. reflexivity.
  - exact (proj1 (@categories_counted Examples.unicode Examples.decoders
      "/s" "/o" true false
                    Examples.half fs' r Hrun)).
Defined.

(** X9. A run accounts for every walked file by name: the base names of
    the processed files followed by those of the files in the error list
    are a rearrangement of the base names of the walked files, and both
    lists keep the order of the walk. *)
Theorem every_file_accounted {U : Py.Unicode} `{Decoders}
    (input_folder output_folder : string)
    (organize_by_type add_metadata_to_filename : bool)
    (fs fs' : filesystem) (r : run) :
  process_and_organize_files input_folder output_folder organize_by_type
                             add_metadata_to_filename fs = Some (r, fs') ->
  let files := FS.walk fs input_folder in
  (processed_log r).*1 `sublist_of` (OsPath.basename <$> files)
  /\ (error_file_path <$> errors (stats r)) `sublist_of` files
  /\ (processed_log r).*1
     ++ (OsPath.basename <$> (error_file_path <$> errors (stats r)))
     ≡ₚ OsPath.basename <$> files.
Proof.
  unfold process_and_organize_files. simpl. intros Hrun.
  pose (P := fun (seen : list string) (st : run) (fs1 : filesystem) =>
    (processed_log st).*1 `sublist_of` (OsPath.basename <$> seen)
    /\ (error_file_path <$> errors (stats st)) `sublist_of` seen
    /\ (processed_log st).*1
       ++ (OsPath.basename <$> (error_file_path <$> errors (stats st)))
       ≡ₚ OsPath.basename <$> seen).
  eapply (for_files_ind P); [| | exact Hrun].
  { split_and!; simpl; [constructor | constructor | done]. }
  intros seen p st1 fs1 st2 fs2 (Hlog & Herr & Hperm) _ Hstep.
  apply process_file_inv in Hstep as [_ Hkind]. unfold P.
  destruct Hkind as [(e & Hstats & Hlog2 & _)
                    | (cat & f & m & dest & c & x & _ & Hstats & Hlog2 & _)];
    rewrite Hstats, Hlog2; simpl; rewrite !fmap_app; simpl.
  - split_and!.
    + by apply sublist_inserts_r.
    + by apply sublist_app.
    + rewrite (assoc app). by rewrite Hperm.
  - split_and!.
    + by apply sublist_app.
    + by apply sublist_inserts_r.
    + rewrite <- Hperm. rewrite <- !(assoc app). f_equiv.
      apply Permutation_app_comm.
Qed.

Lemma every_file_accounted_witness :
  exists r fs',
    @process_and_organize_files Examples.unicode Examples.decoders
        "/s" "/o" false false
      Examples.half = Some (r, fs')
    /\ (processed_log r).*1
       ++ (OsPath.basename <$> (error_file_path <$> errors (stats r)))
       ≡ₚ ["x.png"; "x.png"].
Proof.
  destruct (@process_and_organize_files Examples.unicode Examples.decoders
      "/s" "/o" false
              false Examples.half) as [[r fs']|] eqn:Hrun;
    [| by vm_compute in Hrun].
  exists r, fs'. split; [reflexivity |].
  pose proof (proj2 (proj2 (@every_file_accounted
      Examples.unicode Examples.decoders
      "/s" "/o"
                              false false Examples.half fs' r Hrun))) as Hp.
  vm_compute in Hp. exact Hp.
Defined.

(** ** The names of the copies never start with a separator *)

Section SeparatorFacts.
Context {U : Py.Unicode} `{Decoders}.

Lemma split_no_leading (c : ascii) (s w : string) :
  w ∈ Py.split c s -> Py.starts_with_char c w = false.
Proof.
  revert w. induction s as [|a s IH]; intros w Hw; simpl in Hw.
  - apply list_elem_of_singleton in Hw as ->. done.
  - destruct (Ascii.eqb a c) eqn:Hac.
    + apply elem_of_cons in Hw as [-> | Hw]; [done | by apply IH].
    + destruct (Py.split c s) as [|w0 ws].
      * apply list_elem_of_singleton in Hw as ->. simpl. done.
      * apply elem_of_cons in Hw as [-> | Hw]; [simpl; done |].
        apply IH. by right.
Qed.

Lemma last_prop {A : Type} (P : A -> Prop) (l : list A) (d : A) :
  P d -> Forall P l -> P (List.last l d).
Proof.
  intros Hd Hl. induction Hl as [|a l Ha Hl IH]; [done |].
  simpl. by destruct l.
Qed.

Lemma Path_name_no_leading (p : string) :
  Py.starts_with_char OsPath.sep (OsPath.Path_name p) = false.
Proof.
  unfold OsPath.Path_name.
  apply (last_prop (fun w => Py.starts_with_char OsPath.sep w = false));
    [done |].
  apply Forall_forall. intros w Hw.
  apply list_elem_of_In, filter_In in Hw as [Hw _].
  by apply (split_no_leading _ p), list_elem_of_In.
Qed.

Lemma take_no_leading (c : ascii) (n : nat) (s : string) :
  Py.starts_with_char c s = false ->
  Py.starts_with_char c (Py.take n s) = false.
Proof. by destruct n, s. Qed.

Lemma app_no_leading (c : ascii) (s t : string) :
  Py.starts_with_char c s = false ->
  Py.starts_with_char c t = false ->
  Py.starts_with_char c (s +:+ t) = false.
Proof. by destruct s. Qed.

Lemma Path_stem_no_leading (p : string) :
  Py.starts_with_char OsPath.sep (OsPath.Path_stem p) = false.
Proof.
  unfold OsPath.Path_stem. destruct (OsPath.has_suffix _).
  - apply take_no_leading, Path_name_no_leading.
  - apply Path_name_no_leading.
Qed.

Lemma dotted_no_leading (ext : string) :
  Py.starts_with_char "." ext = true ->
  Py.starts_with_char OsPath.sep ext = false.
Proof.
  destruct ext as [|a ext]; [done |]. simpl.
  intros ->%Ascii.eqb_eq. done.
Qed.

Lemma candidate_name_no_leading (fs : filesystem)
    (add_metadata_to_filename : bool) (p category format_type : string) :
  Py.starts_with_char OsPath.sep
    (candidate_name fs add_metadata_to_filename p category format_type)
  = false.
Proof.
  assert (forall ext,
            Py.starts_with_char OsPath.sep
              (if Py.truthy (OsPath.Path_suffix p) then OsPath.Path_suffix p
               else extension_from_format ext) = false) as Hext.
  { intros ext. apply dotted_no_leading.
    destruct (Py.truthy (OsPath.Path_suffix p)) eqn:Hs.
    - by apply Path_suffix_dotted.
    - apply extension_from_format_dotted. }
  unfold candidate_name. destruct add_metadata_to_filename.
  - unfold create_organized_filename, ensure_extension.
    destruct (Py.truthy (OsPath.Path_suffix p)) eqn:Hs.
    + specialize (Hext ""). simpl in Hext. simpl.
      destruct (_ && _); simpl; apply app_no_leading;
        try apply Path_stem_no_leading; try done.
    + destruct (detect_file_type_Return fs p) as (c & f & m & ->). simpl.
      specialize (Hext f). simpl in Hext.
      destruct (_ && _); simpl; apply app_no_leading;
        try apply Path_stem_no_leading; try done.
  - apply app_no_leading; [apply Path_stem_no_leading | apply Hext].
Qed.

(** The base name [os.path.splitext] gives starts as the name does. *)
Lemma splitext_no_leading (name : string) :
  Py.starts_with_char OsPath.sep name = false ->
  Py.starts_with_char OsPath.sep (OsPath.splitext name).1 = false.
Proof.
  intros Hname. unfold OsPath.splitext. destruct (_ && _); simpl; [| done].
  by apply take_no_leading.
Qed.

Lemma tested_no_leading (dest_folder new_filename dest_path : string)
    (fs fs' : filesystem) :
  Py.starts_with_char OsPath.sep new_filename = false ->
  free_path dest_folder new_filename fs = Some (Return dest_path, fs') ->
  exists name,
    dest_path = OsPath.join dest_folder name
    /\ Py.starts_with_char OsPath.sep name = false.
Proof.
  intros Hname Hfree. apply free_path_shape in Hfree as (_ & i & Hi & _).
  simpl in Hi. injection Hi as ->. destruct i as [|i]; simpl; [eauto |].
  eexists. split; [done |].
  apply app_no_leading; [by apply splitext_no_leading | done].
Qed.








End SeparatorFacts.

(** ** The names of the copies hold no separator *)

Section NoSeparator.
Context {U : Py.Unicode} `{Decoders}.

Lemma contains_app (c : ascii) (s t : string) :
  Py.contains c (s +:+ t) = Py.contains c s || Py.contains c t.
Proof.
  induction s as [|a s IH]; [done |].
  rewrite str_app_cons. simpl. rewrite IH. by rewrite orb_assoc.
Qed.

Lemma contains_take (c : ascii) (n : nat) (s : string) :
  Py.contains c s = false -> Py.contains c (Py.take n s) = false.
Proof.
  revert s. induction n as [|n IH]; intros [|a s]; simpl; try done.
  intros [Ha Hs]%orb_false_elim. by rewrite Ha, IH.
Qed.

Lemma contains_drop (c : ascii) (n : nat) (s : string) :
  Py.contains c s = false -> Py.contains c (Py.drop n s) = false.
Proof.
  revert s. induction n as [|n IH]; intros [|a s]; simpl; try done.
  intros [Ha Hs]%orb_false_elim. by apply IH.
Qed.

Lemma contains_split (c : ascii) (s w : string) :
  w ∈ Py.split c s -> Py.contains c w = false.
Proof.
  revert w. induction s as [|a s IH]; intros w Hw; simpl in Hw.
  - apply list_elem_of_singleton in Hw as ->. done.
  - destruct (Ascii.eqb a c) eqn:Hac.
    + apply elem_of_cons in Hw as [-> | Hw]; [done | by apply IH].
    + destruct (Py.split c s) as [|w0 ws] eqn:Hsplit.
      * apply list_elem_of_singleton in Hw as ->. simpl. by rewrite Hac.
      * apply elem_of_cons in Hw as [-> | Hw].
        -- simpl. rewrite Hac. apply IH. by left.
        -- apply IH. by right.
Qed.

Lemma contains_Path_name (p : string) :
  Py.contains OsPath.sep (OsPath.Path_name p) = false.
Proof.
  unfold OsPath.Path_name.
  apply (last_prop (fun w => Py.contains OsPath.sep w = false)); [done |].
  apply Forall_forall. intros w Hw.
  apply list_elem_of_In, filter_In in Hw as [Hw _].
  by apply (contains_split _ p), list_elem_of_In.
Qed.

Lemma contains_Path_stem (p : string) :
  Py.contains OsPath.sep (OsPath.Path_stem p) = false.
Proof.
  unfold OsPath.Path_stem. destruct (OsPath.has_suffix _).
  - apply contains_take, contains_Path_name.
  - apply contains_Path_name.
Qed.

Lemma contains_Path_suffix (p : string) :
  Py.contains OsPath.sep (OsPath.Path_suffix p) = false.
Proof.
  unfold OsPath.Path_suffix. destruct (OsPath.has_suffix _); [| done].
  apply contains_drop, contains_Path_name.
Qed.

(** Numbers are written with digits and a sign. *)
Lemma contains_pretty_N_go (x : N) (s : string) :
  Py.contains OsPath.sep s = false ->
  Py.contains OsPath.sep (pretty_N_go x s) = false.
Proof.
  revert s. induction (N.lt_wf_0 x) as [x _ IH]. intros s Hs.
  assert (x = 0 \/ 0 < x)%N as [-> | Hpos] by lia.
  - by rewrite pretty_N_go_0.
  - rewrite pretty_N_go_step by done. apply IH.
    + by apply N.div_lt.
    + simpl. rewrite Hs. unfold pretty_N_char. by repeat case_match.
Qed.

Lemma contains_pretty_N (x : N) :
  Py.contains OsPath.sep (pretty x) = false.
Proof.
  unfold pretty, pretty_N. case_decide; [done |].
  by apply contains_pretty_N_go.
Qed.

Lemma contains_pretty_nat (n : nat) :
  Py.contains OsPath.sep (pretty n) = false.
Proof. apply contains_pretty_N. Qed.

Lemma contains_pretty_Z (z : Z) :
  Py.contains OsPath.sep (pretty z) = false.
Proof.
  destruct z as [|x|x]; [done | apply contains_pretty_N |].
  change (pretty (Z.neg x)) with ("-" +:+ pretty (N.pos x)).
  rewrite contains_app. simpl. apply contains_pretty_N.
Qed.

(** The formats of the two tables. *)
Lemma signatures_formats :
  Forall (fun entry => Py.contains OsPath.sep entry.2.2 = false) signatures.
Proof. repeat constructor. Qed.

Lemma SUPPORTED_FORMATS_formats :
  Forall (fun entry =>
            Forall (fun ext => Py.contains OsPath.sep (Py.drop 1 ext) = false)
                   entry.2)
         SUPPORTED_FORMATS.
Proof. repeat constructor. Qed.

Lemma contains_format (fs : filesystem)
    (p category format_type method : string) (c : list byte) :
  FS.read_all fs p = Return c ->
  detect_file_type fs p = Return (category, format_type, method) ->
  Py.contains OsPath.sep format_type = false.
Proof.
  intros Hread. rewrite (detect_file_type_readable _ _ _ Hread).
  destruct (match_signature c) as [[cat fmt]|] eqn:Hsig.
  - intros [= _ <- _].
    apply match_signature_Some in Hsig as (i & sig & Hi & _).
    pose proof signatures_formats as Hall. rewrite Forall_forall in Hall.
    apply (Hall (sig, (cat, fmt))). by eapply list_elem_of_lookup_2.
  - cbv zeta. destruct (match_extension _) as [cat|] eqn:Hext.
    + intros [= _ <- _].
      apply match_extension_Some in Hext as (extensions & Hin & Hext).
      pose proof SUPPORTED_FORMATS_formats as Hall.
      rewrite Forall_forall in Hall. specialize (Hall _ Hin). simpl in Hall.
      rewrite Forall_forall in Hall. by apply Hall.
    + by intros [= _ <- _].
Qed.

Lemma contains_extension_from_format (format_type : string) :
  Py.contains OsPath.sep format_type = false ->
  Py.contains OsPath.sep (extension_from_format format_type) = false.
Proof.
  intros Hf. unfold extension_from_format. destruct (_ && _); [| done].
  rewrite contains_app. by rewrite Hf.
Qed.

(** The tokens of the probes, that of an image apart, which ends with
    the format name the decoder gives. *)
Lemma contains_file_info (fs : filesystem) (p category : string) :
  category <> "Images" ->
  Py.contains OsPath.sep (file_info fs p category) = false.
Proof.
  intros Hne. unfold file_info.
  apply String.eqb_neq in Hne. rewrite Hne.
  destruct (String.eqb category "Videos").
  { unfold get_video_info, get_video_info_body.
    destruct (decode video_capture fs p) as [[[[w h] fps]|] | e]; simpl;
      [| done..].
    by rewrite !contains_app, !contains_pretty_Z. }
  destruct (String.eqb category "Audio").
  { unfold get_audio_info, get_audio_info_body.
    destruct (decode mutagen_file fs p) as [[[d b]|] | e]; simpl; [| done..].
    by rewrite !contains_app, !contains_pretty_Z. }
  destruct (String.eqb category "Documents"); [| done].
  destruct (get_document_info_token fs p) as [-> | (n & unit & Hunit & ->)];
    [done |].
  rewrite contains_app, contains_pretty_nat. simpl.
  repeat (apply elem_of_cons in Hunit as [-> | Hunit]; [done |]).
  by apply elem_of_nil in Hunit.
Qed.

(** The name a readable file is filed under. *)
Lemma contains_candidate_name (fs : filesystem)
    (add_metadata_to_filename : bool) (p category format_type method : string)
    (c : list byte) :
  FS.read_all fs p = Return c ->
  detect_file_type fs p = Return (category, format_type, method) ->
  add_metadata_to_filename = false \/ category <> "Images" ->
  Py.contains OsPath.sep
    (candidate_name fs add_metadata_to_filename p category format_type)
  = false.
Proof.
  intros Hread Hdetect Hcase.
  pose proof (contains_format _ _ _ _ _ _ Hread Hdetect) as Hfmt.
  assert (Py.contains OsPath.sep
            (if Py.truthy (OsPath.Path_suffix p) then OsPath.Path_suffix p
             else extension_from_format format_type) = false) as Hext.
  { destruct (Py.truthy _); [apply contains_Path_suffix |].
    by apply contains_extension_from_format. }
  unfold candidate_name. destruct add_metadata_to_filename.
  - destruct Hcase as [? | Hne]; [done |].
    unfold create_organized_filename, ensure_extension.
    rewrite Hdetect.
    assert (obind
              (if Py.truthy (OsPath.Path_suffix p)
               then Return (OsPath.Path_suffix p)
               else obind (Return (category, format_type, method))
                      (fun '(_, format_type0, _) =>
                         Return (extension_from_format format_type0)))
              (fun extension =>
                 if Py.truthy (file_info fs p category)
                    && negb (String.eqb (file_info fs p category) "unknown")
                 then Return (OsPath.Path_stem p +:+ "_"
                              +:+ file_info fs p category +:+ extension)
                 else Return (OsPath.Path_stem p +:+ extension))
            = Return
                (if Py.truthy (file_info fs p category)
                    && negb (String.eqb (file_info fs p category) "unknown")
                 then OsPath.Path_stem p +:+ "_"
                      +:+ file_info fs p category
                      +:+ (if Py.truthy (OsPath.Path_suffix p)
                           then OsPath.Path_suffix p
                           else extension_from_format format_type)
                 else OsPath.Path_stem p
                      +:+ (if Py.truthy (OsPath.Path_suffix p)
                           then OsPath.Path_suffix p
                           else extension_from_format format_type))) as ->.
    { destruct (Py.truthy (OsPath.Path_suffix p)); simpl;
        by destruct (_ && _). }
    simpl. destruct (_ && _).
    + rewrite !contains_app, contains_Path_stem, Hext.
      by rewrite (contains_file_info _ _ _ Hne).
    + by rewrite contains_app, contains_Path_stem, Hext.
  - by rewrite contains_app, contains_Path_stem, Hext.
Qed.

Lemma contains_tested (dest_folder new_filename dest_path : string)
    (fs fs' : filesystem) :
  Py.contains OsPath.sep new_filename = false ->
  Py.starts_with_char OsPath.sep new_filename = false ->
  free_path dest_folder new_filename fs = Some (Return dest_path, fs') ->
  exists name,
    dest_path = OsPath.join dest_folder name
    /\ Py.starts_with_char OsPath.sep name = false
    /\ Py.contains OsPath.sep name = false.
Proof.
  intros Hname Hlead Hfree.
  apply free_path_shape in Hfree as (_ & i & Hi & _).
  simpl in Hi. injection Hi as ->. destruct i as [|i]; simpl; [eauto |].
  eexists. split; [done |].
  assert (Py.contains OsPath.sep (OsPath.splitext new_filename).1 = false
          /\ Py.contains OsPath.sep (OsPath.splitext new_filename).2 = false)
    as [Hbase Hext].
  { unfold OsPath.splitext. destruct (_ && _); simpl; [| done].
    split; [by apply contains_take | by apply contains_drop]. }
  split.
  - apply app_no_leading; [by apply splitext_no_leading | done].
  - by rewrite !contains_app, Hbase, Hext, contains_pretty_nat.
Qed.

(** The path of a copy: the folder of the category joined with a name
    that does not start with a separator, and holds none unless it
    carries the token of an image. *)
Lemma process_file_name (output_folder : string)
    (organize_by_type add_metadata_to_filename : bool) (file_path : string)
    (st st' : run) (fs fs' : filesystem) (name dest_path : string) :
  process_file output_folder organize_by_type add_metadata_to_filename
               file_path st fs = Some (st', fs') ->
  processed_log st' = (processed_log st ++ [(name, dest_path)])%list ->
  exists category format_type method new_name,
    detect_file_type fs file_path = Return (category, format_type, method)
    /\ dest_path
       = OsPath.join (dest_folder_of output_folder organize_by_type category)
                     new_name
    /\ Py.starts_with_char OsPath.sep new_name = false
    /\ (add_metadata_to_filename = false \/ category <> "Images" ->
        Py.contains OsPath.sep new_name = false).
Proof.
  intros Hstep Hlog.
  destruct (process_file_cases output_folder organize_by_type
              add_metadata_to_filename file_path st fs)
    as (category & format_type & method & Hdetect & Hcases).
  simpl in Hcases. rewrite Hstep in Hcases.
  assert (forall l : list (string * string), l <> (l ++ [(name, dest_path)])%list)
    as Hlonger.
  { intros l E. apply (f_equal length) in E. rewrite length_app in E.
    simpl in E. lia. }
  destruct Hcases as [(? & _ & [= -> _])
                     | (_ & fs_mid & _ & Hmid & _ & Hreg
                        & [(e & _ & [= -> _])
                          | (c & dest & Hread & _ & Hfree & [= -> _])])].
  - simpl in Hlog. by destruct (Hlonger (processed_log st)).
  - simpl in Hlog. by destruct (Hlonger (processed_log st)).
  - simpl in Hlog. apply app_inv_head in Hlog. injection Hlog as <- <-.
    exists category, format_type, method.
    assert (is_Some (nodes fs !! file_path)) as Hthere.
    { apply read_all_Return in Hread as [Hnode _].
      assert (file_path ∈ regular_files fs) as [c' Hc']%elem_of_regular_files;
        [| eauto].
      rewrite <- Hreg. apply elem_of_regular_files. eauto. }
    rewrite <- (detect_file_type_extends _ _ _ Hmid Hthere) in Hdetect.
    destruct (decide (add_metadata_to_filename = false
                      \/ category <> "Images")) as [Hcase | Hno].
    + pose proof (contains_candidate_name _ _ _ _ _ _ _ Hread Hdetect Hcase)
        as Hclean.
      destruct (contains_tested _ _ _ _ _ Hclean
                  (candidate_name_no_leading _ _ _ _ _) Hfree)
        as (new_name & -> & Hlead & Hnone).
      exists new_name.
      rewrite (detect_file_type_extends _ _ _ Hmid Hthere) in Hdetect.
      by split_and!.
    + apply tested_no_leading in Hfree as (new_name & -> & Hlead);
        [| apply candidate_name_no_leading].
      exists new_name.
      rewrite (detect_file_type_extends _ _ _ Hmid Hthere) in Hdetect.
      by split_and!.
Qed.

End NoSeparator.

(** Where the entries of the processed log come from. *)
Lemma processed_log_sources {U : Py.Unicode} `{Decoders}
    (input_folder output_folder : string)
    (organize_by_type add_metadata_to_filename : bool)
    (fs fs' : filesystem) (r : run) :
  process_and_organize_files input_folder output_folder organize_by_type
                             add_metadata_to_filename fs = Some (r, fs') ->
  forall name dest_path,
    (name, dest_path) ∈ processed_log r ->
    exists file_path c category format_type method new_name,
      file_path ∈ FS.walk fs input_folder
      /\ name = OsPath.basename file_path
      /\ FS.read_all fs file_path = Return c
      /\ nodes fs' !! dest_path = Some (File c)
      /\ nodes fs' !! file_path = Some (File c)
      /\ nodes fs !! dest_path = None
      /\ detect_file_type fs file_path
         = Return (category, format_type, method)
      /\ category ∈ (SUPPORTED_FORMATS.*1 ++ ["Other"])%list
      /\ dest_path
         = OsPath.join
             (dest_folder_of output_folder organize_by_type category)
             new_name
      /\ Py.starts_with_char OsPath.sep new_name = false
      /\ (add_metadata_to_filename = false \/ category <> "Images" ->
          Py.contains OsPath.sep new_name = false).
Proof.
  unfold process_and_organize_files. simpl. intros Hrun.
  pose (P := fun (seen : list string) (st : run) (fs1 : filesystem) =>
    extends fs fs1
    /\ forall name dest_path,
         (name, dest_path) ∈ processed_log st ->
         exists file_path c category format_type method new_name,
           file_path ∈ seen
           /\ name = OsPath.basename file_path
           /\ FS.read_all fs file_path = Return c
           /\ nodes fs1 !! dest_path = Some (File c)
           /\ nodes fs !! dest_path = None
           /\ detect_file_type fs file_path
              = Return (category, format_type, method)
           /\ category ∈ (SUPPORTED_FORMATS.*1 ++ ["Other"])%list
           /\ dest_path
              = OsPath.join
                  (dest_folder_of output_folder organize_by_type category)
                  new_name
           /\ Py.starts_with_char OsPath.sep new_name = false
           /\ (add_metadata_to_filename = false \/ category <> "Images" ->
               Py.contains OsPath.sep new_name = false)).
  assert (P (FS.walk fs input_folder) r fs') as [Hext Hlog].
  { eapply (for_files_ind P); [| | exact Hrun].
    - split; [done |]. simpl. intros name dest_path Hin.
      by apply elem_of_nil in Hin.
    - intros seen p st1 fs1 st2 fs2 [Hext1 Hlog1] Hp Hstep.
      apply walk_files in Hp as [c0 Hc0].
      pose proof (fun dest =>
                    process_file_name _ _ _ _ _ _ _ _ (OsPath.basename p)
                                      dest Hstep) as Hname.
      apply process_file_inv in Hstep as [Hext2 Hkind].
      split; [by transitivity fs1 |].
      intros name dest_path Hin.
      assert (forall name0 dest0,
                (name0, dest0) ∈ processed_log st1 ->
                exists file_path c category format_type method new_name,
                  file_path ∈ (seen ++ [p])%list
                  /\ name0 = OsPath.basename file_path
                  /\ FS.read_all fs file_path = Return c
                  /\ nodes fs2 !! dest0 = Some (File c)
                  /\ nodes fs !! dest0 = None
                  /\ detect_file_type fs file_path
                     = Return (category, format_type, method)
                  /\ category ∈ (SUPPORTED_FORMATS.*1 ++ ["Other"])%list
                  /\ dest0
                     = OsPath.join
                         (dest_folder_of output_folder organize_by_type
                                         category) new_name
                  /\ Py.starts_with_char OsPath.sep new_name = false
                  /\ (add_metadata_to_filename = false
                      \/ category <> "Images" ->
                      Py.contains OsPath.sep new_name = false)) as Hold.
      { intros name0 dest0 Hin0.
        destruct (Hlog1 _ _ Hin0)
          as (q & c & cat & f & m & x & Hq & ? & ? & Hnode & ? & ? & ? & ?
              & ? & ?).
        exists q, c, cat, f, m, x. split_and!; try done.
        - apply elem_of_app. by left.
        - by apply (extends_lookup fs1). }
      destruct Hkind as [(e & _ & Hlog2 & _)
                        | (cat & f & m & dest & c & _ & Hdetect & _ & Hlog2
                           & Hread & Hfresh & Hnode & _)].
      + rewrite Hlog2 in Hin. by apply Hold.
      + destruct (Hname dest Hlog2)
          as (cat' & f' & m' & x & Hdetect' & Hdest & Hlead & Hclean).
        rewrite Hdetect in Hdetect'. injection Hdetect' as <- <- <-.
        rewrite Hlog2 in Hin. apply elem_of_app in Hin as [Hin | Hin];
          [by apply Hold |].
        apply list_elem_of_singleton in Hin. injection Hin as -> ->.
        assert (is_Some (nodes fs !! p)) as Hthere by eauto.
        rewrite (read_all_extends _ _ _ Hext1 Hthere) in Hread.
        rewrite (detect_file_type_extends _ _ _ Hext1 Hthere) in Hdetect.
        exists p, c, cat, f, m, x. split_and!; try done.
        * apply elem_of_app. right. by left.
        * destruct Hext1 as [Hsub _]. by eapply lookup_weaken_None.
        * by eapply detect_file_type_readable_category. }
  intros name dest_path Hin.
  destruct (Hlog _ _ Hin)
    as (p & c & cat & f & m & x & Hp & ? & Hread & ? & ? & ? & ? & ? & ? & ?).
  exists p, c, cat, f, m, x. split_and!; try done.
  apply read_all_Return in Hread as [Hnode _].
  by apply (extends_lookup fs).
Qed.

(** X7. Every file the run reports as processed is a copy of a file of
    the source: it has the base name and the content of a walked file
    that could be read, and its source is still in place with the same
    content. Its path is the folder of that file's category (never
    Error) joined with a name that does not start with a separator, and
    that holds no separator at all, so that the copy lies directly in
    the folder, unless the name carries the token of an image, which
    ends with the format name the image decoder gives. *)
Theorem copies_are_faithful {U : Py.Unicode} `{Decoders}
    (input_folder output_folder : string)
    (organize_by_type add_metadata_to_filename : bool)
    (fs fs' : filesystem) (r : run) :
  process_and_organize_files input_folder output_folder organize_by_type
                             add_metadata_to_filename fs = Some (r, fs') ->
  forall name dest_path,
    (name, dest_path) ∈ processed_log r ->
    exists file_path c category format_type method new_name,
      file_path ∈ FS.walk fs input_folder
      /\ name = OsPath.basename file_path
      /\ FS.read_all fs file_path = Return c
      /\ nodes fs' !! dest_path = Some (File c)
      /\ nodes fs' !! file_path = Some (File c)
      /\ nodes fs !! dest_path = None
      /\ detect_file_type fs file_path
         = Return (category, format_type, method)
      /\ category ∈ (SUPPORTED_FORMATS.*1 ++ ["Other"])%list
      /\ dest_path
         = OsPath.join
             (dest_folder_of output_folder organize_by_type category)
             new_name
      /\ Py.starts_with_char OsPath.sep new_name = false
      /\ (add_metadata_to_filename = false \/ category <> "Images" ->
          Py.contains OsPath.sep new_name = false).
Proof. apply processed_log_sources. Qed.

(** The second copy of the twins has the content of a walked file. *)
Lemma copies_are_faithful_witness :
  exists file_path c fs',
    file_path ∈ FS.walk Examples.twins "/s"
    /\ FS.read_all Examples.twins file_path = Return c
    /\ nodes fs' !! "/o/Images/x_1.png" = Some (File c).
Proof.
  destruct (@process_and_organize_files Examples.unicode Examples.decoders
      "/s" "/o" true
              false Examples.twins) as [[r fs']|] eqn:Hrun;
    [| by vm_compute in Hrun].
  assert (("x.png", "/o/Images/x_1.png") ∈ processed_log r) as Hin.
  { vm_compute in Hrun. injection Hrun as <- _. simpl.
    apply elem_of_cons. right. apply elem_of_cons. by left. }
  destruct (@copies_are_faithful Examples.unicode Examples.decoders
      "/s" "/o" true false
              Examples.twins fs' r Hrun _ _ Hin)
    as (p & c & _ & _ & _ & _ & Hp & _ & Hread & Hnode & _).
  exists p, c, fs'. exact (conj Hp (conj Hread Hnode)).
Defined.

Section CleanRun.
Context {U : Py.Unicode} `{Decoders}.


End CleanRun.



(** ** The twin in src/Metadata2File.py *)

Section TwinFacts.
Context {U : Py.Unicode}.

Lemma size_list_to_set_le (l : list string) :
  size (list_to_set l : gset string) <= length l.
Proof.
  induction l as [|x l IH]; [by rewrite list_to_set_nil, size_empty |].
  rewrite list_to_set_cons, size_union_alt, size_singleton. simpl length.
  assert (size (list_to_set l ∖ {[x]} : gset string)
          <= size (list_to_set l : gset string)) as Hle
    by (apply subseteq_size; set_solver).
  lia.
Qed.

Lemma length_filter_one {A : Type} (f : A -> bool) (x : A) :
  length (List.filter f [x]) = if f x then 1 else 0.
Proof. simpl. by destruct (f x). Qed.

Lemma multiples_of_ten (m : nat) :
  length (List.filter (fun k => (k mod 10 =? 0)%nat) (seq 1 m)) = m / 10.
Proof.
  induction m as [|m IH]; [done |].
  rewrite seq_S, List.filter_app, length_app, IH, length_filter_one.
  change (1 + m) with (S m).
  pose proof (Nat.div_mod_eq m 10) as E1.
  pose proof (Nat.div_mod_eq (S m) 10) as E2.
  pose proof (Nat.mod_upper_bound m 10 ltac:(lia)) as B1.
  pose proof (Nat.mod_upper_bound (S m) 10 ltac:(lia)) as B2.
  destruct (S m mod 10 =? 0)%nat eqn:Hmod.
  - apply Nat.eqb_eq in Hmod. lia.
  - apply Nat.eqb_neq in Hmod. lia.
Qed.

End TwinFacts.

(** X11. The run of src/Metadata2File.py counts the folders the files
    were found in: never more folders than files, none exactly when there
    is no file; and its statistics add up as those of main.py do. *)
Theorem subfolders_scanned_bounds {U : Py.Unicode} `{Decoders}
    (input_folder output_folder : string)
    (organize_by_type add_metadata_to_filename : bool)
    (fs fs' : filesystem) (res : M2F.results) :
  M2F.process_and_organize_files input_folder output_folder organize_by_type
    add_metadata_to_filename fs = Some (res, fs') ->
  let r := stats (M2F.run_stats res) in
  M2F.subfolders_scanned res <= total_files r
  /\ (M2F.subfolders_scanned res = 0 <-> total_files r = 0)
  /\ total_files r
     = length (M2F.get_all_files_from_folder fs input_folder)
  /\ processed_files r + length (errors r) = total_files r.
Proof.
  unfold M2F.process_and_organize_files.
  destruct (process_and_organize_files_spec input_folder output_folder
              organize_by_type add_metadata_to_filename fs)
    as (r0 & fs0 & Hrun0 & _ & _ & _ & _ & Htot & Hproc & _ & Herr).
  unfold process_and_organize_files in Hrun0. simpl in Hrun0.
  unfold M2F.get_all_files_from_folder. rewrite Hrun0.
  intros [= <- <-]. simpl. rewrite Htot.
  pose proof (size_list_to_set_le
                (OsPath.dirname <$> FS.walk fs input_folder)) as Hle.
  rewrite length_fmap in Hle. unfold M2F.subfolders.
  split_and!; [done | | done | lia].
  rewrite size_empty_iff. split.
  - intros Hempty. destruct (FS.walk fs input_folder) as [|p l]; [done |].
    exfalso. rewrite fmap_cons, list_to_set_cons in Hempty.
    clear -Hempty. set_solver.
  - intros Hlen. by destruct (FS.walk fs input_folder).
Qed.

(** Two files of two folders. *)
Lemma subfolders_scanned_bounds_witness :
  exists res fs',
    @M2F.process_and_organize_files Examples.unicode Examples.decoders
        "/s" "/o" true false
      Examples.twins = Some (res, fs')
    /\ M2F.subfolders_scanned res <= 2.
Proof.
  destruct (@M2F.process_and_organize_files Examples.unicode Examples.decoders
      "/s" "/o" true
              false Examples.twins) as [[res fs']|] eqn:Hrun;
    [| by vm_compute in Hrun].
  exists res, fs'. split; [reflexivity |].
  destruct (@subfolders_scanned_bounds Examples.unicode Examples.decoders
      "/s" "/o" true false
              Examples.twins fs' res Hrun) as (Hle & _ & Htot & _).
  simpl in Hle, Htot. rewrite Htot in Hle.
  vm_compute in Hle. exact Hle.
Defined.

(** X12. The window of src/Metadata2File.py writes a progress line for
    one file in ten and for the last one: over a run of n files that is
    n/10 rounded up lines, the last file is always among them, and a file
    before the last is among them exactly when its number is a multiple
    of ten. *)
Theorem progress_lines_count (total : nat) :
  length (M2F.progress_lines total) = (total + 9) / 10
  /\ (1 <= total -> total ∈ M2F.progress_lines total)
  /\ forall current,
       current ∈ M2F.progress_lines total <->
       1 <= current <= total
       /\ (current mod 10 = 0 \/ current = total).
Proof.
  split_and!.
  - destruct total as [|n]; [done |].
    unfold M2F.progress_lines.
    rewrite seq_S, List.filter_app, length_app.
    rewrite (List.filter_ext_in _ (fun k => (k mod 10 =? 0)%nat)).
    + rewrite multiples_of_ten, length_filter_one.
      unfold M2F.update_progress_logs. change (1 + n) with (S n).
      rewrite Nat.eqb_refl, orb_true_r.
      pose proof (Nat.div_mod_eq n 10) as E1.
      pose proof (Nat.div_mod_eq (S n + 9) 10) as E2.
      pose proof (Nat.mod_upper_bound n 10 ltac:(lia)) as B1.
      pose proof (Nat.mod_upper_bound (S n + 9) 10 ltac:(lia)) as B2.
      lia.
    + intros k Hk%in_seq. unfold M2F.update_progress_logs.
      replace (k =? S n)%nat with false; [by rewrite orb_false_r |].
      symmetry. apply Nat.eqb_neq. lia.
  - intros Hpos. unfold M2F.progress_lines.
    apply list_elem_of_In, filter_In. split; [apply in_seq; lia |].
    unfold M2F.update_progress_logs. by rewrite Nat.eqb_refl, orb_true_r.
  - intros current. unfold M2F.progress_lines, M2F.update_progress_logs.
    rewrite list_elem_of_In, filter_In, in_seq, orb_true_iff,
      Nat.eqb_eq, Nat.eqb_eq. split; intros [? ?]; split; lia || done.
Qed.

(** A run of 25 files: the lines of files 10, 20 and 25. *)
Lemma progress_lines_count_witness :
  25 ∈ M2F.progress_lines 25 /\ length (M2F.progress_lines 25) = 3.
Proof.
  split.
  - apply (proj1 (proj2 (progress_lines_count 25))). repeat constructor.
  - exact (proj1 (progress_lines_count 25)).
Defined.

(** ** Copies and second runs *)

Section CopyFacts.
Context {U : Py.Unicode} `{Decoders}.

Lemma decode_extends {A : Type} (dec : list byte -> outcome A)
    (fs fs' : filesystem) (p : string) :
  extends fs fs' -> is_Some (nodes fs !! p) ->
  decode dec fs' p = decode dec fs p.
Proof. intros Hext Hp. unfold decode. by rewrite (read_all_extends _ _ _ Hext Hp). Qed.

Lemma file_info_extends (fs fs' : filesystem) (p category : string) :
  extends fs fs' -> is_Some (nodes fs !! p) ->
  file_info fs' p category = file_info fs p category.
Proof.
  intros Hext Hp.
  unfold file_info, get_image_info, get_video_info, get_audio_info,
    get_document_info, get_image_info_body, get_video_info_body,
    get_audio_info_body, get_document_info_body.
  by rewrite !(decode_extends _ _ _ _ Hext Hp), (read_all_extends _ _ _ Hext Hp).
Qed.

(** The name a file is filed under does not change while the file is
    there. *)
Lemma candidate_name_extends (fs fs' : filesystem)
    (add_metadata_to_filename : bool) (p category format_type : string) :
  extends fs fs' -> is_Some (nodes fs !! p) ->
  candidate_name fs' add_metadata_to_filename p category format_type
  = candidate_name fs add_metadata_to_filename p category format_type.
Proof.
  intros Hext Hp. unfold candidate_name.
  destruct add_metadata_to_filename; [| done].
  unfold create_organized_filename, ensure_extension.
  by rewrite (detect_file_type_extends _ _ _ Hext Hp),
    (file_info_extends _ _ _ _ Hext Hp).
Qed.

(** A file classified by its content: the signature is found in what
    can be read of it. *)
Lemma magic_bytes_inv (fs : filesystem) (p category format_type : string)
    (c : list byte) :
  FS.read_all fs p = Return c ->
  detect_file_type fs p = Return (category, format_type, "magic_bytes") ->
  match_signature c = Some (category, format_type).
Proof.
  intros Hread. rewrite (detect_file_type_readable _ _ _ Hread).
  destruct (match_signature c) as [[cat fmt]|]; [by intros [= -> ->] |].
  cbv zeta. by destruct (match_extension _).
Qed.

End CopyFacts.

(** X13. A copy is classified by its content exactly as its source is:
    every processed entry is the copy of a walked file of that base name
    with the same content, and, read back after the run, the copy gets a
    category and a format by magic bytes if and only if the source got
    the same ones by magic bytes, whatever name the copy was given. *)
Theorem copy_keeps_magic_classification {U : Py.Unicode} `{Decoders}
    (input_folder output_folder : string)
    (organize_by_type add_metadata_to_filename : bool)
    (fs fs' : filesystem) (r : run) (name dest_path : string) :
  process_and_organize_files input_folder output_folder organize_by_type
                             add_metadata_to_filename fs = Some (r, fs') ->
  (name, dest_path) ∈ processed_log r ->
  dest_path ∉ denied fs ->
  exists file_path c,
    file_path ∈ FS.walk fs input_folder
    /\ name = OsPath.basename file_path
    /\ FS.read_all fs file_path = Return c
    /\ FS.read_all fs' dest_path = Return c
    /\ forall category format_type,
         detect_file_type fs file_path
         = Return (category, format_type, "magic_bytes")
         <-> detect_file_type fs' dest_path
             = Return (category, format_type, "magic_bytes").
Proof.
  intros Hrun Hin Hden.
  destruct (processed_log_sources _ _ _ _ _ _ _ Hrun _ _ Hin)
    as (p & c & _ & _ & _ & _ & Hp & Hname & Hread & Hnode & _).
  destruct (process_and_organize_files_spec input_folder output_folder
              organize_by_type add_metadata_to_filename fs)
    as (r0 & fs0 & Hrun0 & [_ Hsame] & _).
  rewrite Hrun in Hrun0. injection Hrun0 as <- <-.
  assert (FS.read_all fs' dest_path = Return c) as Hread'.
  { apply read_all_Return. split; [done | by rewrite Hsame]. }
  exists p, c. split_and!; [done.. |]. intros category format_type.
  split; intros Hd.
  - pose proof (magic_bytes_inv _ _ _ _ _ Hread Hd) as Hsig.
    by rewrite (detect_file_type_readable _ _ _ Hread'), Hsig.
  - pose proof (magic_bytes_inv _ _ _ _ _ Hread' Hd) as Hsig.
    by rewrite (detect_file_type_readable _ _ _ Hread), Hsig.
Qed.

Section SecondRun.
Context {U : Py.Unicode} `{Decoders}.

(** The copy of one iteration, seen from an earlier state [fs0] in which
    the file was there: the path is one of the tested ones of the name
    computed in [fs0]; the plain path is taken afterwards; and when it
    was taken before, the copy carries a counter. *)
Lemma process_file_shape (output_folder : string)
    (organize_by_type add_metadata_to_filename : bool) (file_path : string)
    (st st' : run) (fs0 fs fs' : filesystem) :
  extends fs0 fs -> is_Some (nodes fs0 !! file_path) ->
  process_file output_folder organize_by_type add_metadata_to_filename
               file_path st fs = Some (st', fs') ->
  processed_log st' = processed_log st
  \/ exists category format_type method i,
       detect_file_type fs0 file_path
       = Return (category, format_type, method)
       /\ let dest_folder :=
            dest_folder_of output_folder organize_by_type category in
          let new_filename :=
            candidate_name fs0 add_metadata_to_filename file_path category
                           format_type in
          let path :=
            tested dest_folder (OsPath.splitext new_filename).1
                   (OsPath.splitext new_filename).2
                   (OsPath.join dest_folder new_filename) 1 in
          processed_log st'
          = (processed_log st ++ [(OsPath.basename file_path, path i)])%list
          /\ is_Some (nodes fs' !! path 0)
          /\ (is_Some (nodes fs !! path 0) -> 1 <= i).
Proof.
  intros Hext0 Hthere Hstep.
  destruct (process_file_cases output_folder organize_by_type
              add_metadata_to_filename file_path st fs)
    as (category & format_type & method & Hdetect & Hcases).
  simpl in Hcases. rewrite Hstep in Hcases.
  destruct Hcases as [(? & _ & [= -> _])
                     | (_ & fs_mid & _ & Hmid & _ & _
                        & [(e & _ & [= -> _])
                          | (c & dest_path & _ & Hfresh & Hfree
                             & [= -> ->])])]; [by left.. |].
  right.
  assert (extends fs0 fs_mid) as Hext by by transitivity fs.
  rewrite (detect_file_type_extends _ _ _ Hext0 Hthere) in Hdetect.
  rewrite (candidate_name_extends _ _ _ _ _ _ Hext Hthere) in Hfree.
  apply free_path_shape in Hfree as (_ & i & Hshape).
  cbv zeta in Hshape. destruct Hshape as ([= ->] & Hfree & Hbefore).
  exists category, format_type, method, i. split; [done |].
  cbv zeta. split_and!; [done | |].
  - simpl nodes. destruct i as [|i].
    + simpl. rewrite lookup_insert_eq. eauto.
    + assert (0 < S i) as Hlt by lia. apply Hbefore in Hlt.
      unfold FS.exists_ in Hlt. apply bool_decide_eq_true in Hlt.
      destruct Hlt as [n Hn]. exists n.
      rewrite lookup_insert_ne; [done |].
      intros E. rewrite <- E in Hn. congruence.
  - intros [n Hn]. destruct i as [|i]; [| lia].
    apply (extends_lookup _ _ _ _ Hmid) in Hn. simpl in Hfresh, Hn. congruence.
Qed.

(** The copies of a second pass over the same files, from any state
    that extends the end of the first pass, all carry a counter. *)
Lemma for_files_renumbered (output_folder : string)
    (organize_by_type add_metadata_to_filename : bool) (files : list string)
    (fs0 : filesystem)
    (st_a st_a' st_b st_b' : run) (fs_a fs_end fs_b fs_b' : filesystem) :
  (forall p, p ∈ files -> is_Some (nodes fs0 !! p)) ->
  extends fs0 fs_a ->
  for_files output_folder organize_by_type add_metadata_to_filename
            files st_a fs_a = Some (st_a', fs_end) ->
  extends fs_end fs_b ->
  for_files output_folder organize_by_type add_metadata_to_filename
            files st_b fs_b = Some (st_b', fs_b') ->
  exists new,
    processed_log st_b' = (processed_log st_b ++ new)%list
    /\ forall name dest_path,
         (name, dest_path) ∈ new ->
         exists file_path category format_type method n,
           file_path ∈ files
           /\ name = OsPath.basename file_path
           /\ detect_file_type fs0 file_path
              = Return (category, format_type, method)
           /\ 1 <= n
           /\ let dest_folder :=
                dest_folder_of output_folder organize_by_type category in
              let new_filename :=
                candidate_name fs0 add_metadata_to_filename file_path
                               category format_type in
              dest_path
              = numbered dest_folder (OsPath.splitext new_filename).1
                         (OsPath.splitext new_filename).2 n
              /\ is_Some (nodes fs_end
                          !! OsPath.join dest_folder new_filename).
Proof.
  revert st_a st_b fs_a fs_b.
  induction files as [|file_path files IH];
    intros st_a st_b fs_a fs_b Hthere Hext0 Hrun_a Hend Hrun_b.
  { injection Hrun_b as <- <-. exists []. split; [by rewrite app_nil_r |].
    intros ?? Hin. by apply elem_of_nil in Hin. }
  simpl in Hrun_a, Hrun_b.
  destruct (process_file _ _ _ file_path st_a fs_a)
    as [[st_a1 fs_a1]|] eqn:Hstep_a; [| done].
  destruct (process_file _ _ _ file_path st_b fs_b)
    as [[st_b1 fs_b1]|] eqn:Hstep_b; [| done].
  assert (is_Some (nodes fs0 !! file_path)) as Hp by (apply Hthere; by left).
  destruct (process_file_inv _ _ _ _ _ _ _ _ Hstep_a) as [Hext_a Hkind_a].
  destruct (process_file_inv _ _ _ _ _ _ _ _ Hstep_b) as [Hext_b Hkind_b].
  destruct (for_files_spec output_folder organize_by_type
              add_metadata_to_filename files st_a1 fs_a1)
    as (st_x & fs_x & new_x & Hrun' & Hext_rest & _).
  rewrite Hrun_a in Hrun'. injection Hrun' as <- <-.
  assert (extends fs0 fs_b) as Hext0b.
  { transitivity fs_a; [done |]. transitivity fs_a1; [done |].
    by transitivity fs_end. }
  destruct (IH st_a1 st_b1 fs_a1 fs_b1) as (new & Hlog & Hnew).
  { intros p Hin. apply Hthere. by right. }
  { by transitivity fs_a. }
  { done. }
  { by transitivity fs_b. }
  { done. }
  destruct (process_file_shape _ _ _ _ _ _ _ _ _ Hext0b Hp Hstep_b)
    as [Hsame | (cat & fmt & m & i & Hdetect & Hshape_b)].
  { exists new. rewrite Hlog, Hsame. split; [done |].
    intros name dest_path Hin.
    destruct (Hnew _ _ Hin) as (q & c & f & m & n & Hq & Hrest).
    exists q, c, f, m, n. split; [by right | done]. }
  cbv zeta in Hshape_b. destruct Hshape_b as (Hlog_b & _ & Hcounter).
  exists ((OsPath.basename file_path,
           tested (dest_folder_of output_folder organize_by_type cat)
             (OsPath.splitext
                (candidate_name fs0 add_metadata_to_filename file_path cat
                                fmt)).1
             (OsPath.splitext
                (candidate_name fs0 add_metadata_to_filename file_path cat
                                fmt)).2
             (OsPath.join (dest_folder_of output_folder organize_by_type cat)
                (candidate_name fs0 add_metadata_to_filename file_path cat
                                fmt)) 1 i) :: new).
  split.
  { rewrite Hlog, Hlog_b, <- app_assoc. done. }
  intros name dest_path Hin. apply elem_of_cons in Hin as [Hin | Hin].
  2:{ destruct (Hnew _ _ Hin) as (q & c & f & m' & n & Hq & Hrest).
      exists q, c, f, m', n. split; [by right | done]. }
  injection Hin as -> ->.
  (* the first pass copied the file too *)
  assert (copies output_folder organize_by_type fs_a file_path) as Hcopies.
  { eapply (copies_rerun _ _ _ _ _ _ fs_a fs_a1 fs_b);
      [ destruct Hp as [n Hn]; exists n; by apply (extends_lookup fs0)
      | exact Hstep_a
      | by transitivity fs_end
      | ].
    destruct (process_file_copies output_folder organize_by_type
                add_metadata_to_filename file_path st_b fs_b)
      as (st1 & fs1 & Hstep1 & _ & Hkind & _).
    rewrite Hstep_b in Hstep1. injection Hstep1 as <- <-.
    destruct Hkind as [[Hyes _] | [_ [e He]]]; [done |].
    destruct Hkind_b as [(e' & _ & Hsame & _)
                        | (? & ? & ? & ? & ? & ? & _ & Hst & _)].
    - rewrite Hsame in Hlog_b.
      apply (f_equal length) in Hlog_b. rewrite length_app in Hlog_b.
      simpl in Hlog_b. lia.
    - rewrite Hst in He. simpl in He.
      apply (f_equal (fun r => length (errors r))) in He.
      simpl in He. rewrite length_app in He. simpl in He. lia. }
  destruct (process_file_shape _ _ _ _ _ _ _ _ _ Hext0 Hp Hstep_a)
    as [Hsame | (cat' & fmt' & m' & i' & Hdetect' & Hshape_a)].
  { destruct Hkind_a as [(e & _ & _ & Hno) | (? & ? & ? & ? & ? & ? & _ & _
                                              & Hlog_a & _)]; [done |].
    rewrite Hsame in Hlog_a.
    apply (f_equal length) in Hlog_a. rewrite length_app in Hlog_a.
    simpl in Hlog_a. lia. }
  rewrite Hdetect in Hdetect'. injection Hdetect' as <- <- <-.
  cbv zeta in Hshape_a. destruct Hshape_a as (_ & [n Htaken] & _).
  simpl in Htaken.
  assert (nodes fs_end
          !! OsPath.join (dest_folder_of output_folder organize_by_type cat)
               (candidate_name fs0 add_metadata_to_filename file_path cat
                               fmt) = Some n) as Hend_taken
    by by apply (extends_lookup fs_a1).
  destruct i as [|i].
  { assert (1 <= 0) as Habs; [| lia].
    apply Hcounter. exists n. simpl. by apply (extends_lookup fs_end). }
  exists file_path, cat, fmt, m, (1 + i).
  split_and!; [by left | done | done | lia |].
  cbv zeta. split; [done | eauto].
Qed.

End SecondRun.

(** The copy of the second twin is still a PNG image by content. *)
Lemma copy_keeps_magic_classification_witness :
  exists fs',
    detect_file_type (U := Examples.unicode) fs' "/o/Images/x_1.png"
    = Return ("Images", "png", "magic_bytes").
Proof.
  assert ("/o/Images/x_1.png" ∉ denied Examples.twins) as Hden.
  { simpl. apply not_elem_of_empty. }
  assert (forall p, p ∈ FS.walk Examples.twins "/s" ->
            detect_file_type (U := Examples.unicode) Examples.twins p
            = Return ("Images", "png", "magic_bytes")) as Hall.
  { intros p Hp. vm_compute in Hp.
    apply elem_of_cons in Hp as [-> | Hp]; [reflexivity |].
    apply elem_of_cons in Hp as [-> | Hp]; [reflexivity |].
    by apply elem_of_nil in Hp. }
  destruct (@process_and_organize_files Examples.unicode Examples.decoders
              "/s" "/o" true false Examples.twins) as [[r fs']|] eqn:Hrun;
    [| by vm_compute in Hrun].
  assert (("x.png", "/o/Images/x_1.png") ∈ processed_log r) as Hin.
  { vm_compute in Hrun. injection Hrun as <- _. simpl.
    apply elem_of_cons. right. apply elem_of_cons. by left. }
  destruct (@copy_keeps_magic_classification Examples.unicode
              Examples.decoders "/s" "/o" true false Examples.twins fs' r
              _ _ Hrun Hin Hden)
    as (p & c & Hp & _ & _ & _ & Hkeep).
  exists fs'. exact (proj1 (Hkeep _ _) (Hall p Hp)).
Defined.

(** X14. Organizing the same source twice into the same output never
    reuses a plain name: every copy of the second run is a numbered one,
    [<base>_<n><ext>] with [n >= 1], of the name the file is filed
    under, next to the plain path, which the first run has left taken. *)
Theorem second_run_numbers_copies {U : Py.Unicode} `{Decoders}
    (input_folder output_folder : string)
    (organize_by_type add_metadata_to_filename : bool)
    (fs fs1 fs2 : filesystem) (r1 r2 : run) :
  process_and_organize_files input_folder output_folder organize_by_type
                             add_metadata_to_filename fs = Some (r1, fs1) ->
  FS.walk fs1 input_folder = FS.walk fs input_folder ->
  process_and_organize_files input_folder output_folder organize_by_type
                             add_metadata_to_filename fs1 = Some (r2, fs2) ->
  forall name dest_path,
    (name, dest_path) ∈ processed_log r2 ->
    exists file_path category format_type method n,
      file_path ∈ FS.walk fs input_folder
      /\ name = OsPath.basename file_path
      /\ detect_file_type fs file_path
         = Return (category, format_type, method)
      /\ 1 <= n
      /\ let dest_folder :=
           dest_folder_of output_folder organize_by_type category in
         let new_filename :=
           candidate_name fs add_metadata_to_filename file_path category
                          format_type in
         dest_path
         = OsPath.join dest_folder
             ((OsPath.splitext new_filename).1 +:+ "_" +:+ pretty n
              +:+ (OsPath.splitext new_filename).2)
         /\ is_Some (nodes fs1 !! OsPath.join dest_folder new_filename).
Proof.
  unfold process_and_organize_files. cbv zeta. simpl.
  intros Hrun1 Hwalk Hrun2 name dest_path Hin. rewrite Hwalk in Hrun2.
  assert (forall p, p ∈ FS.walk fs input_folder -> is_Some (nodes fs !! p))
    as Hthere.
  { intros p Hp. destruct (walk_files _ _ _ Hp). eauto. }
  destruct (for_files_renumbered _ _ _ _ fs _ _ _ _ _ _ _ _
              Hthere (reflexivity fs) Hrun1 (reflexivity fs1) Hrun2)
    as (new & Hlog & Hnew).
  simpl in Hlog. rewrite Hlog in Hin. exact (Hnew _ _ Hin).
Qed.

(** The twins, organized twice: the second run makes numbered copies
    only, and the plain x.png of the first run is still there. *)
Lemma second_run_numbers_copies_witness :
  exists fs1 r2 fs2,
    process_and_organize_files (U := Examples.unicode) (H := Examples.decoders)
        "/s" "/o" true false
                               fs1 = Some (r2, fs2)
    /\ processed_log r2 <> []
    /\ forall name dest_path,
         (name, dest_path) ∈ processed_log r2 ->
         exists n, 1 <= n
                   /\ dest_path
                      = "/o/Images/x_" +:+ pretty n +:+ ".png".
Proof.
  assert (forall p, p ∈ FS.walk Examples.twins "/s" ->
            forall category format_type method,
              detect_file_type (U := Examples.unicode) Examples.twins p
              = Return (category, format_type, method) ->
              dest_folder_of "/o" true category = "/o/Images"
              /\ OsPath.splitext
                   (candidate_name
                       (U := Examples.unicode) (H := Examples.decoders)
                       Examples.twins
                                   false p category format_type)
                 = ("x", ".png")) as Hall.
  { intros p Hp. vm_compute in Hp.
    apply elem_of_cons in Hp as [-> | Hp];
      [intros ??? E; vm_compute in E; injection E as <- <- <-;
       split; reflexivity |].
    apply elem_of_cons in Hp as [-> | Hp];
      [intros ??? E; vm_compute in E; injection E as <- <- <-;
       split; reflexivity |].
    by apply elem_of_nil in Hp. }
  destruct (@process_and_organize_files Examples.unicode Examples.decoders
      "/s" "/o" true
              false Examples.twins) as [[r1 fs1]|] eqn:Hrun1;
    [| by vm_compute in Hrun1].
  assert (FS.walk fs1 "/s" = FS.walk Examples.twins "/s") as Hwalk.
  { vm_compute in Hrun1. injection Hrun1 as _ <-. reflexivity. }
  assert (exists r2 fs2,
            @process_and_organize_files Examples.unicode Examples.decoders
                "/s" "/o" true
              false fs1 = Some (r2, fs2) /\ processed_log r2 <> [])
    as (r2 & fs2 & Hrun2 & Hsome).
  { vm_compute in Hrun1. injection Hrun1 as _ <-.
    eexists _, _. split; [vm_compute; reflexivity |].
    intros E; discriminate E. }
  exists fs1, r2, fs2. split; [exact Hrun2 |]. split; [exact Hsome |].
  intros name dest_path Hin.
  destruct (@second_run_numbers_copies Examples.unicode Examples.decoders
      "/s" "/o" true
              false Examples.twins fs1 fs2 r1 r2 Hrun1 Hwalk Hrun2 _ _ Hin)
    as (p & cat & fmt & m & n & Hp & _ & Hdetect & Hn & Hdest & _).
  destruct (Hall p Hp _ _ _ Hdetect) as [Hfolder Hsplit].
  rewrite Hfolder, Hsplit in Hdest.
  exists n. split; [exact Hn |]. rewrite Hdest. reflexivity.
Defined.
